(** * DateFlow: an immutable wrapper around the host's [Date]

    Shallow embedding of [dist/index.js] (class [DateFlow]) together with
    the part of the host platform it runs on: the ECMAScript [Date]
    abstract operations (time values, calendar decomposition, the local
    setters) and a heap of mutable [Date] objects.

    Conventions.
    - A JavaScript number that holds an integer is a [Z]; [NaN] is [None]
      (type [num]).  The numbers of the program are IEEE 754 doubles:
      every integer of magnitude at most 2^53 is one of them, and a sum,
      a difference or a product of integers is exact as long as it stays
      within that magnitude.  The integer arithmetic below is the
      arithmetic of the doubles on that range.  Two computations of the
      class can leave it: the difference of two time values in [diff],
      which is rounded here as the doubles round it ([ES.roundDouble]);
      and the time of day that [add] builds for the units hour to
      millisecond from an amount beyond [Value.exactStep], for which the
      model does not speak (the statements about [add] on those units
      carry that bound).
    - The host time zone, the host's parser for non-ISO strings, the
      system clock and [Intl.DateTimeFormat] are fields of a [Host]. *)

From Stdlib Require Import ZArith Lia Bool String Ascii List DecimalString.
From stdpp Require Import base list.
Import ListNotations.

#[local] Open Scope Z_scope.

(** ** ECMAScript time values and calendar arithmetic *)

Module ES.

Definition msPerSecond : Z := 1000.
Definition msPerMinute : Z := 60000.
Definition msPerHour : Z := 3600000.
Definition msPerDay : Z := 86400000.
Definition maxTime : Z := 8640000000000000.

(** [NaN] is [None]. *)
Abbreviation num := (option Z) (only parsing).

Definition nadd (a b : num) : num :=
  match a, b with Some x, Some y => Some (x + y) | _, _ => None end.
Definition nsub (a b : num) : num :=
  match a, b with Some x, Some y => Some (x - y) | _, _ => None end.
Definition nmul (a b : num) : num :=
  match a, b with Some x, Some y => Some (x * y) | _, _ => None end.
Definition nneg (a : num) : num :=
  match a with Some x => Some (- x) | None => None end.
(** [a !== b] on numbers: [NaN] differs from everything, itself included. *)
Definition nneq (a b : num) : bool :=
  match a, b with Some x, Some y => negb (x =? y) | _, _ => true end.

(** The double nearest to the integer [z] (round to nearest, ties to the
    even significand): [z] itself up to 2^53 in magnitude; beyond, with
    [2^(e+52) <= |z| < 2^(e+53)], the nearest multiple of [2^e]. *)
Definition roundDouble (z : Z) : Z :=
  let a := Z.abs z in
  if a <=? 2 ^ 53 then z
  else
    let e := Z.log2 a - 52 in
    let q := a / 2 ^ e in
    let r := a mod 2 ^ e in
    let half := 2 ^ (e - 1) in
    let m := if r <? half then q
             else if half <? r then q + 1
             else if Z.even q then q else q + 1 in
    Z.sgn z * (m * 2 ^ e).

(** [a - b] in doubles, for integers [a] and [b]. *)
Definition nsubDouble (a b : num) : num :=
  match a, b with
  | Some x, Some y => Some (roundDouble (x - y))
  | _, _ => None
  end.

Definition Day (t : Z) : Z := t / msPerDay.
Definition TimeWithinDay (t : Z) : Z := t mod msPerDay.

Definition isLeapYear (y : Z) : bool :=
  if negb (y mod 4 =? 0) then false
  else if negb (y mod 100 =? 0) then true
  else if negb (y mod 400 =? 0) then false
  else true.

Definition DaysInYear (y : Z) : Z := if isLeapYear y then 366 else 365.
Definition leapOf (y : Z) : Z := if isLeapYear y then 1 else 0.

Definition DayFromYear (y : Z) : Z :=
  365 * (y - 1970) + (y - 1969) / 4 - (y - 1901) / 100 + (y - 1601) / 400.

Definition TimeFromYear (y : Z) : Z := msPerDay * DayFromYear y.

(** The largest [y] with [DayFromYear y <= d]: an estimate from the mean
    year length, corrected by at most one year either way. *)
Definition yearOfDay (d : Z) : Z :=
  let y0 := 1970 + (400 * d) / 146097 in
  if DayFromYear (y0 + 1) <=? d then y0 + 1
  else if DayFromYear y0 <=? d then y0
  else y0 - 1.

Definition YearFromTime (t : Z) : Z := yearOfDay (Day t).

Definition InLeapYear (t : Z) : Z := leapOf (YearFromTime t).

Definition DayWithinYear (t : Z) : Z := Day t - DayFromYear (YearFromTime t).

(** First day-within-year of month [m] (0-based), [leap] being 0 or 1;
    [monthStart 12] is the length of the year. *)
Definition monthStart (m leap : Z) : Z :=
  if m <=? 0 then 0
  else if m =? 1 then 31
  else if m =? 2 then 59 + leap
  else if m =? 3 then 90 + leap
  else if m =? 4 then 120 + leap
  else if m =? 5 then 151 + leap
  else if m =? 6 then 181 + leap
  else if m =? 7 then 212 + leap
  else if m =? 8 then 243 + leap
  else if m =? 9 then 273 + leap
  else if m =? 10 then 304 + leap
  else if m =? 11 then 334 + leap
  else 365 + leap.

Definition monthOfYearDay (dwy leap : Z) : Z :=
  if dwy <? 31 then 0
  else if dwy <? 59 + leap then 1
  else if dwy <? 90 + leap then 2
  else if dwy <? 120 + leap then 3
  else if dwy <? 151 + leap then 4
  else if dwy <? 181 + leap then 5
  else if dwy <? 212 + leap then 6
  else if dwy <? 243 + leap then 7
  else if dwy <? 273 + leap then 8
  else if dwy <? 304 + leap then 9
  else if dwy <? 334 + leap then 10
  else 11.

Definition MonthFromTime (t : Z) : Z :=
  monthOfYearDay (DayWithinYear t) (InLeapYear t).

Definition DateFromTime (t : Z) : Z :=
  DayWithinYear t - monthStart (MonthFromTime t) (InLeapYear t) + 1.

Definition WeekDay (t : Z) : Z := (Day t + 4) mod 7.

Definition HourFromTime (t : Z) : Z := (t / msPerHour) mod 24.
Definition MinFromTime (t : Z) : Z := (t / msPerMinute) mod 60.
Definition SecFromTime (t : Z) : Z := (t / msPerSecond) mod 60.
Definition msFromTime (t : Z) : Z := t mod msPerSecond.

Definition MakeTime (hour min sec ms : Z) : Z :=
  hour * msPerHour + min * msPerMinute + sec * msPerSecond + ms.

(** Day number of the [date]-th day of month [month] of [year]; months
    outside 0..11 carry into the year, dates outside the month carry on
    linearly. *)
Definition MakeDay (year month date : Z) : Z :=
  let ym := year + month / 12 in
  let mn := month mod 12 in
  DayFromYear ym + monthStart mn (leapOf ym) + date - 1.

Definition MakeDate (day time : Z) : Z := day * msPerDay + time.

Definition TimeClip (time : Z) : num :=
  if Z.abs time >? maxTime then None else Some time.

End ES.

(** ** The host platform *)

(** The option bag handed to [Intl.DateTimeFormat]. *)
Record IntlOptions := {
  timeZone : string;
  opt_year : option string;
  opt_month : option string;
  opt_day : option string;
  opt_hour : option string;
  opt_minute : option string;
  opt_second : option string;
  opt_hour12 : option bool
}.

(** What the class takes from its environment.  Offsets are minutes east
    of UTC.  [tzOffsetUTC t] is the offset in force at the instant [t];
    [tzOffsetLocal tl] is the offset with which the local time value [tl]
    is read back (ECMAScript: a repeated or skipped local time is read with
    the offset in force before the transition).  [parseLegacy] is whatever
    [Date.parse] accepts beyond the ISO forms decoded by [ES.parseISO].
    [dateTimeFormat locale options] is [new Intl.DateTimeFormat(locale,
    options)]: the [format] function of the formatter ([inr]), or the
    message of the [RangeError] the constructor throws ([inl]), as it does
    for a locale that is not a well-formed language tag or for a time zone
    the host does not know. *)
Record Host := {
  tzOffsetUTC : Z -> Z;
  tzOffsetLocal : Z -> Z;
  parseLegacy : string -> option Z;
  currentTime : Z;
  dateTimeFormat : string -> IntlOptions -> string + (Z -> string)
}.

Module HostDate.
Import ES.

Section WithHost.
Variable h : Host.

Definition LocalTime (t : Z) : Z := t + msPerMinute * tzOffsetUTC h t.
Definition UTC (tl : Z) : Z := tl - msPerMinute * tzOffsetLocal h tl.

(** *** Getters, on the time value of a [Date] *)

Definition local (f : Z -> Z) (tv : num) : num :=
  match tv with Some t => Some (f (LocalTime t)) | None => None end.

Definition getFullYear := local YearFromTime.
Definition getMonth := local MonthFromTime.
Definition getDate := local DateFromTime.
Definition getDay := local WeekDay.
Definition getHours := local HourFromTime.
Definition getMinutes := local MinFromTime.
Definition getSeconds := local SecFromTime.
Definition getMilliseconds := local msFromTime.

Definition getTimezoneOffset (tv : num) : num :=
  match tv with
  | Some t => Some ((t - LocalTime t) / msPerMinute)
  | None => None
  end.

(** *** Setters: new time value from the old one and the arguments.
    An optional argument that is absent is [None]; a present argument is
    a [num], which may be [NaN]. *)

Definition orField (arg : option num) (field : Z) : num :=
  match arg with Some a => a | None => Some field end.

Definition setFullYear (tv : num) (year : num) : num :=
  let t := match tv with Some t => LocalTime t | None => 0 end in
  match year with
  | Some y =>
      TimeClip (UTC (MakeDate (MakeDay y (MonthFromTime t) (DateFromTime t))
                              (TimeWithinDay t)))
  | None => None
  end.

Definition setMonth (tv : num) (month : num) (date : option num) : num :=
  match tv with
  | None => None
  | Some t0 =>
      let t := LocalTime t0 in
      match month, orField date (DateFromTime t) with
      | Some m, Some dt =>
          TimeClip (UTC (MakeDate (MakeDay (YearFromTime t) m dt)
                                  (TimeWithinDay t)))
      | _, _ => None
      end
  end.

Definition setDate (tv : num) (date : num) : num :=
  match tv with
  | None => None
  | Some t0 =>
      let t := LocalTime t0 in
      match date with
      | Some dt =>
          TimeClip (UTC (MakeDate
                           (MakeDay (YearFromTime t) (MonthFromTime t) dt)
                           (TimeWithinDay t)))
      | None => None
      end
  end.

Definition setHours (tv : num) (hour : num) (min sec ms : option num) : num :=
  match tv with
  | None => None
  | Some t0 =>
      let t := LocalTime t0 in
      match hour, orField min (MinFromTime t), orField sec (SecFromTime t),
            orField ms (msFromTime t) with
      | Some hh, Some m, Some s, Some milli =>
          TimeClip (UTC (MakeDate (Day t) (MakeTime hh m s milli)))
      | _, _, _, _ => None
      end
  end.

Definition setMinutes (tv : num) (min : num) (sec ms : option num) : num :=
  match tv with
  | None => None
  | Some t0 =>
      let t := LocalTime t0 in
      match min, orField sec (SecFromTime t), orField ms (msFromTime t) with
      | Some m, Some s, Some milli =>
          TimeClip (UTC (MakeDate (Day t)
                                  (MakeTime (HourFromTime t) m s milli)))
      | _, _, _ => None
      end
  end.

Definition setSeconds (tv : num) (sec : num) (ms : option num) : num :=
  match tv with
  | None => None
  | Some t0 =>
      let t := LocalTime t0 in
      match sec, orField ms (msFromTime t) with
      | Some s, Some milli =>
          TimeClip (UTC (MakeDate (Day t)
                           (MakeTime (HourFromTime t) (MinFromTime t) s milli)))
      | _, _ => None
      end
  end.

Definition setMilliseconds (tv : num) (ms : num) : num :=
  match tv with
  | None => None
  | Some t0 =>
      let t := LocalTime t0 in
      match ms with
      | Some milli =>
          TimeClip (UTC (MakeDate (Day t)
                           (MakeTime (HourFromTime t) (MinFromTime t)
                                     (SecFromTime t) milli)))
      | None => None
      end
  end.

End WithHost.
End HostDate.

(** ** Strings: decimal conversion, padding, search and replace *)

Module Str.
#[local] Open Scope string_scope.

(** [Number.prototype.toString] on an integer. *)
Definition toString (z : Z) : string := NilZero.string_of_int (Z.to_int z).

Fixpoint repeatChar (n : nat) (c : ascii) : string :=
  match n with
  | O => EmptyString
  | S n' => String c (repeatChar n' c)
  end.

Definition padStart (n : nat) (c : ascii) (s : string) : string :=
  repeatChar (n - String.length s) c ++ s.

Fixpoint dropChars (n : nat) (s : string) : string :=
  match n, s with
  | S n', String _ s' => dropChars n' s'
  | _, _ => s
  end.

Fixpoint includes (p s : string) : bool :=
  if String.prefix p s then true
  else match s with
       | EmptyString => false
       | String _ s' => includes p s'
       end.

(** [String.prototype.replace] with a string pattern: the first occurrence
    only.  The replacements used by the class are runs of digits with at
    most a leading minus sign, so the dollar-sign patterns of [replace]
    never apply. *)
Fixpoint replace (p r s : string) : string :=
  if String.prefix p s then r ++ dropChars (String.length p) s
  else match s with
       | EmptyString => EmptyString
       | String c s' => String c (replace p r s')
       end.

Definition digitVal (c : ascii) : option Z :=
  let n := nat_of_ascii c in
  if ((48 <=? n) && (n <=? 57))%nat then Some (Z.of_nat n - 48) else None.

Fixpoint readDigits (n : nat) (acc : Z) (s : string) : option (Z * string) :=
  match n with
  | O => Some (acc, s)
  | S n' =>
      match s with
      | String c s' =>
          match digitVal c with
          | Some d => readDigits n' (10 * acc + d) s'
          | None => None
          end
      | EmptyString => None
      end
  end.

Definition expect (c : ascii) (s : string) : option string :=
  match s with
  | String c' s' => if Ascii.eqb c c' then Some s' else None
  | EmptyString => None
  end.

End Str.

(** ** [Date.parse] and [Date.prototype.toISOString] *)

Module DateString.
Import ES Str.
#[local] Open Scope string_scope.

Definition daysInMonth (y m : Z) : Z :=
  monthStart m (leapOf y) - monthStart (m - 1) (leapOf y).

(** [YYYY-MM-DD]; only dates that exist. *)
Definition readDate (s : string) : option (Z * string) :=
  '(y, s) ← readDigits 4 0 s;
  s ← expect "-" s;
  '(m, s) ← readDigits 2 0 s;
  s ← expect "-" s;
  '(d, s) ← readDigits 2 0 s;
  if ((1 <=? m) && (m <=? 12) && (1 <=? d) && (d <=? daysInMonth y m))%Z
  then Some (MakeDay y (m - 1) d, s)
  else None.

Definition readFraction (s : string) : option (Z * string) :=
  match expect "." s with
  | Some s' => readDigits 3 0 s'
  | None => Some (0, s)
  end.

Definition readSeconds (s : string) : option (Z * Z * string) :=
  match expect ":" s with
  | Some s' =>
      '(sec, s') ← readDigits 2 0 s';
      '(ms, s') ← readFraction s';
      Some (sec, ms, s')
  | None => Some (0, 0, s)
  end.

(** [HH:mm], [HH:mm:ss] or [HH:mm:ss.sss]. *)
Definition readTime (s : string) : option (Z * string) :=
  '(hh, s) ← readDigits 2 0 s;
  s ← expect ":" s;
  '(mi, s) ← readDigits 2 0 s;
  '(sec, ms, s) ← readSeconds s;
  if ((hh <=? 23) && (mi <=? 59) && (sec <=? 59))%Z
  then Some (MakeTime hh mi sec ms, s)
  else None.

(** The ISO forms decoded here: a date alone is UTC; a date and a time is
    UTC with the suffix [Z] and local time without it.  [None]: not one of
    these forms. *)
Definition parseISO (h : Host) (s : string) : option num :=
  '(day, s) ← readDate s;
  match s with
  | EmptyString => Some (TimeClip (MakeDate day 0))
  | String c s' =>
      if Ascii.eqb c "T" then
        '(time, s'') ← readTime s';
        match s'' with
        | EmptyString => Some (TimeClip (HostDate.UTC h (MakeDate day time)))
        | "Z" => Some (TimeClip (MakeDate day time))
        | _ => None
        end
      else None
  end.

Definition parse (h : Host) (s : string) : num :=
  match parseISO h s with
  | Some tv => tv
  | None => parseLegacy h s ≫= TimeClip
  end.

Definition pad (n : nat) (z : Z) : string := padStart n "0" (toString z).

Definition isoYear (y : Z) : string :=
  if ((0 <=? y) && (y <=? 9999))%Z then pad 4 y
  else (if (y <? 0)%Z then "-" else "+") ++ pad 6 (Z.abs y).

Definition isoString (t : Z) : string :=
  isoYear (YearFromTime t) ++ "-" ++ pad 2 (MonthFromTime t + 1) ++ "-"
  ++ pad 2 (DateFromTime t) ++ "T" ++ pad 2 (HourFromTime t) ++ ":"
  ++ pad 2 (MinFromTime t) ++ ":" ++ pad 2 (SecFromTime t) ++ "."
  ++ pad 3 (msFromTime t) ++ "Z".

(** The [n] digits written for [v] are read back as [v]. *)
Definition readsBack (n : nat) (v : Z) : bool :=
  match readDigits n 0 (pad n v) with
  | Some (w, EmptyString) => (w =? v)%Z
  | _ => false
  end.

End DateString.

(** ** The heap of [Date] objects and the monad of the methods *)

Module Heap.
Import ES.

(** A [Date] object is a reference to its mutable time value. *)
Abbreviation loc := nat (only parsing).
Abbreviation heap := (list num) (only parsing).

Inductive exn : Type :=
| Error (message : string)
| RangeError (message : string).

Inductive outcome (A : Type) : Type :=
| Ok (a : A)
| Throw (e : exn).
Arguments Ok {A} a.
Arguments Throw {A} e.

(** A computation reads and writes the heap and returns or throws; the
    heap survives a throw. *)
Definition M (A : Type) : Type := heap -> outcome A * heap.

Definition ret {A} (a : A) : M A := fun σ => (Ok a, σ).
Definition throw {A} (e : exn) : M A := fun σ => (Throw e, σ).
Definition bind {A B} (m : M A) (k : A -> M B) : M B :=
  fun σ =>
    match m σ with
    | (Ok a, σ') => k a σ'
    | (Throw e, σ') => (Throw e, σ')
    end.

#[global] Instance M_ret : MRet M := @ret.
#[global] Instance M_bind : MBind M := fun A B k m => bind m k.

Definition timeValue (σ : heap) (d : loc) : num := default None (σ !! d).

Definition alloc (tv : num) : M loc := fun σ => (Ok (length σ), σ ++ [tv]).
Definition load (d : loc) : M num := fun σ => (Ok (timeValue σ d), σ).
Definition store (d : loc) (tv : num) : M unit :=
  fun σ => (Ok tt, <[d := tv]> σ).

End Heap.

(** ** [Date] objects *)

Module Date.
Import ES Heap.

Section WithHost.
Variable h : Host.

(** [new Date()], [new Date(number)], [new Date(string)] and
    [new Date(aDate)].  A number that is not finite is [None]. *)
Definition new_now : M loc := alloc (Some (currentTime h)).
Definition new_number (n : num) : M loc := alloc (n ≫= TimeClip).
Definition new_string (s : string) : M loc := alloc (DateString.parse h s).
Definition new_copy (d : loc) : M loc := tv ← load d; alloc tv.

Definition getTime (d : loc) : M num := load d.
Definition getFullYear (d : loc) : M num :=
  tv ← load d; mret (HostDate.getFullYear h tv).
Definition getMonth (d : loc) : M num :=
  tv ← load d; mret (HostDate.getMonth h tv).
Definition getDate (d : loc) : M num :=
  tv ← load d; mret (HostDate.getDate h tv).
Definition getDay (d : loc) : M num :=
  tv ← load d; mret (HostDate.getDay h tv).
Definition getHours (d : loc) : M num :=
  tv ← load d; mret (HostDate.getHours h tv).
Definition getMinutes (d : loc) : M num :=
  tv ← load d; mret (HostDate.getMinutes h tv).
Definition getSeconds (d : loc) : M num :=
  tv ← load d; mret (HostDate.getSeconds h tv).
Definition getMilliseconds (d : loc) : M num :=
  tv ← load d; mret (HostDate.getMilliseconds h tv).
Definition getTimezoneOffset (d : loc) : M num :=
  tv ← load d; mret (HostDate.getTimezoneOffset h tv).

(** The setters mutate the object.  They also return the new time value,
    which the class never uses; it is dropped here. *)
Definition setFullYear (d : loc) (year : num) : M unit :=
  tv ← load d; store d (HostDate.setFullYear h tv year).
Definition setMonth (d : loc) (month : num) (date : option num) : M unit :=
  tv ← load d; store d (HostDate.setMonth h tv month date).
Definition setDate (d : loc) (date : num) : M unit :=
  tv ← load d; store d (HostDate.setDate h tv date).
Definition setHours (d : loc) (hour : num) (min sec ms : option num)
  : M unit :=
  tv ← load d; store d (HostDate.setHours h tv hour min sec ms).
Definition setMinutes (d : loc) (min : num) (sec ms : option num) : M unit :=
  tv ← load d; store d (HostDate.setMinutes h tv min sec ms).
Definition setSeconds (d : loc) (sec : num) (ms : option num) : M unit :=
  tv ← load d; store d (HostDate.setSeconds h tv sec ms).
Definition setMilliseconds (d : loc) (ms : num) : M unit :=
  tv ← load d; store d (HostDate.setMilliseconds h tv ms).

Definition toISOString (d : loc) : M string :=
  tv ← load d;
  match tv with
  | Some t => mret (DateString.isoString t)
  | None => throw (RangeError "Invalid time value")
  end.

End WithHost.
End Date.

(** ** The class [DateFlow] *)

Inductive UnitType : Type :=
| Uyear | Umonth | Uweek | Uday | Uhour | Uminute | Usecond | Umillisecond.

(** The sixteen patterns of [DateFormatType]. *)
Definition DateFormatType : list string :=
  [ "YYYY-MM-DD HH:mm:ss"; "YYYY-MM-DD HH:mm"; "YYYY-MM-DD HH"; "YYYY-MM-DD";
    "YYYY/MM/DD HH:mm:ss"; "YYYY/MM/DD HH:mm"; "YYYY/MM/DD HH"; "YYYY/MM/DD";
    "DD/MM/YYYY HH:mm:ss"; "DD/MM/YYYY HH:mm"; "DD/MM/YYYY HH"; "DD/MM/YYYY";
    "DD-MM-YYYY HH:mm:ss"; "DD-MM-YYYY HH:mm"; "DD-MM-YYYY HH"; "DD-MM-YYYY"
  ]%string.

Definition LocaleType : list string :=
  [ "it-IT"; "en-EN"; "fr-FR"; "en-US"; "es-ES"; "de-DE"; "pt-BR"; "ja-JP";
    "zh-CN"; "ru-RU" ]%string.

Module Flow.
Import ES Heap Str.
#[local] Open Scope string_scope.

(** The three read-only fields.  [_date] is a reference into the heap;
    an absent [dateFormat] or [locale] is [None] ([undefined]). *)
Record DateFlow := {
  _date : loc;
  _dateFormat : option string;
  _locale : option string
}.

(** The [date] option of the constructor. *)
Inductive DateInput : Type :=
| ADate (d : loc)
| ANumber (n : num)
| AString (s : string).

Record Options := {
  date : option DateInput;
  dateFormat : option string;
  locale : option string
}.

(** The argument of [format]. *)
Inductive FormatParam : Type :=
| NoParam
| PatternParam (dateFormat : string)
| OptionsParam (dateFormat locale : option string).

Inductive EqualMode : Type := Strict | Short.

(** The argument of the comparisons and of [diff]. *)
Inductive Other : Type :=
| OtherDate (d : loc)
| OtherFlow (x : DateFlow).

(** JavaScript truthiness of an optional string. *)
Definition truthy (s : option string) : bool :=
  match s with
  | Some (String _ _) => true
  | _ => false
  end.

(** [a || b]. *)
Definition orElse (a b : option string) : option string :=
  if truthy a then a else b.

Definition numToString (n : num) : string :=
  match n with
  | Some z => toString z
  | None => "NaN"
  end.

Definition isNaN (n : num) : bool :=
  match n with Some _ => false | None => true end.

(** [Math.floor(a / b)] for a positive integer [b].  The quotient of the
    doubles is rounded, but for a difference of two time values (at most
    2 * 8.64e15 in magnitude, and even beyond 2^53) and the six unit
    lengths it never reaches the next integer, so its floor is the floor of
    the exact quotient. *)
Definition floorDiv (a : num) (b : Z) : num :=
  match a with Some x => Some (x / b) | None => None end.

Definition nlt (a b : num) : bool :=
  match a, b with Some x, Some y => (x <? y)%Z | _, _ => false end.
Definition neqb (a b : num) : bool := negb (nneq a b).

Definition getTimeZoneFromLocale (locale : string) : string :=
  if String.eqb locale "it-IT" then "Europe/Rome"
  else if String.eqb locale "fr-FR" then "Europe/Paris"
  else if String.eqb locale "es-ES" then "Europe/Madrid"
  else if String.eqb locale "de-DE" then "Europe/Berlin"
  else if String.eqb locale "pt-BR" then "America/Sao_Paulo"
  else if String.eqb locale "ja-JP" then "Asia/Tokyo"
  else if String.eqb locale "zh-CN" then "Asia/Shanghai"
  else if String.eqb locale "ru-RU" then "Europe/Moscow"
  else if String.eqb locale "en-EN" then "Europe/London"
  else "America/New_York".

Section WithHost.
Variable h : Host.

Definition constructor (o : Options) : M DateFlow :=
  d ← match date o with
      | None => Date.new_now h
      | Some (ADate d) => mret d
      | Some (ANumber n) => Date.new_number n
      | Some (AString s) => Date.new_string h s
      end;
  t ← Date.getTime d;
  if isNaN t then throw (Error "Invalid date provided")
  else mret {| _date := d; _dateFormat := dateFormat o; _locale := locale o |}.

(** *** Getters *)

Definition day (this : DateFlow) : M num := Date.getDate h (_date this).
Definition month (this : DateFlow) : M num :=
  m ← Date.getMonth h (_date this); mret (nadd m (Some 1)).
Definition year (this : DateFlow) : M num := Date.getFullYear h (_date this).
Definition hour (this : DateFlow) : M num := Date.getHours h (_date this).
Definition minute (this : DateFlow) : M num := Date.getMinutes h (_date this).
Definition second (this : DateFlow) : M num := Date.getSeconds h (_date this).
Definition millisecond (this : DateFlow) : M num :=
  Date.getMilliseconds h (_date this).

(** *** Arithmetic *)

Definition _modifyDate (this : DateFlow) (amount : Z) (unit : UnitType)
  : M DateFlow :=
  newDate ← Date.new_copy (_date this);
  match unit with
  | Uyear =>
      y ← Date.getFullYear h newDate;
      Date.setFullYear h newDate (nadd y (Some amount))
  | Umonth =>
      m ← Date.getMonth h newDate;
      Date.setMonth h newDate (nadd m (Some amount)) None
  | Uweek =>
      d ← Date.getDate h newDate;
      Date.setDate h newDate (nadd d (Some (amount * 7)))
  | Uday =>
      d ← Date.getDate h newDate;
      Date.setDate h newDate (nadd d (Some amount))
  | Uhour =>
      x ← Date.getHours h newDate;
      Date.setHours h newDate (nadd x (Some amount)) None None None
  | Uminute =>
      x ← Date.getMinutes h newDate;
      Date.setMinutes h newDate (nadd x (Some amount)) None None
  | Usecond =>
      x ← Date.getSeconds h newDate;
      Date.setSeconds h newDate (nadd x (Some amount)) None
  | Umillisecond =>
      x ← Date.getMilliseconds h newDate;
      Date.setMilliseconds h newDate (nadd x (Some amount))
  end;;
  (if truthy (_locale this) then
     originalOffset ← Date.getTimezoneOffset h (_date this);
     newOffset ← Date.getTimezoneOffset h newDate;
     if nneq originalOffset newOffset then
       let diffMinutes := nsub newOffset originalOffset in
       mi ← Date.getMinutes h newDate;
       Date.setMinutes h newDate (nsub mi diffMinutes) None None
     else mret tt
   else mret tt);;
  constructor {| date := Some (ADate newDate);
                 dateFormat := _dateFormat this;
                 locale := _locale this |}.

Definition add (this : DateFlow) (amount : Z) (unit : UnitType) : M DateFlow :=
  _modifyDate this amount unit.

Definition subtract (this : DateFlow) (amount : Z) (unit : UnitType)
  : M DateFlow :=
  _modifyDate this (- amount) unit.

(** *** Formatting *)

Definition intlOptions (effectiveLocale : string) (fmt : option string)
  : IntlOptions :=
  let tz := getTimeZoneFromLocale effectiveLocale in
  match fmt with
  | Some (String _ _ as f) =>
      let md := if includes "/" f then "numeric" else "2-digit" in
      if includes "HH:mm:ss" f then
        {| timeZone := tz; opt_year := Some "numeric"; opt_month := Some md;
           opt_day := Some md; opt_hour := Some "numeric";
           opt_minute := Some "numeric"; opt_second := Some "numeric";
           opt_hour12 := Some false |}
      else if includes "HH:mm" f then
        {| timeZone := tz; opt_year := Some "numeric"; opt_month := Some md;
           opt_day := Some md; opt_hour := Some "numeric";
           opt_minute := Some "numeric"; opt_second := None;
           opt_hour12 := Some false |}
      else if includes "HH" f then
        {| timeZone := tz; opt_year := Some "numeric"; opt_month := Some md;
           opt_day := Some md; opt_hour := Some "numeric";
           opt_minute := None; opt_second := None;
           opt_hour12 := Some false |}
      else
        {| timeZone := tz; opt_year := Some "numeric"; opt_month := Some md;
           opt_day := Some md; opt_hour := None;
           opt_minute := None; opt_second := None;
           opt_hour12 := None |}
  | _ =>
      {| timeZone := tz; opt_year := Some "numeric";
         opt_month := Some "2-digit"; opt_day := Some "2-digit";
         opt_hour := Some "numeric"; opt_minute := Some "numeric";
         opt_second := Some "numeric"; opt_hour12 := Some false |}
  end.

(** The manual replacement, on the pattern and the six rendered fields. *)
Definition substitute (fmt yr mo dy hr mi sc : string) : string :=
  let result := fmt in
  let result := replace "YYYY" yr result in
  let result := replace "MM" mo result in
  let result := replace "DD" dy result in
  let result := if includes "HH" result then replace "HH" hr result
                else result in
  let result := if includes "mm" result then replace "mm" mi result
                else result in
  let result := if includes "ss" result then replace "ss" sc result
                else result in
  result.

(** The pattern and the locale [format] works with: those of the
    argument, or else those of the instance. *)
Definition resolvedPattern (this : DateFlow) (param : FormatParam)
  : option string :=
  orElse (match param with
          | NoParam => None
          | PatternParam f => Some f
          | OptionsParam f _ => f
          end) (_dateFormat this).

Definition resolvedLocale (this : DateFlow) (param : FormatParam)
  : option string :=
  orElse (match param with
          | NoParam | PatternParam _ => None
          | OptionsParam _ l => l
          end) (_locale this).

Definition format (this : DateFlow) (param : FormatParam) : M string :=
  let '(dateFormat, locale) :=
    match param with
    | NoParam => (None, None)
    | PatternParam f => (Some f, None)
    | OptionsParam f l => (f, l)
    end in
  let dateFormat := orElse dateFormat (_dateFormat this) in
  let effectiveLocale := orElse locale (_locale this) in
  match effectiveLocale with
  | Some (String _ _ as loc) =>
      match dateTimeFormat h loc (intlOptions loc dateFormat) with
      | inl msg => throw (RangeError msg)
      | inr formatter =>
          tv ← Date.getTime (_date this);
          match tv with
          | Some t => mret (formatter t)
          | None => throw (RangeError "Invalid time value")
          end
      end
  | _ =>
      match dateFormat with
      | Some (String _ _ as f) =>
          y ← year this;
          mo ← month this;
          d ← day this;
          hh ← hour this;
          mi ← minute this;
          s ← second this;
          mret (substitute f (numToString y)
                  (padStart 2 "0" (numToString mo))
                  (padStart 2 "0" (numToString d))
                  (padStart 2 "0" (numToString hh))
                  (padStart 2 "0" (numToString mi))
                  (padStart 2 "0" (numToString s)))
      | _ => Date.toISOString (_date this)
      end
  end.

(** *** Comparison and difference *)

Definition _getOtherTime (o : Other) : M num :=
  match o with
  | OtherFlow x => Date.getTime (_date x)
  | OtherDate d => Date.getTime d
  end.

Definition isBefore (this : DateFlow) (o : Other) : M bool :=
  a ← Date.getTime (_date this); b ← _getOtherTime o; mret (nlt a b).

Definition isAfter (this : DateFlow) (o : Other) : M bool :=
  a ← Date.getTime (_date this); b ← _getOtherTime o; mret (nlt b a).

Definition otherDate (o : Other) : loc :=
  match o with
  | OtherFlow x => _date x
  | OtherDate d => d
  end.

Definition equal (this : DateFlow) (o : Other) (mode : EqualMode) : M bool :=
  match mode with
  | Strict =>
      a ← Date.getTime (_date this); b ← _getOtherTime o; mret (neqb a b)
  | Short =>
      thisYear ← year this;
      thisMonth ← month this;
      thisDay ← day this;
      '(otherYear, otherMonth, otherDay) ←
        match o with
        | OtherFlow x =>
            oy ← year x; om ← month x; od ← day x; mret (oy, om, od)
        | OtherDate d =>
            oy ← Date.getFullYear h d;
            om ← Date.getMonth h d;
            od ← Date.getDate h d;
            mret (oy, nadd om (Some 1), od)
        end;
      mret (neqb thisYear otherYear && neqb thisMonth otherMonth
            && neqb thisDay otherDay)
  end.

Definition diff (this : DateFlow) (o : Other) (unit : UnitType) : M num :=
  otherTime ← Date.getTime (otherDate o);
  thisTime ← Date.getTime (_date this);
  let diffMs := nsubDouble thisTime otherTime in
  match unit with
  | Umillisecond => mret diffMs
  | Usecond => mret (floorDiv diffMs 1000)
  | Uminute => mret (floorDiv diffMs (1000 * 60))
  | Uhour => mret (floorDiv diffMs (1000 * 60 * 60))
  | Uday => mret (floorDiv diffMs (1000 * 60 * 60 * 24))
  | Uweek => mret (floorDiv diffMs (1000 * 60 * 60 * 24 * 7))
  | Umonth =>
      thisYear ← Date.getFullYear h (_date this);
      thisMonth ← Date.getMonth h (_date this);
      let otherInstanceDate := otherDate o in
      otherYear ← Date.getFullYear h otherInstanceDate;
      otherMonth ← Date.getMonth h otherInstanceDate;
      mret (nadd (nmul (nsub thisYear otherYear) (Some 12))
                 (nsub thisMonth otherMonth))
  | Uyear =>
      let otherInstanceYearDate := otherDate o in
      a ← Date.getFullYear h (_date this);
      b ← Date.getFullYear h otherInstanceYearDate;
      mret (nsub a b)
  end.

(** *** Range snapping *)

Definition startOf (this : DateFlow) (unit : UnitType) : M DateFlow :=
  newDate ← Date.new_copy (_date this);
  match unit with
  | Uyear =>
      Date.setMonth h newDate (Some 0) (Some (Some 1));;
      Date.setHours h newDate (Some 0) (Some (Some 0)) (Some (Some 0))
                    (Some (Some 0))
  | Umonth =>
      Date.setDate h newDate (Some 1);;
      Date.setHours h newDate (Some 0) (Some (Some 0)) (Some (Some 0))
                    (Some (Some 0))
  | Uweek =>
      dayOfWeek ← Date.getDay h newDate;
      d ← Date.getDate h newDate;
      Date.setDate h newDate (nsub d dayOfWeek);;
      Date.setHours h newDate (Some 0) (Some (Some 0)) (Some (Some 0))
                    (Some (Some 0))
  | Uday =>
      Date.setHours h newDate (Some 0) (Some (Some 0)) (Some (Some 0))
                    (Some (Some 0))
  | Uhour =>
      Date.setMinutes h newDate (Some 0) (Some (Some 0)) (Some (Some 0))
  | Uminute =>
      Date.setSeconds h newDate (Some 0) (Some (Some 0))
  | Usecond =>
      Date.setMilliseconds h newDate (Some 0)
  | Umillisecond => mret tt
  end;;
  constructor {| date := Some (ADate newDate);
                 dateFormat := _dateFormat this;
                 locale := _locale this |}.

Definition endOf (this : DateFlow) (unit : UnitType) : M DateFlow :=
  newDate ← Date.new_copy (_date this);
  match unit with
  | Uyear =>
      Date.setMonth h newDate (Some 11) (Some (Some 31));;
      Date.setHours h newDate (Some 23) (Some (Some 59)) (Some (Some 59))
                    (Some (Some 999))
  | Umonth =>
      m ← Date.getMonth h newDate;
      Date.setMonth h newDate (nadd m (Some 1)) (Some (Some 0));;
      Date.setHours h newDate (Some 23) (Some (Some 59)) (Some (Some 59))
                    (Some (Some 999))
  | Uweek =>
      dayOfWeek ← Date.getDay h newDate;
      d ← Date.getDate h newDate;
      Date.setDate h newDate (nadd d (nsub (Some 6) dayOfWeek));;
      Date.setHours h newDate (Some 23) (Some (Some 59)) (Some (Some 59))
                    (Some (Some 999))
  | Uday =>
      Date.setHours h newDate (Some 23) (Some (Some 59)) (Some (Some 59))
                    (Some (Some 999))
  | Uhour =>
      Date.setMinutes h newDate (Some 59) (Some (Some 59)) (Some (Some 999))
  | Uminute =>
      Date.setSeconds h newDate (Some 59) (Some (Some 999))
  | Usecond =>
      Date.setMilliseconds h newDate (Some 999)
  | Umillisecond => mret tt
  end;;
  constructor {| date := Some (ADate newDate);
                 dateFormat := _dateFormat this;
                 locale := _locale this |}.

(** *** Utilities *)

Definition clone (this : DateFlow) : M DateFlow :=
  d ← Date.new_copy (_date this);
  constructor {| date := Some (ADate d);
                 dateFormat := _dateFormat this;
                 locale := _locale this |}.

Definition valueOf (this : DateFlow) : M num := Date.getTime (_date this).

Definition toISOString (this : DateFlow) : M string :=
  Date.toISOString (_date this).

End WithHost.
End Flow.

(** ** Patterns: the first occurrence of each token, in one pass *)

Module Pattern.
Import Str.
#[local] Open Scope string_scope.

(** A token with its replacement. *)
Abbreviation entry := (string * string)%type (only parsing).

(** The first pending token that starts [s], its replacement, and the
    tokens still pending after it. *)
Fixpoint findToken (pending : list entry) (s : string)
  : option (string * string * list entry) :=
  match pending with
  | [] => None
  | (tok, rep) :: rest =>
      if String.prefix tok s then Some (tok, rep, rest)
      else match findToken rest s with
           | Some (t, r, rest') => Some (t, r, (tok, rep) :: rest')
           | None => None
           end
  end.

(** The pattern read once from left to right: a pending token found at
    the current position is replaced and is pending no more; every other
    character is copied.  [skip] counts the characters of a replaced token
    still to be passed over. *)
Fixpoint firstOccurrences (pending : list entry) (skip : nat) (s : string)
  : string :=
  match s with
  | EmptyString => EmptyString
  | String c s' =>
      match skip with
      | S n => firstOccurrences pending n s'
      | O =>
          match findToken pending s with
          | Some (tok, rep, rest) =>
              rep ++ firstOccurrences rest (String.length tok - 1) s'
          | None => String c (firstOccurrences pending 0 s')
          end
      end
  end.

(** The replacements one after the other, each over the whole string. *)
Fixpoint replaceEach (pending : list entry) (s : string) : string :=
  match pending with
  | [] => s
  | (tok, rep) :: rest => replaceEach rest (replace tok rep s)
  end.

Fixpoint allChars (P : ascii -> bool) (s : string) : bool :=
  match s with
  | EmptyString => true
  | String c s' => P c && allChars P s'
  end.

Definition isLetterOf (letters : list ascii) (c : ascii) : bool :=
  existsb (Ascii.eqb c) letters.

Definition firstLetter (tok : string) : ascii :=
  match tok with
  | String a _ => a
  | EmptyString => "000"%char
  end.

(** A token is one letter repeated; a replacement is not empty and has
    none of the letters. *)
Definition okEntry (letters : list ascii) (e : entry) : Prop :=
  (exists a n, fst e = repeatChar (S n) a /\ isLetterOf letters a = true)
  /\ snd e <> EmptyString
  /\ allChars (fun c => negb (isLetterOf letters c)) (snd e) = true.

Definition wellFormed (letters : list ascii) (pending : list entry) : Prop :=
  Forall (okEntry letters) pending
  /\ NoDup (map (fun e => firstLetter (fst e)) pending).

Definition tokenLetters : list ascii :=
  ["Y"; "M"; "D"; "H"; "m"; "s"]%char.

(** The six tokens of the manual format with their replacements. *)
Definition tokens (yr mo dy hr mi sc : string) : list entry :=
  [("YYYY", yr); ("MM", mo); ("DD", dy); ("HH", hr); ("mm", mi); ("ss", sc)].

Definition isDigitOrMinus (c : ascii) : bool :=
  let n := nat_of_ascii c in
  ((48 <=? n) && (n <=? 57) || (n =? 45))%nat.

End Pattern.

(** ** The time value each method leaves in the [Date] it builds *)

Module Value.
Import ES HostDate Flow.

Section WithHost.
Variable h : Host.

(** The [switch] of [_modifyDate]. *)
Definition stepValue (unit : UnitType) (amount : Z) (tv : num) : num :=
  match unit with
  | Uyear => setFullYear h tv (nadd (getFullYear h tv) (Some amount))
  | Umonth => setMonth h tv (nadd (getMonth h tv) (Some amount)) None
  | Uweek => setDate h tv (nadd (getDate h tv) (Some (amount * 7)))
  | Uday => setDate h tv (nadd (getDate h tv) (Some amount))
  | Uhour => setHours h tv (nadd (getHours h tv) (Some amount)) None None None
  | Uminute => setMinutes h tv (nadd (getMinutes h tv) (Some amount)) None None
  | Usecond => setSeconds h tv (nadd (getSeconds h tv) (Some amount)) None
  | Umillisecond =>
      setMilliseconds h tv (nadd (getMilliseconds h tv) (Some amount))
  end.

(** The shift of the minutes by the difference of the two offsets. *)
Definition shiftMinutes (original new : num) : num :=
  let diffMinutes :=
    nsub (getTimezoneOffset h new) (getTimezoneOffset h original) in
  setMinutes h new (nsub (getMinutes h new) diffMinutes) None None.

Definition offsetChanged (original new : num) : bool :=
  nneq (getTimezoneOffset h original) (getTimezoneOffset h new).

Definition modifyValue (locale : option string) (unit : UnitType)
    (amount : Z) (tv : num) : num :=
  let new := stepValue unit amount tv in
  if truthy locale && offsetChanged tv new then shiftMinutes tv new else new.

Definition midnight (tv : num) : num :=
  setHours h tv (Some 0) (Some (Some 0)) (Some (Some 0)) (Some (Some 0)).

Definition lastMillisecond (tv : num) : num :=
  setHours h tv (Some 23) (Some (Some 59)) (Some (Some 59)) (Some (Some 999)).

Definition startOfValue (unit : UnitType) (tv : num) : num :=
  match unit with
  | Uyear => midnight (setMonth h tv (Some 0) (Some (Some 1)))
  | Umonth => midnight (setDate h tv (Some 1))
  | Uweek => midnight (setDate h tv (nsub (getDate h tv) (getDay h tv)))
  | Uday => midnight tv
  | Uhour => setMinutes h tv (Some 0) (Some (Some 0)) (Some (Some 0))
  | Uminute => setSeconds h tv (Some 0) (Some (Some 0))
  | Usecond => setMilliseconds h tv (Some 0)
  | Umillisecond => tv
  end.

Definition endOfValue (unit : UnitType) (tv : num) : num :=
  match unit with
  | Uyear => lastMillisecond (setMonth h tv (Some 11) (Some (Some 31)))
  | Umonth =>
      lastMillisecond
        (setMonth h tv (nadd (getMonth h tv) (Some 1)) (Some (Some 0)))
  | Uweek =>
      lastMillisecond
        (setDate h tv (nadd (getDate h tv) (nsub (Some 6) (getDay h tv))))
  | Uday => lastMillisecond tv
  | Uhour => setMinutes h tv (Some 59) (Some (Some 59)) (Some (Some 999))
  | Uminute => setSeconds h tv (Some 59) (Some (Some 999))
  | Usecond => setMilliseconds h tv (Some 999)
  | Umillisecond => tv
  end.

End WithHost.

(** The table of range snapping, on a local time value: the first and the
    last millisecond of the unit that contains it. *)
Definition startOfLocal (unit : UnitType) (l : Z) : Z :=
  match unit with
  | Uyear => MakeDate (MakeDay (YearFromTime l) 0 1) 0
  | Umonth => MakeDate (MakeDay (YearFromTime l) (MonthFromTime l) 1) 0
  | Uweek => MakeDate (Day l - WeekDay l) 0
  | Uday => MakeDate (Day l) 0
  | Uhour => MakeDate (Day l) (MakeTime (HourFromTime l) 0 0 0)
  | Uminute =>
      MakeDate (Day l) (MakeTime (HourFromTime l) (MinFromTime l) 0 0)
  | Usecond =>
      MakeDate (Day l)
        (MakeTime (HourFromTime l) (MinFromTime l) (SecFromTime l) 0)
  | Umillisecond => l
  end.

Definition endOfLocal (unit : UnitType) (l : Z) : Z :=
  match unit with
  | Uyear => MakeDate (MakeDay (YearFromTime l) 11 31) (MakeTime 23 59 59 999)
  | Umonth =>
      MakeDate (MakeDay (YearFromTime l) (MonthFromTime l + 1) 0)
               (MakeTime 23 59 59 999)
  | Uweek => MakeDate (Day l + (6 - WeekDay l)) (MakeTime 23 59 59 999)
  | Uday => MakeDate (Day l) (MakeTime 23 59 59 999)
  | Uhour => MakeDate (Day l) (MakeTime (HourFromTime l) 59 59 999)
  | Uminute =>
      MakeDate (Day l) (MakeTime (HourFromTime l) (MinFromTime l) 59 999)
  | Usecond =>
      MakeDate (Day l)
        (MakeTime (HourFromTime l) (MinFromTime l) (SecFromTime l) 999)
  | Umillisecond => l
  end.

(** For the units year, month and week [startOf] and [endOf] call two
    setters; the first one moves the date and keeps the time of day.  The
    local time it writes (for the other units, [l] itself): *)
Definition startOfDate (unit : UnitType) (l : Z) : Z :=
  match unit with
  | Uyear => MakeDate (MakeDay (YearFromTime l) 0 1) (TimeWithinDay l)
  | Umonth =>
      MakeDate (MakeDay (YearFromTime l) (MonthFromTime l) 1)
               (TimeWithinDay l)
  | Uweek => MakeDate (Day l - WeekDay l) (TimeWithinDay l)
  | _ => l
  end.

Definition endOfDate (unit : UnitType) (l : Z) : Z :=
  match unit with
  | Uyear => MakeDate (MakeDay (YearFromTime l) 11 31) (TimeWithinDay l)
  | Umonth =>
      MakeDate (MakeDay (YearFromTime l) (MonthFromTime l + 1) 0)
               (TimeWithinDay l)
  | Uweek => MakeDate (Day l + (6 - WeekDay l)) (TimeWithinDay l)
  | _ => l
  end.

Section WithHost.
Variable h : Host.

(** The fixed length, in milliseconds, of the units that have one. *)
Definition unitLength (unit : UnitType) : option Z :=
  match unit with
  | Umillisecond => Some 1
  | Usecond => Some 1000
  | Uminute => Some 60000
  | Uhour => Some 3600000
  | Uday => Some 86400000
  | Uweek => Some 604800000
  | Umonth | Uyear => None
  end.

(** The amounts that [add] and [subtract] handle in exact arithmetic:
    the amount times the length of the unit (the amount itself for month
    and year) leaves a time of day of room below 2^53, so that the sum
    [getX() + amount] and the sums and the products of [MakeTime] are
    integers of magnitude at most 2^53. *)
Definition exactStep (unit : UnitType) (amount : Z) : Prop :=
  Z.abs amount * (match unitLength unit with Some len => len | None => 1 end)
  <= 2 ^ 53 - msPerDay.

(** The instant the [date] option of the constructor resolves to. *)
Definition resolve (σ : Heap.heap) (input : option DateInput) : num :=
  match input with
  | None => Some (currentTime h)
  | Some (ADate d) => Heap.timeValue σ d
  | Some (ANumber n) => n ≫= TimeClip
  | Some (AString s) => DateString.parse h s
  end.

End WithHost.
End Value.

(** ** Outcomes of a method call *)

Module Run.
Import ES Heap Flow.

(** The call returns a [DateFlow] whose instant is [v]. *)
Definition returns (m : M DateFlow) (σ : heap) (v : Z) : Prop :=
  exists x' σ', m σ = (Ok x', σ') /\ timeValue σ' (_date x') = Some v.

Definition throws {A} (m : M A) (σ : heap) (e : exn) : Prop :=
  exists σ', m σ = (Throw e, σ').

(** [x] is a constructed [DateFlow] of the heap, of instant [t]. *)
Definition moment (σ : heap) (x : DateFlow) (t : Z) : Prop :=
  (_date x < length σ)%nat /\ timeValue σ (_date x) = Some t.

(** The result of a method that copies the date of [x] to a new object,
    brings the copy to the value [v] and constructs from it. *)
Definition built (σ : heap) (x : DateFlow) (v : num)
  : outcome DateFlow * heap :=
  (match v with
   | Some _ => Ok {| _date := length σ; _dateFormat := _dateFormat x;
                     _locale := _locale x |}
   | None => Throw (Error "Invalid date provided")
   end, σ ++ [v]).

(** The operations that return a new [DateFlow]. *)
Inductive Op : Type :=
| OpAdd (amount : Z) (unit : UnitType)
| OpSubtract (amount : Z) (unit : UnitType)
| OpStartOf (unit : UnitType)
| OpEndOf (unit : UnitType)
| OpClone.

(** Construction from a string, as in [new DateFlow({ date: s })]. *)
Definition ofString (h : Host) (s : string) : M DateFlow :=
  constructor h {| date := Some (AString s); dateFormat := None;
                   locale := None |}.

Definition call (h : Host) (x : DateFlow) (op : Op) : M DateFlow :=
  match op with
  | OpAdd amount unit => add h x amount unit
  | OpSubtract amount unit => subtract h x amount unit
  | OpStartOf unit => startOf h x unit
  | OpEndOf unit => endOf h x unit
  | OpClone => clone h x
  end.

End Run.

(** ** Hosts *)

Module Hosts.
Import ES.

(** The formatter of the model hosts is a placeholder: it writes the ISO
    string, for the locales made of a language of two or three letters
    and, optionally, a hyphen and a region of two letters (the form of the
    ten declared locales), and the constructor refuses every other string.
    A real host takes every well-formed tag of BCP 47. *)
Definition isAlpha (c : ascii) : bool :=
  let n := nat_of_ascii c in
  (((65 <=? n) && (n <=? 90)) || ((97 <=? n) && (n <=? 122)))%nat.

Definition regionTag (s : string) : bool :=
  match s with
  | EmptyString => true
  | String "-" (String a (String b EmptyString)) => isAlpha a && isAlpha b
  | _ => false
  end.

Definition languageTag (s : string) : bool :=
  match s with
  | String a (String b rest) =>
      isAlpha a && isAlpha b
      && match rest with
         | String c rest' => if isAlpha c then regionTag rest' else regionTag rest
         | EmptyString => true
         end
  | _ => false
  end.

Definition placeholderFormat (locale : string) (_ : IntlOptions)
  : string + (Z -> string) :=
  if languageTag locale then inr DateString.isoString
  else inl "Incorrect locale information provided"%string.

(** A host whose zone keeps one offset, [c] minutes east of UTC, and whose
    parser knows the ISO forms only. *)
Definition fixedHost (c : Z) : Host :=
  {| tzOffsetUTC := fun _ => c;
     tzOffsetLocal := fun _ => c;
     parseLegacy := fun _ => None;
     currentTime := 0;
     dateTimeFormat := placeholderFormat |}.

Definition hostUTC : Host := fixedHost 0.

(** The zone of [h] keeps the offset [c]. *)
Definition constantOffset (h : Host) (c : Z) : Prop :=
  forall t, tzOffsetUTC h t = c /\ tzOffsetLocal h t = c.

(** The rule tzdata gives for America/Nuuk in 2024: two hours west of UTC,
    one hour west between 2024-03-31T01:00Z and 2024-10-27T01:00Z. *)
Definition nuukForward : Z := MakeDate (MakeDay 2024 2 31) (MakeTime 1 0 0 0).
Definition nuukBack : Z := MakeDate (MakeDay 2024 9 27) (MakeTime 1 0 0 0).

Definition hostNuuk : Host :=
  {| tzOffsetUTC := fun t =>
       if (nuukForward <=? t) && (t <? nuukBack) then -60 else -120;
     tzOffsetLocal := fun tl =>
       if (nuukForward - 60 * msPerMinute <=? tl)
          && (tl <? nuukBack - 60 * msPerMinute)
       then -60 else -120;
     parseLegacy := fun _ => None;
     currentTime := 0;
     dateTimeFormat := placeholderFormat |}.

(** The host reads the local time [l] back: the instant it takes for [l]
    has the offset [l] was read with, so that its local time is [l] again.
    This fails for the local times that a forward change of the offset
    skips. *)
Definition readBack (h : Host) (l : Z) : Prop :=
  tzOffsetUTC h (HostDate.UTC h l) = tzOffsetLocal h l.

(** The local time written by the first of the two setters of [startOf]
    (of [endOf]) is read back; there is nothing to ask for the units with
    one setter. *)
Definition startDateReadBack (h : Host) (unit : UnitType) (l : Z) : Prop :=
  match unit with
  | Uyear | Umonth | Uweek => readBack h (Value.startOfDate unit l)
  | _ => True
  end.

Definition endDateReadBack (h : Host) (unit : UnitType) (l : Z) : Prop :=
  match unit with
  | Uyear | Umonth | Uweek => readBack h (Value.endOfDate unit l)
  | _ => True
  end.

(** [t] is the instant the host takes for the local time of [t].  This
    fails in the second pass of the local times that a backward change of
    the offset repeats. *)
Definition ownLocalTime (h : Host) (t : Z) : Prop :=
  tzOffsetLocal h (HostDate.LocalTime h t) = tzOffsetUTC h t.

(** Local times in their order are taken for instants in their order,
    when the earlier one is read back. *)
Definition orderedReading (h : Host) : Prop :=
  forall l1 l2, readBack h l1 -> l1 <= l2 ->
                HostDate.UTC h l1 <= HostDate.UTC h l2.

End Hosts.


(** * Facts about the calendar arithmetic *)

Module ESFacts.
Import ES.

Ltac zdiv := Z.div_mod_to_equations; lia.

Lemma isLeapYear_cases (y : Z) :
  (isLeapYear y = true /\ y mod 4 = 0 /\ (y mod 100 <> 0 \/ y mod 400 = 0))
  \/ (isLeapYear y = false /\ (y mod 4 <> 0 \/ (y mod 100 = 0 /\ y mod 400 <> 0))).
Proof.
  unfold isLeapYear.
  destruct (Z.eqb_spec (y mod 4) 0), (Z.eqb_spec (y mod 100) 0),
    (Z.eqb_spec (y mod 400) 0); simpl; lia.
Qed.

Lemma DayFromYear_succ (y : Z) :
  DayFromYear (y + 1) = DayFromYear y + DaysInYear y.
Proof.
  unfold DaysInYear.
  destruct (isLeapYear_cases y) as [(-> & H)|(-> & H)];
    unfold DayFromYear; zdiv.
Qed.

Lemma DayFromYear_mono (y y' : Z) :
  y <= y' -> DayFromYear y <= DayFromYear y'.
Proof. unfold DayFromYear. intros. zdiv. Qed.

Lemma DayFromYear_lt (y y' : Z) :
  y < y' -> DayFromYear y < DayFromYear y'.
Proof. unfold DayFromYear. intros. zdiv. Qed.

Lemma yearOfDay_spec (d : Z) :
  DayFromYear (yearOfDay d) <= d < DayFromYear (yearOfDay d + 1).
Proof.
  unfold yearOfDay.
  set (y0 := 1970 + 400 * d / 146097).
  assert (Hlo : DayFromYear (y0 - 1) <= d)
    by (subst y0; unfold DayFromYear; zdiv).
  assert (Hhi : d < DayFromYear (y0 + 2))
    by (subst y0; unfold DayFromYear; zdiv).
  destruct (Z.leb_spec (DayFromYear (y0 + 1)) d).
  - replace (y0 + 1 + 1) with (y0 + 2) by lia. lia.
  - destruct (Z.leb_spec (DayFromYear y0) d).
    + lia.
    + replace (y0 - 1 + 1) with y0 by lia. lia.
Qed.

Lemma yearOfDay_unique (d y : Z) :
  DayFromYear y <= d < DayFromYear (y + 1) -> yearOfDay d = y.
Proof.
  intros Hy. pose proof (yearOfDay_spec d) as Hs.
  destruct (Z.lt_trichotomy (yearOfDay d) y) as [Hlt|[Heq|Hgt]]; [|exact Heq|].
  - pose proof (DayFromYear_mono (yearOfDay d + 1) y ltac:(lia)). lia.
  - pose proof (DayFromYear_mono (y + 1) (yearOfDay d) ltac:(lia)). lia.
Qed.


(** *** Days and times of day *)

Lemma Day_MakeDate (d tm : Z) :
  0 <= tm < msPerDay -> Day (MakeDate d tm) = d.
Proof. unfold Day, MakeDate, msPerDay. intros. zdiv. Qed.

Lemma TimeWithinDay_MakeDate (d tm : Z) :
  0 <= tm < msPerDay -> TimeWithinDay (MakeDate d tm) = tm.
Proof. unfold TimeWithinDay, MakeDate, msPerDay. intros. zdiv. Qed.

Lemma TimeWithinDay_range (t : Z) : 0 <= TimeWithinDay t < msPerDay.
Proof. unfold TimeWithinDay, msPerDay. zdiv. Qed.

Lemma MakeDate_Day (t : Z) : MakeDate (Day t) (TimeWithinDay t) = t.
Proof. unfold MakeDate, Day, TimeWithinDay, msPerDay. zdiv. Qed.

Lemma time_fields (t : Z) :
  TimeWithinDay t
  = MakeTime (HourFromTime t) (MinFromTime t) (SecFromTime t) (msFromTime t)
  /\ 0 <= HourFromTime t <= 23 /\ 0 <= MinFromTime t <= 59
  /\ 0 <= SecFromTime t <= 59 /\ 0 <= msFromTime t <= 999.
Proof.
  unfold TimeWithinDay, MakeTime, HourFromTime, MinFromTime, SecFromTime,
    msFromTime, msPerDay, msPerHour, msPerMinute, msPerSecond.
  zdiv.
Qed.

Lemma fields_of_MakeTime (d hh m s ms : Z) :
  0 <= hh <= 23 -> 0 <= m <= 59 -> 0 <= s <= 59 -> 0 <= ms <= 999 ->
  let t := MakeDate d (MakeTime hh m s ms) in
  Day t = d /\ HourFromTime t = hh /\ MinFromTime t = m
  /\ SecFromTime t = s /\ msFromTime t = ms.
Proof.
  unfold MakeDate, MakeTime, Day, HourFromTime, MinFromTime, SecFromTime,
    msFromTime, msPerDay, msPerHour, msPerMinute, msPerSecond.
  intros. cbv zeta. repeat split; zdiv.
Qed.

(** *** Day number to year, month and date, and back *)

Ltac month_cases :=
  unfold monthStart, monthOfYearDay;
  repeat match goal with
         | |- context [if ?a <? ?b then _ else _] =>
             destruct (Z.ltb_spec a b)
         | |- context [if ?a <=? ?b then _ else _] =>
             destruct (Z.leb_spec a b)
         | |- context [if ?a =? ?b then _ else _] =>
             destruct (Z.eqb_spec a b)
         end;
  try lia.

Lemma leapOf_range (y : Z) : 0 <= leapOf y <= 1.
Proof. unfold leapOf. destruct (isLeapYear y); lia. Qed.

Lemma DayFromYear_next (y : Z) :
  DayFromYear (y + 1) = DayFromYear y + 365 + leapOf y.
Proof.
  rewrite DayFromYear_succ. unfold DaysInYear, leapOf.
  destruct (isLeapYear y); lia.
Qed.

Lemma monthOfYearDay_range (dwy leap : Z) :
  0 <= monthOfYearDay dwy leap <= 11.
Proof. month_cases. Qed.

Lemma monthOfYearDay_bounds (dwy leap : Z) :
  0 <= leap <= 1 -> 0 <= dwy < 365 + leap ->
  let m := monthOfYearDay dwy leap in
  monthStart m leap <= dwy < monthStart (m + 1) leap.
Proof. intros Hl Hd. cbv zeta. month_cases. Qed.

Lemma monthOfYearDay_unique (dwy leap m : Z) :
  0 <= leap <= 1 -> 0 <= m <= 11 ->
  monthStart m leap <= dwy < monthStart (m + 1) leap ->
  monthOfYearDay dwy leap = m.
Proof.
  intros Hl Hm. assert (Hc : m = 0 \/ m = 1 \/ m = 2 \/ m = 3 \/ m = 4
    \/ m = 5 \/ m = 6 \/ m = 7 \/ m = 8 \/ m = 9 \/ m = 10 \/ m = 11) by lia.
  repeat (destruct Hc as [->|Hc]); [..|subst m];
    unfold monthStart at 1 2; simpl; intros; month_cases.
Qed.

Lemma MakeDay_in_year (y m dt : Z) :
  0 <= m <= 11 ->
  MakeDay y m dt = DayFromYear y + monthStart m (leapOf y) + dt - 1.
Proof.
  intros Hm. unfold MakeDay.
  replace (m / 12) with 0 by zdiv. replace (m mod 12) with m by zdiv.
  replace (y + 0) with y by lia. reflexivity.
Qed.

Lemma DayWithinYear_range (t : Z) :
  0 <= DayWithinYear t < 365 + InLeapYear t.
Proof.
  unfold DayWithinYear, InLeapYear, YearFromTime.
  pose proof (yearOfDay_spec (Day t)) as Hs.
  rewrite DayFromYear_next in Hs. lia.
Qed.

Lemma InLeapYear_leapOf (t : Z) : InLeapYear t = leapOf (YearFromTime t).
Proof. reflexivity. Qed.

Lemma MonthFromTime_range (t : Z) : 0 <= MonthFromTime t <= 11.
Proof. apply monthOfYearDay_range. Qed.

Lemma DateFromTime_range (t : Z) :
  1 <= DateFromTime t
  <= monthStart (MonthFromTime t + 1) (InLeapYear t)
     - monthStart (MonthFromTime t) (InLeapYear t).
Proof.
  unfold DateFromTime, MonthFromTime.
  pose proof (DayWithinYear_range t) as Hd.
  assert (Hl : 0 <= InLeapYear t <= 1) by apply leapOf_range.
  pose proof (monthOfYearDay_bounds _ _ Hl Hd) as Hb. cbv zeta in Hb. lia.
Qed.

(** The day of [t], rebuilt from its own year, month and date. *)
Lemma MakeDay_fields (t dt : Z) :
  MakeDay (YearFromTime t) (MonthFromTime t) dt
  = Day t + (dt - DateFromTime t).
Proof.
  rewrite MakeDay_in_year by apply MonthFromTime_range.
  unfold DateFromTime, DayWithinYear. rewrite <- InLeapYear_leapOf. lia.
Qed.

(** The year, month and date of a day built from them. *)
Lemma fields_of_MakeDay (y m dt tm : Z) :
  0 <= m <= 11 ->
  1 <= dt <= monthStart (m + 1) (leapOf y) - monthStart m (leapOf y) ->
  0 <= tm < msPerDay ->
  let t := MakeDate (MakeDay y m dt) tm in
  YearFromTime t = y /\ MonthFromTime t = m /\ DateFromTime t = dt.
Proof.
  intros Hm Hdt Htm. cbv zeta.
  pose proof (leapOf_range y) as Hl.
  assert (Hy : YearFromTime (MakeDate (MakeDay y m dt) tm) = y).
  { unfold YearFromTime. rewrite Day_MakeDate by assumption.
    apply yearOfDay_unique. rewrite DayFromYear_next, MakeDay_in_year by lia.
    revert Hdt. generalize (leapOf y) Hl. intros l Hl'. month_cases. }
  assert (Hdwy : DayWithinYear (MakeDate (MakeDay y m dt) tm)
                 = monthStart m (leapOf y) + dt - 1).
  { unfold DayWithinYear. rewrite Hy, Day_MakeDate, MakeDay_in_year by lia.
    lia. }
  assert (Hmo : MonthFromTime (MakeDate (MakeDay y m dt) tm) = m).
  { unfold MonthFromTime. rewrite Hdwy, InLeapYear_leapOf, Hy.
    apply monthOfYearDay_unique; lia. }
  repeat split; try assumption.
  unfold DateFromTime. rewrite Hmo, Hdwy, InLeapYear_leapOf, Hy. lia.
Qed.

(** *** Rounding to a double *)

Lemma roundDouble_exact (z : Z) : Z.abs z <= 2 ^ 53 -> roundDouble z = z.
Proof.
  intros Hz. unfold roundDouble.
  destruct (Z.leb_spec (Z.abs z) (2 ^ 53)); [reflexivity|lia].
Qed.

Lemma roundDouble_opp (z : Z) : roundDouble (- z) = - roundDouble z.
Proof.
  unfold roundDouble. rewrite Z.abs_opp, Z.sgn_opp.
  destruct (Z.abs z <=? 2 ^ 53); [reflexivity|]. cbv zeta. lia.
Qed.

(** Between 2^53 and 2^54 the doubles are the even integers. *)
Lemma roundDouble_54 (z : Z) :
  Z.abs z < 2 ^ 54 ->
  Z.abs (roundDouble z - z) <= 1
  /\ (2 ^ 53 < Z.abs z -> (roundDouble z) mod 2 = 0).
Proof.
  intros Hz. unfold roundDouble.
  destruct (Z.leb_spec (Z.abs z) (2 ^ 53)) as [Hle|Hgt]; [lia|].
  replace (Z.log2 (Z.abs z)) with 53
    by (symmetry; apply Z.log2_unique; lia).
  change (53 - 52) with 1. change (2 ^ 1) with 2. change (2 ^ (1 - 1)) with 1.
  cbv zeta.
  assert (Hr : Z.abs z mod 2 = 0 \/ Z.abs z mod 2 = 1) by zdiv.
  assert (Hs : (0 < z /\ Z.sgn z = 1) \/ (z < 0 /\ Z.sgn z = -1))
    by (destruct z; cbn; lia).
  destruct Hr as [Hr|Hr]; rewrite Hr;
    change (0 <? 1) with true; change (1 <? 1) with false; cbv iota.
  - destruct Hs as [[Hp ->]|[Hn ->]]; (split; [zdiv|intros _; zdiv]).
  - destruct (Z.even (Z.abs z / 2));
      destruct Hs as [[Hp ->]|[Hn ->]]; (split; [zdiv|intros _; zdiv]).
Qed.

End ESFacts.


(** * Running the methods on the heap *)

Module RunFacts.
Import ES Heap Flow Value Run.

Lemma timeValue_new (σ : heap) (v : num) :
  timeValue (σ ++ [v]) (length σ) = v.
Proof.
  unfold timeValue. rewrite lookup_app_r by lia.
  replace (length σ - length σ)%nat with 0%nat by lia. reflexivity.
Qed.

Lemma timeValue_old (σ : heap) (v : num) (d : loc) :
  (d < length σ)%nat -> timeValue (σ ++ [v]) d = timeValue σ d.
Proof. intros Hd. unfold timeValue. rewrite lookup_app_l by lia. reflexivity. Qed.

Lemma store_new (σ : heap) (v w : num) :
  <[length σ := w]> (σ ++ [v]) = σ ++ [w].
Proof.
  rewrite insert_app_r_alt by lia.
  replace (length σ - length σ)%nat with 0%nat by lia. reflexivity.
Qed.

Lemma run_bind {A B} (m : M A) (k : A -> M B) (σ : heap) :
  (m ≫= k) σ = match m σ with
               | (Ok a, σ') => k a σ'
               | (Throw e, σ') => (Throw e, σ')
               end.
Proof. reflexivity. Qed.

Ltac run :=
  unfold mbind, mret, M_bind, M_ret, bind, ret, throw, load, store, alloc;
  cbn [date dateFormat locale _date _dateFormat _locale fst snd].

Lemma run_construct (h : Host) (σ : heap) (d : loc) (f l : option string) :
  constructor h {| date := Some (ADate d); dateFormat := f; locale := l |} σ
  = (match timeValue σ d with
     | Some _ => Ok {| _date := d; _dateFormat := f; _locale := l |}
     | None => Throw (Error "Invalid date provided")
     end, σ).
Proof.
  unfold constructor, Date.getTime. run.
  destruct (timeValue σ d); reflexivity.
Qed.

Ltac heap_simpl :=
  repeat first [ rewrite timeValue_new | rewrite store_new ].

Ltac run_method :=
  unfold Date.new_copy, Date.getTime, Date.getFullYear, Date.getMonth,
    Date.getDate, Date.getDay, Date.getHours, Date.getMinutes,
    Date.getSeconds, Date.getMilliseconds, Date.getTimezoneOffset,
    Date.setFullYear, Date.setMonth, Date.setDate, Date.setHours,
    Date.setMinutes, Date.setSeconds, Date.setMilliseconds;
  run; heap_simpl.

Lemma built_construct (h : Host) (σ : heap) (x : DateFlow) (v : num) :
  constructor h {| date := Some (ADate (length σ));
                   dateFormat := _dateFormat x;
                   locale := _locale x |} (σ ++ [v])
  = built σ x v.
Proof. rewrite run_construct, timeValue_new. reflexivity. Qed.

Lemma run_startOf (h : Host) (σ : heap) (x : DateFlow) (u : UnitType) :
  startOf h x u σ = built σ x (startOfValue h u (timeValue σ (_date x))).
Proof.
  unfold startOf. destruct u; run_method; rewrite built_construct;
    reflexivity.
Qed.

Lemma run_endOf (h : Host) (σ : heap) (x : DateFlow) (u : UnitType) :
  endOf h x u σ = built σ x (endOfValue h u (timeValue σ (_date x))).
Proof.
  unfold endOf. destruct u; run_method; rewrite built_construct;
    reflexivity.
Qed.

Lemma run_clone (h : Host) (σ : heap) (x : DateFlow) :
  clone h x σ = built σ x (timeValue σ (_date x)).
Proof. unfold clone. run_method. rewrite built_construct. reflexivity. Qed.

Lemma run_modifyDate (h : Host) (σ : heap) (x : DateFlow) (amount : Z)
    (u : UnitType) :
  (_date x < length σ)%nat ->
  _modifyDate h x amount u σ
  = built σ x (modifyValue h (_locale x) u amount (timeValue σ (_date x))).
Proof.
  intros Hx.
  unfold _modifyDate, modifyValue, offsetChanged, shiftMinutes, stepValue.
  destruct u; run_method;
    (destruct (truthy (_locale x)); cbn [andb]; run_method;
     [ rewrite timeValue_old by exact Hx;
       match goal with
       | |- context [nneq ?a ?b] => destruct (nneq a b)
       end; run_method
     | ]; rewrite built_construct; reflexivity).
Qed.

Lemma returns_built (m : M DateFlow) (σ : heap) (x : DateFlow) (v : num)
    (s : Z) :
  m σ = built σ x v -> (returns m σ s <-> v = Some s).
Proof.
  intros Hm. unfold returns. rewrite Hm. unfold built. split.
  - intros (x' & σ' & Heq & Hv). destruct v as [z|]; inversion Heq; subst.
    cbn [_date] in Hv. rewrite timeValue_new in Hv. exact Hv.
  - intros ->. eexists _, _. split; [reflexivity|]. cbn [_date].
    apply timeValue_new.
Qed.

Lemma built_total (m : M DateFlow) (σ : heap) (x : DateFlow) (v : num) :
  m σ = built σ x v ->
  (exists s, returns m σ s) \/ throws m σ (Error "Invalid date provided").
Proof.
  intros Hm. destruct v as [z|].
  - left. exists z. apply (returns_built m σ x (Some z) z Hm). reflexivity.
  - right. unfold throws. rewrite Hm. eexists. reflexivity.
Qed.

(** The constructor: a [Date] argument is kept as it is (the new
    [DateFlow] shares it); anything else becomes a new [Date]. *)
Lemma run_constructor (h : Host) (σ : heap) (o : Options) :
  constructor h o σ
  = match date o with
    | Some (ADate d) =>
        (match timeValue σ d with
         | Some _ => Ok {| _date := d; _dateFormat := dateFormat o;
                           _locale := locale o |}
         | None => Throw (Error "Invalid date provided")
         end, σ)
    | input =>
        (match resolve h σ input with
         | Some _ => Ok {| _date := length σ; _dateFormat := dateFormat o;
                           _locale := locale o |}
         | None => Throw (Error "Invalid date provided")
         end, σ ++ [resolve h σ input])
    end.
Proof.
  unfold constructor, resolve, Date.new_now, Date.new_number,
    Date.new_string, Date.getTime.
  destruct (date o) as [[d|n|s]|]; run; heap_simpl;
    first [ reflexivity
          | match goal with |- context [isNaN ?v] => destruct v end;
            reflexivity ].
Qed.

Lemma run_ofString (h : Host) (σ : heap) (s : string) :
  ofString h s σ
  = (match DateString.parse h s with
     | Some _ => Ok {| _date := length σ; _dateFormat := None;
                       _locale := None |}
     | None => Throw (Error "Invalid date provided")
     end, σ ++ [DateString.parse h s]).
Proof. unfold ofString. rewrite run_constructor. reflexivity. Qed.

Lemma run_diff (h : Host) (σ : heap) (x y : DateFlow) (u : UnitType) :
  diff h x (OtherFlow y) u σ
  = (Ok (let a := timeValue σ (_date x) in
         let b := timeValue σ (_date y) in
         match unitLength u with
         | Some len => floorDiv (nsubDouble a b) len
         | None =>
             match u with
             | Umonth =>
                 nadd (nmul (nsub (HostDate.getFullYear h a)
                                  (HostDate.getFullYear h b)) (Some 12))
                      (nsub (HostDate.getMonth h a) (HostDate.getMonth h b))
             | _ => nsub (HostDate.getFullYear h a) (HostDate.getFullYear h b)
             end
         end), σ).
Proof.
  unfold diff, otherDate. destruct u; run_method; cbn [unitLength];
    try reflexivity.
  unfold floorDiv. destruct (nsubDouble _ _) as [z|]; [|reflexivity].
  rewrite Z.div_1_r. reflexivity.
Qed.

End RunFacts.


(** * Range snapping on a host of constant offset *)

Module SnapFacts.
Import ES ESFacts Heap Flow Value Run Hosts.

Lemma TimeClip_Some (z s : Z) :
  TimeClip z = Some s -> s = z /\ Z.abs z <= maxTime.
Proof.
  unfold TimeClip. destruct (Z.gtb_spec (Z.abs z) maxTime); [discriminate|].
  intros [= ->]. lia.
Qed.

Lemma TimeClip_in_range (z : Z) : Z.abs z <= maxTime -> TimeClip z = Some z.
Proof.
  unfold TimeClip. destruct (Z.gtb_spec (Z.abs z) maxTime); [lia|reflexivity].
Qed.

(** *** The table brackets the local time *)

Lemma WeekDay_range (l : Z) : 0 <= WeekDay l <= 6.
Proof. unfold WeekDay. zdiv. Qed.

Lemma MakeDate_le (d tm l : Z) :
  d <= Day l -> tm <= TimeWithinDay l -> MakeDate d tm <= l.
Proof.
  intros Hd Htm. rewrite <- (MakeDate_Day l) at 1. unfold MakeDate, msPerDay.
  nia.
Qed.

Lemma MakeDate_ge (d tm l : Z) :
  Day l <= d -> TimeWithinDay l <= tm -> l <= MakeDate d tm.
Proof.
  intros Hd Htm. rewrite <- (MakeDate_Day l) at 1. unfold MakeDate, msPerDay.
  nia.
Qed.

Lemma MakeDay_month_end (y m : Z) :
  0 <= m <= 11 ->
  MakeDay y (m + 1) 0
  = MakeDay y m (monthStart (m + 1) (leapOf y) - monthStart m (leapOf y)).
Proof.
  intros Hm. rewrite (MakeDay_in_year y m) by lia.
  destruct (Z.eq_dec m 11) as [->|Hne].
  - unfold MakeDay. change ((11 + 1) / 12) with 1.
    change ((11 + 1) mod 12) with 0. rewrite DayFromYear_next.
    unfold monthStart; simpl. lia.
  - rewrite MakeDay_in_year by lia. lia.
Qed.

Lemma month_length_pos (m leap : Z) :
  0 <= m <= 11 -> 0 <= leap <= 1 ->
  1 <= monthStart (m + 1) leap - monthStart m leap.
Proof. intros Hm Hl. month_cases. Qed.

Lemma startOfLocal_le (u : UnitType) (l : Z) : startOfLocal u l <= l.
Proof.
  pose proof (time_fields l) as (Htw & Hh & Hm & Hs & Hms).
  pose proof (TimeWithinDay_range l) as Hr.
  destruct u; cbn [startOfLocal]; try apply MakeDate_le;
    try rewrite Htw; unfold MakeTime, msPerHour, msPerMinute, msPerSecond;
    try lia.
  - rewrite MakeDay_in_year by lia. unfold monthStart; simpl.
    pose proof (yearOfDay_spec (Day l)). unfold YearFromTime. lia.
  - rewrite MakeDay_fields. pose proof (DateFromTime_range l). lia.
  - pose proof (WeekDay_range l). lia.
Qed.

Lemma endOfLocal_ge (u : UnitType) (l : Z) : l <= endOfLocal u l.
Proof.
  pose proof (time_fields l) as (Htw & Hh & Hm & Hs & Hms).
  pose proof (TimeWithinDay_range l) as Hr.
  destruct u; cbn [endOfLocal]; try apply MakeDate_ge;
    try rewrite Htw; unfold MakeTime, msPerHour, msPerMinute, msPerSecond;
    try lia.
  - rewrite MakeDay_in_year by lia. unfold monthStart; simpl.
    pose proof (yearOfDay_spec (Day l)) as Hs'. unfold YearFromTime.
    rewrite DayFromYear_next in Hs'. lia.
  - rewrite MakeDay_month_end by apply MonthFromTime_range.
    rewrite MakeDay_fields. pose proof (DateFromTime_range l) as Hd.
    rewrite InLeapYear_leapOf in Hd. lia.
  - pose proof (WeekDay_range l). lia.
Qed.

(** *** The setters on a host of constant offset *)

Section Fixed.
Variable c : Z.
#[local] Abbreviation k := (msPerMinute * c).
#[local] Abbreviation H := (fixedHost c).

Lemma setMonth_fixed (t m dt : Z) :
  HostDate.setMonth H (Some t) (Some m) (Some (Some dt))
  = TimeClip (MakeDate (MakeDay (YearFromTime (t + k)) m dt)
                       (TimeWithinDay (t + k)) - k).
Proof. reflexivity. Qed.

Lemma setDate_fixed (t dt : Z) :
  HostDate.setDate H (Some t) (Some dt)
  = TimeClip (MakeDate (MakeDay (YearFromTime (t + k))
                                (MonthFromTime (t + k)) dt)
                       (TimeWithinDay (t + k)) - k).
Proof. reflexivity. Qed.

Lemma setHours_fixed (t hh m s ms : Z) :
  HostDate.setHours H (Some t) (Some hh) (Some (Some m)) (Some (Some s))
                    (Some (Some ms))
  = TimeClip (MakeDate (Day (t + k)) (MakeTime hh m s ms) - k).
Proof. reflexivity. Qed.

Lemma setMinutes_fixed (t m s ms : Z) :
  HostDate.setMinutes H (Some t) (Some m) (Some (Some s)) (Some (Some ms))
  = TimeClip (MakeDate (Day (t + k))
                (MakeTime (HourFromTime (t + k)) m s ms) - k).
Proof. reflexivity. Qed.

Lemma setSeconds_fixed (t s ms : Z) :
  HostDate.setSeconds H (Some t) (Some s) (Some (Some ms))
  = TimeClip (MakeDate (Day (t + k))
                (MakeTime (HourFromTime (t + k)) (MinFromTime (t + k)) s ms)
              - k).
Proof. reflexivity. Qed.

Lemma setMilliseconds_fixed (t ms : Z) :
  HostDate.setMilliseconds H (Some t) (Some ms)
  = TimeClip (MakeDate (Day (t + k))
                (MakeTime (HourFromTime (t + k)) (MinFromTime (t + k))
                          (SecFromTime (t + k)) ms)
              - k).
Proof. reflexivity. Qed.

Lemma getDate_fixed (t : Z) :
  HostDate.getDate H (Some t) = Some (DateFromTime (t + k)).
Proof. reflexivity. Qed.

Lemma getDay_fixed (t : Z) :
  HostDate.getDay H (Some t) = Some (WeekDay (t + k)).
Proof. reflexivity. Qed.

Lemma getMonth_fixed (t : Z) :
  HostDate.getMonth H (Some t) = Some (MonthFromTime (t + k)).
Proof. reflexivity. Qed.

(** Two setters in a row: the second one sees the local time the first
    one left. *)
Lemma setHours_after (z hh m s ms v : Z) :
  HostDate.setHours H (TimeClip (z - k)) (Some hh) (Some (Some m))
    (Some (Some s)) (Some (Some ms)) = Some v ->
  v + k = MakeDate (Day z) (MakeTime hh m s ms) /\ Z.abs v <= maxTime.
Proof.
  destruct (TimeClip (z - k)) as [t1|] eqn:Ht1; [|discriminate].
  apply TimeClip_Some in Ht1 as [-> _]. rewrite setHours_fixed.
  intros Hv. apply TimeClip_Some in Hv as [-> Hr].
  replace (z - k + k) with z in * by lia. split; [lia|exact Hr].
Qed.

Lemma TimeClip_shift (z v : Z) :
  TimeClip (z - k) = Some v -> v + k = z /\ Z.abs v <= maxTime.
Proof. intros Hv. apply TimeClip_Some in Hv as [-> Hr]. split; [lia|exact Hr]. Qed.

(** What [startOf] and [endOf] leave in the new date is the entry of
    the table, read in local time; but for the unit millisecond it went
    through [TimeClip]. *)
Lemma startOfValue_fixed (u : UnitType) (t v : Z) :
  startOfValue H u (Some t) = Some v ->
  v + k = startOfLocal u (t + k)
  /\ (u = Umillisecond \/ Z.abs v <= maxTime).
Proof.
  destruct u; cbn [startOfValue startOfLocal]; unfold midnight.
  - rewrite setMonth_fixed. intros Hv. apply setHours_after in Hv as [Hv Hr].
    rewrite Hv, Day_MakeDate by apply TimeWithinDay_range. auto.
  - rewrite setDate_fixed. intros Hv. apply setHours_after in Hv as [Hv Hr].
    rewrite Hv, Day_MakeDate by apply TimeWithinDay_range. auto.
  - rewrite getDate_fixed, getDay_fixed. cbn [nsub]. rewrite setDate_fixed.
    intros Hv. apply setHours_after in Hv as [Hv Hr].
    rewrite Hv, Day_MakeDate by apply TimeWithinDay_range.
    rewrite MakeDay_fields. split; [|auto]. f_equal. lia.
  - rewrite setHours_fixed. intros Hv. apply TimeClip_shift in Hv as [Hv Hr].
    auto.
  - rewrite setMinutes_fixed. intros Hv. apply TimeClip_shift in Hv as [Hv Hr].
    auto.
  - rewrite setSeconds_fixed. intros Hv. apply TimeClip_shift in Hv as [Hv Hr].
    auto.
  - rewrite setMilliseconds_fixed. intros Hv.
    apply TimeClip_shift in Hv as [Hv Hr]. auto.
  - intros [= ->]. auto.
Qed.

Lemma endOfValue_fixed (u : UnitType) (t v : Z) :
  endOfValue H u (Some t) = Some v ->
  v + k = endOfLocal u (t + k)
  /\ (u = Umillisecond \/ Z.abs v <= maxTime).
Proof.
  destruct u; cbn [endOfValue endOfLocal]; unfold lastMillisecond.
  - rewrite setMonth_fixed. intros Hv. apply setHours_after in Hv as [Hv Hr].
    rewrite Hv, Day_MakeDate by apply TimeWithinDay_range. auto.
  - rewrite getMonth_fixed. cbn [nadd]. rewrite setMonth_fixed.
    intros Hv. apply setHours_after in Hv as [Hv Hr].
    rewrite Hv, Day_MakeDate by apply TimeWithinDay_range. auto.
  - rewrite getDate_fixed, getDay_fixed. cbn [nsub nadd].
    rewrite setDate_fixed. intros Hv. apply setHours_after in Hv as [Hv Hr].
    rewrite Hv, Day_MakeDate by apply TimeWithinDay_range.
    rewrite MakeDay_fields. split; [|auto]. f_equal. lia.
  - rewrite setHours_fixed. intros Hv. apply TimeClip_shift in Hv as [Hv Hr].
    auto.
  - rewrite setMinutes_fixed. intros Hv. apply TimeClip_shift in Hv as [Hv Hr].
    auto.
  - rewrite setSeconds_fixed. intros Hv. apply TimeClip_shift in Hv as [Hv Hr].
    auto.
  - rewrite setMilliseconds_fixed. intros Hv.
    apply TimeClip_shift in Hv as [Hv Hr]. auto.
  - intros [= ->]. auto.
Qed.

(** *** Snapping what is already snapped *)

Lemma back_and_forth (l : Z) : l - k + k = l.
Proof. lia. Qed.

Lemma setHours_same (d tm hh m s ms : Z) :
  0 <= tm < msPerDay -> MakeTime hh m s ms = tm ->
  Z.abs (MakeDate d tm - k) <= maxTime ->
  HostDate.setHours H (Some (MakeDate d tm - k)) (Some hh) (Some (Some m))
    (Some (Some s)) (Some (Some ms))
  = Some (MakeDate d tm - k).
Proof.
  intros Htm Hmk Hr. rewrite setHours_fixed, back_and_forth.
  rewrite Day_MakeDate, Hmk by exact Htm. apply TimeClip_in_range, Hr.
Qed.

Lemma setDate_same (y m dt tm : Z) :
  0 <= m <= 11 ->
  1 <= dt <= monthStart (m + 1) (leapOf y) - monthStart m (leapOf y) ->
  0 <= tm < msPerDay ->
  Z.abs (MakeDate (MakeDay y m dt) tm - k) <= maxTime ->
  HostDate.setDate H (Some (MakeDate (MakeDay y m dt) tm - k)) (Some dt)
  = Some (MakeDate (MakeDay y m dt) tm - k).
Proof.
  intros Hm Hdt Htm Hr. rewrite setDate_fixed, back_and_forth.
  destruct (fields_of_MakeDay y m dt tm Hm Hdt Htm) as (-> & -> & _).
  rewrite TimeWithinDay_MakeDate by exact Htm. apply TimeClip_in_range, Hr.
Qed.

Lemma setMonth_same (y m dt tm : Z) :
  0 <= m <= 11 ->
  1 <= dt <= monthStart (m + 1) (leapOf y) - monthStart m (leapOf y) ->
  0 <= tm < msPerDay ->
  Z.abs (MakeDate (MakeDay y m dt) tm - k) <= maxTime ->
  HostDate.setMonth H (Some (MakeDate (MakeDay y m dt) tm - k)) (Some m)
    (Some (Some dt))
  = Some (MakeDate (MakeDay y m dt) tm - k).
Proof.
  intros Hm Hdt Htm Hr. rewrite setMonth_fixed, back_and_forth.
  destruct (fields_of_MakeDay y m dt tm Hm Hdt Htm) as (-> & _ & _).
  rewrite TimeWithinDay_MakeDate by exact Htm. apply TimeClip_in_range, Hr.
Qed.

Lemma WeekDay_MakeDate (d tm : Z) :
  0 <= tm < msPerDay -> WeekDay (MakeDate d tm) = (d + 4) mod 7.
Proof. intros Htm. unfold WeekDay. rewrite Day_MakeDate by exact Htm. reflexivity. Qed.

(** Moving the date of a day by [n] moves the day by [n]. *)
Lemma setDate_current (d tm n : Z) :
  0 <= tm < msPerDay ->
  HostDate.setDate H (Some (MakeDate d tm - k))
    (Some (DateFromTime (MakeDate d tm) + n))
  = TimeClip (MakeDate (d + n) tm - k).
Proof.
  intros Htm. rewrite setDate_fixed, back_and_forth.
  rewrite MakeDay_fields, Day_MakeDate, TimeWithinDay_MakeDate by exact Htm.
  do 3 f_equal. lia.
Qed.

Lemma end_of_day_range : 0 <= MakeTime 23 59 59 999 < msPerDay.
Proof. unfold MakeTime, msPerHour, msPerMinute, msPerSecond, msPerDay. lia. Qed.

Lemma startOfValue_fixed_snapped (u : UnitType) (l0 : Z) :
  Z.abs (startOfLocal u l0 - k) <= maxTime ->
  startOfValue H u (Some (startOfLocal u l0 - k))
  = Some (startOfLocal u l0 - k).
Proof.
  pose proof (time_fields l0) as (_ & Hh & Hm & Hs & Hms).
  assert (H0 : 0 <= 0 < msPerDay) by (unfold msPerDay; lia).
  destruct u; cbn [startOfValue startOfLocal]; unfold midnight; intros Hr.
  - rewrite setMonth_same; [|lia|unfold monthStart; simpl; pose proof (leapOf_range (YearFromTime l0)); lia|exact H0|exact Hr].
    apply setHours_same; [exact H0|reflexivity|exact Hr].
  - rewrite setDate_same;
      [|apply MonthFromTime_range
       |pose proof (month_length_pos (MonthFromTime l0)
                      (leapOf (YearFromTime l0)) (MonthFromTime_range l0)
                      (leapOf_range _)); lia
       |exact H0|exact Hr].
    apply setHours_same; [exact H0|reflexivity|exact Hr].
  - rewrite getDate_fixed, getDay_fixed, back_and_forth.
    rewrite WeekDay_MakeDate by exact H0.
    replace ((Day l0 - WeekDay l0 + 4) mod 7) with 0
      by (unfold WeekDay; zdiv).
    cbn [nsub].
    replace (DateFromTime (MakeDate (Day l0 - WeekDay l0) 0) - 0)
      with (DateFromTime (MakeDate (Day l0 - WeekDay l0) 0) + 0) by lia.
    rewrite setDate_current by exact H0.
    replace (Day l0 - WeekDay l0 + 0) with (Day l0 - WeekDay l0) by lia.
    rewrite TimeClip_in_range by exact Hr.
    apply setHours_same; [exact H0|reflexivity|exact Hr].
  - apply setHours_same; [exact H0|reflexivity|exact Hr].
  - rewrite setMinutes_fixed, back_and_forth.
    destruct (fields_of_MakeTime (Day l0) (HourFromTime l0) 0 0 0)
      as (-> & -> & _); try lia.
    apply TimeClip_in_range, Hr.
  - rewrite setSeconds_fixed, back_and_forth.
    destruct (fields_of_MakeTime (Day l0) (HourFromTime l0) (MinFromTime l0)
                0 0) as (-> & -> & -> & _); try lia.
    apply TimeClip_in_range, Hr.
  - rewrite setMilliseconds_fixed, back_and_forth.
    destruct (fields_of_MakeTime (Day l0) (HourFromTime l0) (MinFromTime l0)
                (SecFromTime l0) 0) as (-> & -> & -> & -> & _); try lia.
    apply TimeClip_in_range, Hr.
  - reflexivity.
Qed.

Lemma endOfValue_fixed_snapped (u : UnitType) (l0 : Z) :
  Z.abs (endOfLocal u l0 - k) <= maxTime ->
  endOfValue H u (Some (endOfLocal u l0 - k)) = Some (endOfLocal u l0 - k).
Proof.
  pose proof (time_fields l0) as (_ & Hh & Hm & Hs & Hms).
  pose proof end_of_day_range as He.
  destruct u; cbn [endOfValue endOfLocal]; unfold lastMillisecond; intros Hr.
  - rewrite setMonth_same; [|lia|unfold monthStart; simpl; pose proof (leapOf_range (YearFromTime l0)); lia|exact He|exact Hr].
    apply setHours_same; [exact He|reflexivity|exact Hr].
  - rewrite getMonth_fixed, back_and_forth.
    rewrite MakeDay_month_end in Hr |- * by apply MonthFromTime_range.
    pose proof (month_length_pos (MonthFromTime l0)
                  (leapOf (YearFromTime l0)) (MonthFromTime_range l0)
                  (leapOf_range _)) as Hlen.
    destruct (fields_of_MakeDay (YearFromTime l0) (MonthFromTime l0)
                (monthStart (MonthFromTime l0 + 1) (leapOf (YearFromTime l0))
                 - monthStart (MonthFromTime l0) (leapOf (YearFromTime l0)))
                (MakeTime 23 59 59 999) (MonthFromTime_range l0)
                ltac:(lia) He) as (Hy & Hmo & Hd).
    rewrite Hmo. cbn [nadd]. rewrite setMonth_fixed, back_and_forth.
    rewrite Hy, TimeWithinDay_MakeDate by exact He.
    rewrite MakeDay_month_end by apply MonthFromTime_range.
    rewrite TimeClip_in_range by exact Hr.
    apply setHours_same; [exact He|reflexivity|exact Hr].
  - rewrite getDate_fixed, getDay_fixed, back_and_forth.
    rewrite WeekDay_MakeDate by exact He.
    replace ((Day l0 + (6 - WeekDay l0) + 4) mod 7) with 6
      by (unfold WeekDay; zdiv).
    cbn [nsub nadd]. change (6 - 6) with 0.
    rewrite setDate_current by exact He.
    replace (Day l0 + (6 - WeekDay l0) + 0) with (Day l0 + (6 - WeekDay l0))
      by lia.
    rewrite TimeClip_in_range by exact Hr.
    apply setHours_same; [exact He|reflexivity|exact Hr].
  - apply setHours_same; [exact He|reflexivity|exact Hr].
  - rewrite setMinutes_fixed, back_and_forth.
    destruct (fields_of_MakeTime (Day l0) (HourFromTime l0) 59 59 999)
      as (-> & -> & _); try lia.
    apply TimeClip_in_range, Hr.
  - rewrite setSeconds_fixed, back_and_forth.
    destruct (fields_of_MakeTime (Day l0) (HourFromTime l0) (MinFromTime l0)
                59 999) as (-> & -> & -> & _); try lia.
    apply TimeClip_in_range, Hr.
  - rewrite setMilliseconds_fixed, back_and_forth.
    destruct (fields_of_MakeTime (Day l0) (HourFromTime l0) (MinFromTime l0)
                (SecFromTime l0) 999) as (-> & -> & -> & -> & _); try lia.
    apply TimeClip_in_range, Hr.
  - reflexivity.
Qed.

(** *** When the snapped instant is representable, it is returned *)

Lemma midnight_via (d tw : Z) :
  0 <= tw < msPerDay ->
  Z.abs (MakeDate d 0 - k) <= maxTime -> MakeDate d tw - k <= maxTime ->
  midnight H (TimeClip (MakeDate d tw - k)) = Some (MakeDate d 0 - k).
Proof.
  intros Htw Hr Hhi.
  assert (MakeDate d 0 <= MakeDate d tw) by (unfold MakeDate; lia).
  rewrite TimeClip_in_range by lia. unfold midnight.
  rewrite setHours_fixed, back_and_forth, Day_MakeDate by exact Htw.
  apply TimeClip_in_range, Hr.
Qed.

Lemma lastMillisecond_via (d tw : Z) :
  0 <= tw < msPerDay ->
  Z.abs (MakeDate d (MakeTime 23 59 59 999) - k) <= maxTime ->
  - maxTime <= MakeDate d tw - k ->
  lastMillisecond H (TimeClip (MakeDate d tw - k))
  = Some (MakeDate d (MakeTime 23 59 59 999) - k).
Proof.
  intros Htw Hr Hlo.
  assert (MakeDate d tw <= MakeDate d (MakeTime 23 59 59 999))
    by (unfold MakeDate, MakeTime, msPerHour, msPerMinute, msPerSecond,
          msPerDay in *; lia).
  rewrite TimeClip_in_range by lia. unfold lastMillisecond.
  rewrite setHours_fixed, back_and_forth, Day_MakeDate by exact Htw.
  apply TimeClip_in_range, Hr.
Qed.

Lemma day_le_of_MakeDate (d tm l : Z) :
  0 <= tm < msPerDay -> MakeDate d tm <= l -> d <= Day l.
Proof. unfold MakeDate, Day, msPerDay. intros. zdiv. Qed.

Lemma day_ge_of_MakeDate (d tm l : Z) :
  0 <= tm < msPerDay -> l <= MakeDate d tm -> Day l <= d.
Proof. unfold MakeDate, Day, msPerDay. intros. zdiv. Qed.

Lemma startOfValue_fixed_total (u : UnitType) (t : Z) :
  Z.abs t <= maxTime ->
  Z.abs (startOfLocal u (t + k) - k) <= maxTime ->
  startOfValue H u (Some t) = Some (startOfLocal u (t + k) - k).
Proof.
  intros Ht. pose proof (startOfLocal_le u (t + k)) as Hle. revert Hle.
  pose proof (TimeWithinDay_range (t + k)) as Htw.
  assert (H0 : 0 <= 0 < msPerDay) by (unfold msPerDay; lia).
  destruct u; cbn [startOfValue startOfLocal]; intros Hle Hr.
  - rewrite setMonth_fixed. apply midnight_via; [exact Htw|exact Hr|].
    apply day_le_of_MakeDate in Hle; [|exact H0].
    pose proof (MakeDate_le _ (TimeWithinDay (t + k)) (t + k) Hle). lia.
  - rewrite setDate_fixed. apply midnight_via; [exact Htw|exact Hr|].
    apply day_le_of_MakeDate in Hle; [|exact H0].
    pose proof (MakeDate_le _ (TimeWithinDay (t + k)) (t + k) Hle). lia.
  - rewrite getDate_fixed, getDay_fixed. cbn [nsub]. rewrite setDate_fixed.
    rewrite MakeDay_fields.
    replace (Day (t + k) + (DateFromTime (t + k) - WeekDay (t + k)
                            - DateFromTime (t + k)))
      with (Day (t + k) - WeekDay (t + k)) by lia.
    apply midnight_via; [exact Htw|exact Hr|].
    apply day_le_of_MakeDate in Hle; [|exact H0].
    pose proof (MakeDate_le _ (TimeWithinDay (t + k)) (t + k) Hle). lia.
  - unfold midnight. rewrite setHours_fixed. apply TimeClip_in_range, Hr.
  - rewrite setMinutes_fixed. apply TimeClip_in_range, Hr.
  - rewrite setSeconds_fixed. apply TimeClip_in_range, Hr.
  - rewrite setMilliseconds_fixed. apply TimeClip_in_range, Hr.
  - f_equal. lia.
Qed.

Lemma endOfValue_fixed_total (u : UnitType) (t : Z) :
  Z.abs t <= maxTime ->
  Z.abs (endOfLocal u (t + k) - k) <= maxTime ->
  endOfValue H u (Some t) = Some (endOfLocal u (t + k) - k).
Proof.
  intros Ht. pose proof (endOfLocal_ge u (t + k)) as Hge. revert Hge.
  pose proof (TimeWithinDay_range (t + k)) as Htw.
  pose proof end_of_day_range as He.
  destruct u; cbn [endOfValue endOfLocal]; intros Hge Hr.
  - rewrite setMonth_fixed. apply lastMillisecond_via; [exact Htw|exact Hr|].
    apply day_ge_of_MakeDate in Hge; [|exact He].
    pose proof (MakeDate_ge _ (TimeWithinDay (t + k)) (t + k) Hge). lia.
  - rewrite getMonth_fixed. cbn [nadd]. rewrite setMonth_fixed.
    apply lastMillisecond_via; [exact Htw|exact Hr|].
    apply day_ge_of_MakeDate in Hge; [|exact He].
    pose proof (MakeDate_ge _ (TimeWithinDay (t + k)) (t + k) Hge). lia.
  - rewrite getDate_fixed, getDay_fixed. cbn [nsub nadd].
    rewrite setDate_fixed, MakeDay_fields.
    replace (Day (t + k) + (DateFromTime (t + k) + (6 - WeekDay (t + k))
                            - DateFromTime (t + k)))
      with (Day (t + k) + (6 - WeekDay (t + k))) by lia.
    apply lastMillisecond_via; [exact Htw|exact Hr|].
    apply day_ge_of_MakeDate in Hge; [|exact He].
    pose proof (MakeDate_ge _ (TimeWithinDay (t + k)) (t + k) Hge). lia.
  - unfold lastMillisecond. rewrite setHours_fixed.
    apply TimeClip_in_range, Hr.
  - rewrite setMinutes_fixed. apply TimeClip_in_range, Hr.
  - rewrite setSeconds_fixed. apply TimeClip_in_range, Hr.
  - rewrite setMilliseconds_fixed. apply TimeClip_in_range, Hr.
  - f_equal. lia.
Qed.

Lemma startOfValue_fixed_idem (u : UnitType) (t v : Z) :
  startOfValue H u (Some t) = Some v -> startOfValue H u (Some v) = Some v.
Proof.
  intros Hv. destruct (startOfValue_fixed u t v Hv) as [Hl [->|Hr]];
    [reflexivity|].
  replace v with (startOfLocal u (t + k) - k) in * by lia.
  apply startOfValue_fixed_snapped, Hr.
Qed.

Lemma endOfValue_fixed_idem (u : UnitType) (t v : Z) :
  endOfValue H u (Some t) = Some v -> endOfValue H u (Some v) = Some v.
Proof.
  intros Hv. destruct (endOfValue_fixed u t v Hv) as [Hl [->|Hr]];
    [reflexivity|].
  replace v with (endOfLocal u (t + k) - k) in * by lia.
  apply endOfValue_fixed_snapped, Hr.
Qed.

End Fixed.

(** *** Any host whose zone keeps one offset *)

Lemma constantOffset_values (h : Host) (c : Z) (u : UnitType) (tv : num) :
  constantOffset h c ->
  startOfValue h u tv = startOfValue (fixedHost c) u tv
  /\ endOfValue h u tv = endOfValue (fixedHost c) u tv.
Proof.
  intros Hc.
  assert (HL : forall t, HostDate.LocalTime h t
                         = HostDate.LocalTime (fixedHost c) t)
    by (intros t; unfold HostDate.LocalTime; cbn [tzOffsetUTC fixedHost];
        rewrite (proj1 (Hc t)); reflexivity).
  assert (HU : forall t, HostDate.UTC h t = HostDate.UTC (fixedHost c) t)
    by (intros t; unfold HostDate.UTC; cbn [tzOffsetLocal fixedHost];
        rewrite (proj2 (Hc t)); reflexivity).
  assert (Hloc : forall f v, HostDate.local h f v
                             = HostDate.local (fixedHost c) f v)
    by (intros f [v|]; unfold HostDate.local; rewrite ?HL; reflexivity).
  assert (HsH : forall v a b d e, HostDate.setHours h v a b d e
                = HostDate.setHours (fixedHost c) v a b d e)
    by (intros [v|] a b d e; unfold HostDate.setHours; rewrite ?HL;
        [|reflexivity]; repeat case_match; rewrite ?HU; reflexivity).
  assert (HsMo : forall v a b, HostDate.setMonth h v a b
                = HostDate.setMonth (fixedHost c) v a b)
    by (intros [v|] a b; unfold HostDate.setMonth; rewrite ?HL;
        [|reflexivity]; repeat case_match; rewrite ?HU; reflexivity).
  assert (HsD : forall v a, HostDate.setDate h v a
                = HostDate.setDate (fixedHost c) v a)
    by (intros [v|] a; unfold HostDate.setDate; rewrite ?HL;
        [|reflexivity]; repeat case_match; rewrite ?HU; reflexivity).
  assert (HsMi : forall v a b d, HostDate.setMinutes h v a b d
                = HostDate.setMinutes (fixedHost c) v a b d)
    by (intros [v|] a b d; unfold HostDate.setMinutes; rewrite ?HL;
        [|reflexivity]; repeat case_match; rewrite ?HU; reflexivity).
  assert (HsS : forall v a b, HostDate.setSeconds h v a b
                = HostDate.setSeconds (fixedHost c) v a b)
    by (intros [v|] a b; unfold HostDate.setSeconds; rewrite ?HL;
        [|reflexivity]; repeat case_match; rewrite ?HU; reflexivity).
  assert (HsMs : forall v a, HostDate.setMilliseconds h v a
                = HostDate.setMilliseconds (fixedHost c) v a)
    by (intros [v|] a; unfold HostDate.setMilliseconds; rewrite ?HL;
        [|reflexivity]; repeat case_match; rewrite ?HU; reflexivity).
  destruct u; cbn [startOfValue endOfValue];
    unfold midnight, lastMillisecond, HostDate.getDate, HostDate.getDay,
      HostDate.getMonth;
    rewrite ?HsH, ?HsMo, ?HsD, ?HsMi, ?HsS, ?HsMs, ?Hloc;
    split; reflexivity.
Qed.

(** *** Any host, where the local times that the setters write are read
    back *)

Lemma LocalTime_readBack (h : Host) (l : Z) :
  readBack h l -> HostDate.LocalTime h (HostDate.UTC h l) = l.
Proof.
  unfold readBack, HostDate.LocalTime. intros ->. unfold HostDate.UTC. lia.
Qed.

Lemma UTC_ownLocalTime (h : Host) (t : Z) :
  ownLocalTime h t -> HostDate.UTC h (HostDate.LocalTime h t) = t.
Proof.
  unfold ownLocalTime, HostDate.UTC. intros ->. unfold HostDate.LocalTime.
  lia.
Qed.

Lemma readBack_ownLocalTime (h : Host) (t : Z) :
  ownLocalTime h t -> readBack h (HostDate.LocalTime h t).
Proof.
  intros Ho. unfold readBack. rewrite (UTC_ownLocalTime h t Ho).
  symmetry. exact Ho.
Qed.

Lemma midnight_after_total (h : Host) (l : Z) :
  readBack h l -> Z.abs (HostDate.UTC h l) <= maxTime ->
  midnight h (TimeClip (HostDate.UTC h l))
  = TimeClip (HostDate.UTC h (MakeDate (Day l) 0)).
Proof.
  intros Hb Hr. rewrite TimeClip_in_range by exact Hr.
  unfold midnight, HostDate.setHours, HostDate.orField.
  rewrite (LocalTime_readBack h l Hb). reflexivity.
Qed.

Lemma lastMillisecond_after_total (h : Host) (l : Z) :
  readBack h l -> Z.abs (HostDate.UTC h l) <= maxTime ->
  lastMillisecond h (TimeClip (HostDate.UTC h l))
  = TimeClip (HostDate.UTC h (MakeDate (Day l) (MakeTime 23 59 59 999))).
Proof.
  intros Hb Hr. rewrite TimeClip_in_range by exact Hr.
  unfold lastMillisecond, HostDate.setHours, HostDate.orField.
  rewrite (LocalTime_readBack h l Hb). reflexivity.
Qed.

Lemma midnight_after (h : Host) (l v : Z) :
  readBack h l ->
  midnight h (TimeClip (HostDate.UTC h l)) = Some v ->
  Z.abs (HostDate.UTC h l) <= maxTime
  /\ TimeClip (HostDate.UTC h (MakeDate (Day l) 0)) = Some v.
Proof.
  intros Hb Hv.
  destruct (TimeClip (HostDate.UTC h l)) as [v1|] eqn:H1; [|discriminate Hv].
  apply TimeClip_Some in H1 as [-> Hr]. split; [exact Hr|].
  rewrite <- (midnight_after_total h l Hb Hr).
  rewrite TimeClip_in_range by exact Hr. exact Hv.
Qed.

Lemma lastMillisecond_after (h : Host) (l v : Z) :
  readBack h l ->
  lastMillisecond h (TimeClip (HostDate.UTC h l)) = Some v ->
  Z.abs (HostDate.UTC h l) <= maxTime
  /\ TimeClip (HostDate.UTC h (MakeDate (Day l) (MakeTime 23 59 59 999)))
     = Some v.
Proof.
  intros Hb Hv.
  destruct (TimeClip (HostDate.UTC h l)) as [v1|] eqn:H1; [|discriminate Hv].
  apply TimeClip_Some in H1 as [-> Hr]. split; [exact Hr|].
  rewrite <- (lastMillisecond_after_total h l Hb Hr).
  rewrite TimeClip_in_range by exact Hr. exact Hv.
Qed.

(** The two setter calls, or the one, of [startOf] and [endOf]. *)
Lemma startOfValue_steps (h : Host) (u : UnitType) (t : Z) :
  let l := HostDate.LocalTime h t in
  startOfValue h u (Some t)
  = match u with
    | Uyear | Umonth | Uweek =>
        midnight h (TimeClip (HostDate.UTC h (startOfDate u l)))
    | Umillisecond => Some t
    | _ => TimeClip (HostDate.UTC h (startOfLocal u l))
    end.
Proof.
  cbv zeta. destruct u; cbn [startOfValue startOfDate startOfLocal];
    [reflexivity|reflexivity| |reflexivity..].
  unfold HostDate.setDate, HostDate.getDate, HostDate.getDay, HostDate.local.
  cbn [nsub]. rewrite MakeDay_fields. do 4 f_equal. lia.
Qed.

Lemma endOfValue_steps (h : Host) (u : UnitType) (t : Z) :
  let l := HostDate.LocalTime h t in
  endOfValue h u (Some t)
  = match u with
    | Uyear | Umonth | Uweek =>
        lastMillisecond h (TimeClip (HostDate.UTC h (endOfDate u l)))
    | Umillisecond => Some t
    | _ => TimeClip (HostDate.UTC h (endOfLocal u l))
    end.
Proof.
  cbv zeta. destruct u; cbn [endOfValue endOfDate endOfLocal];
    [reflexivity|reflexivity| |reflexivity..].
  unfold HostDate.setDate, HostDate.getDate, HostDate.getDay, HostDate.local.
  cbn [nsub nadd]. rewrite MakeDay_fields. do 4 f_equal. lia.
Qed.

Lemma startOfDate_day (u : UnitType) (l : Z) :
  match u with
  | Uyear | Umonth | Uweek =>
      MakeDate (Day (startOfDate u l)) 0 = startOfLocal u l
  | _ => startOfDate u l = l
  end.
Proof.
  pose proof (TimeWithinDay_range l) as Htw.
  destruct u; cbn [startOfDate startOfLocal]; try reflexivity;
    rewrite Day_MakeDate by exact Htw; reflexivity.
Qed.

Lemma endOfDate_day (u : UnitType) (l : Z) :
  match u with
  | Uyear | Umonth | Uweek =>
      MakeDate (Day (endOfDate u l)) (MakeTime 23 59 59 999) = endOfLocal u l
  | _ => endOfDate u l = l
  end.
Proof.
  pose proof (TimeWithinDay_range l) as Htw.
  destruct u; cbn [endOfDate endOfLocal]; try reflexivity;
    rewrite Day_MakeDate by exact Htw; reflexivity.
Qed.

(** What [startOf] and [endOf] return is the instant the host takes for
    the entry of the table. *)
Lemma startOfValue_readBack (h : Host) (u : UnitType) (t v : Z) :
  startDateReadBack h u (HostDate.LocalTime h t) ->
  startOfValue h u (Some t) = Some v ->
  (u = Umillisecond /\ v = t)
  \/ (u <> Umillisecond
      /\ v = HostDate.UTC h (startOfLocal u (HostDate.LocalTime h t))
      /\ Z.abs v <= maxTime).
Proof.
  intros Hb. rewrite startOfValue_steps. cbv zeta.
  pose proof (startOfDate_day u (HostDate.LocalTime h t)) as Hd.
  destruct u; cbn [startDateReadBack] in Hb;
    try (intros Hv; apply (midnight_after h _ v Hb) in Hv as [_ Hv];
         rewrite Hd in Hv);
    try (intros Hv);
    try (apply TimeClip_Some in Hv as [-> Hr]; right;
         split; [discriminate|split; [reflexivity|exact Hr]]).
  left. injection Hv as <-. split; reflexivity.
Qed.

Lemma endOfValue_readBack (h : Host) (u : UnitType) (t v : Z) :
  endDateReadBack h u (HostDate.LocalTime h t) ->
  endOfValue h u (Some t) = Some v ->
  (u = Umillisecond /\ v = t)
  \/ (u <> Umillisecond
      /\ v = HostDate.UTC h (endOfLocal u (HostDate.LocalTime h t))
      /\ Z.abs v <= maxTime).
Proof.
  intros Hb. rewrite endOfValue_steps. cbv zeta.
  pose proof (endOfDate_day u (HostDate.LocalTime h t)) as Hd.
  destruct u; cbn [endDateReadBack] in Hb;
    try (intros Hv; apply (lastMillisecond_after h _ v Hb) in Hv as [_ Hv];
         rewrite Hd in Hv);
    try (intros Hv);
    try (apply TimeClip_Some in Hv as [-> Hr]; right;
         split; [discriminate|split; [reflexivity|exact Hr]]).
  left. injection Hv as <-. split; reflexivity.
Qed.

Lemma startOfValue_readBack_total (h : Host) (u : UnitType) (t : Z) :
  let l := HostDate.LocalTime h t in
  u <> Umillisecond ->
  startDateReadBack h u l ->
  Z.abs (HostDate.UTC h (startOfDate u l)) <= maxTime ->
  Z.abs (HostDate.UTC h (startOfLocal u l)) <= maxTime ->
  startOfValue h u (Some t) = Some (HostDate.UTC h (startOfLocal u l)).
Proof.
  cbv zeta. intros Hu Hb Hm Hr. rewrite startOfValue_steps. cbv zeta.
  pose proof (startOfDate_day u (HostDate.LocalTime h t)) as Hd.
  destruct u; cbn [startDateReadBack] in Hb;
    try (rewrite (midnight_after_total h _ Hb Hm), Hd);
    try (apply TimeClip_in_range, Hr).
  congruence.
Qed.

Lemma endOfValue_readBack_total (h : Host) (u : UnitType) (t : Z) :
  let l := HostDate.LocalTime h t in
  u <> Umillisecond ->
  endDateReadBack h u l ->
  Z.abs (HostDate.UTC h (endOfDate u l)) <= maxTime ->
  Z.abs (HostDate.UTC h (endOfLocal u l)) <= maxTime ->
  endOfValue h u (Some t) = Some (HostDate.UTC h (endOfLocal u l)).
Proof.
  cbv zeta. intros Hu Hb Hm Hr. rewrite endOfValue_steps. cbv zeta.
  pose proof (endOfDate_day u (HostDate.LocalTime h t)) as Hd.
  destruct u; cbn [endDateReadBack] in Hb;
    try (rewrite (lastMillisecond_after_total h _ Hb Hm), Hd);
    try (apply TimeClip_in_range, Hr).
  congruence.
Qed.

(** *** Snapping a local time that is already snapped *)

Lemma first_month_length (y : Z) :
  1 <= 1 <= monthStart (0 + 1) (leapOf y) - monthStart 0 (leapOf y).
Proof. unfold monthStart; simpl. lia. Qed.

Lemma last_month_length (y : Z) :
  1 <= 31 <= monthStart (11 + 1) (leapOf y) - monthStart 11 (leapOf y).
Proof. pose proof (leapOf_range y). unfold monthStart; simpl. lia. Qed.

Lemma startOfLocal_idem (u : UnitType) (l : Z) :
  startOfLocal u (startOfLocal u l) = startOfLocal u l.
Proof.
  pose proof (time_fields l) as (_ & Hh & Hm & Hs & Hms).
  assert (H0 : 0 <= 0 < msPerDay) by (unfold msPerDay; lia).
  destruct u; cbn [startOfLocal].
  - destruct (fields_of_MakeDay (YearFromTime l) 0 1 0 ltac:(lia)
                (first_month_length _) H0) as (-> & _ & _).
    reflexivity.
  - pose proof (month_length_pos (MonthFromTime l) (leapOf (YearFromTime l))
                  (MonthFromTime_range l) (leapOf_range _)) as Hlen.
    destruct (fields_of_MakeDay (YearFromTime l) (MonthFromTime l) 1 0
                (MonthFromTime_range l) ltac:(lia) H0) as (-> & -> & _).
    reflexivity.
  - rewrite WeekDay_MakeDate, Day_MakeDate by exact H0.
    replace ((Day l - WeekDay l + 4) mod 7) with 0
      by (unfold WeekDay; zdiv).
    f_equal. lia.
  - rewrite Day_MakeDate by exact H0. reflexivity.
  - destruct (fields_of_MakeTime (Day l) (HourFromTime l) 0 0 0)
      as (-> & -> & _);
      [lia|lia|lia|lia|reflexivity].
  - destruct (fields_of_MakeTime (Day l) (HourFromTime l) (MinFromTime l)
                0 0) as (-> & -> & -> & _);
      [lia|lia|lia|lia|reflexivity].
  - destruct (fields_of_MakeTime (Day l) (HourFromTime l) (MinFromTime l)
                (SecFromTime l) 0) as (-> & -> & -> & -> & _);
      [lia|lia|lia|lia|reflexivity].
  - reflexivity.
Qed.

Lemma startOfDate_snapped (u : UnitType) (l : Z) :
  startOfDate u (startOfLocal u l) = startOfLocal u l.
Proof.
  assert (H0 : 0 <= 0 < msPerDay) by (unfold msPerDay; lia).
  destruct u; cbn [startOfLocal startOfDate]; try reflexivity.
  - destruct (fields_of_MakeDay (YearFromTime l) 0 1 0 ltac:(lia)
                (first_month_length _) H0) as (-> & _ & _).
    rewrite TimeWithinDay_MakeDate by exact H0. reflexivity.
  - pose proof (month_length_pos (MonthFromTime l) (leapOf (YearFromTime l))
                  (MonthFromTime_range l) (leapOf_range _)) as Hlen.
    destruct (fields_of_MakeDay (YearFromTime l) (MonthFromTime l) 1 0
                (MonthFromTime_range l) ltac:(lia) H0) as (-> & -> & _).
    rewrite TimeWithinDay_MakeDate by exact H0. reflexivity.
  - rewrite WeekDay_MakeDate, Day_MakeDate, TimeWithinDay_MakeDate
      by exact H0.
    replace ((Day l - WeekDay l + 4) mod 7) with 0
      by (unfold WeekDay; zdiv).
    f_equal. lia.
Qed.

Lemma endOfLocal_idem (u : UnitType) (l : Z) :
  endOfLocal u (endOfLocal u l) = endOfLocal u l.
Proof.
  pose proof (time_fields l) as (_ & Hh & Hm & Hs & Hms).
  pose proof end_of_day_range as He.
  destruct u; cbn [endOfLocal].
  - destruct (fields_of_MakeDay (YearFromTime l) 11 31
                (MakeTime 23 59 59 999) ltac:(lia)
                (last_month_length _) He) as (-> & _ & _).
    reflexivity.
  - pose proof (month_length_pos (MonthFromTime l) (leapOf (YearFromTime l))
                  (MonthFromTime_range l) (leapOf_range _)) as Hlen.
    rewrite (MakeDay_month_end (YearFromTime l) (MonthFromTime l))
      by apply MonthFromTime_range.
    destruct (fields_of_MakeDay (YearFromTime l) (MonthFromTime l)
                (monthStart (MonthFromTime l + 1) (leapOf (YearFromTime l))
                 - monthStart (MonthFromTime l) (leapOf (YearFromTime l)))
                (MakeTime 23 59 59 999) (MonthFromTime_range l)
                ltac:(lia) He) as (-> & -> & _).
    rewrite (MakeDay_month_end (YearFromTime l) (MonthFromTime l))
      by apply MonthFromTime_range.
    reflexivity.
  - rewrite WeekDay_MakeDate, Day_MakeDate by exact He.
    replace ((Day l + (6 - WeekDay l) + 4) mod 7) with 6
      by (unfold WeekDay; zdiv).
    f_equal. lia.
  - rewrite Day_MakeDate by exact He. reflexivity.
  - destruct (fields_of_MakeTime (Day l) (HourFromTime l) 59 59 999)
      as (-> & -> & _);
      [lia|lia|lia|lia|reflexivity].
  - destruct (fields_of_MakeTime (Day l) (HourFromTime l) (MinFromTime l)
                59 999) as (-> & -> & -> & _);
      [lia|lia|lia|lia|reflexivity].
  - destruct (fields_of_MakeTime (Day l) (HourFromTime l) (MinFromTime l)
                (SecFromTime l) 999) as (-> & -> & -> & -> & _);
      [lia|lia|lia|lia|reflexivity].
  - reflexivity.
Qed.

Lemma endOfDate_snapped (u : UnitType) (l : Z) :
  endOfDate u (endOfLocal u l) = endOfLocal u l.
Proof.
  pose proof end_of_day_range as He.
  destruct u; cbn [endOfLocal endOfDate]; try reflexivity.
  - destruct (fields_of_MakeDay (YearFromTime l) 11 31
                (MakeTime 23 59 59 999) ltac:(lia)
                (last_month_length _) He) as (-> & _ & _).
    rewrite TimeWithinDay_MakeDate by exact He. reflexivity.
  - pose proof (month_length_pos (MonthFromTime l) (leapOf (YearFromTime l))
                  (MonthFromTime_range l) (leapOf_range _)) as Hlen.
    rewrite (MakeDay_month_end (YearFromTime l) (MonthFromTime l))
      by apply MonthFromTime_range.
    destruct (fields_of_MakeDay (YearFromTime l) (MonthFromTime l)
                (monthStart (MonthFromTime l + 1) (leapOf (YearFromTime l))
                 - monthStart (MonthFromTime l) (leapOf (YearFromTime l)))
                (MakeTime 23 59 59 999) (MonthFromTime_range l)
                ltac:(lia) He) as (-> & -> & _).
    rewrite (MakeDay_month_end (YearFromTime l) (MonthFromTime l))
      by apply MonthFromTime_range.
    rewrite TimeWithinDay_MakeDate by exact He. reflexivity.
  - rewrite WeekDay_MakeDate, Day_MakeDate, TimeWithinDay_MakeDate
      by exact He.
    replace ((Day l + (6 - WeekDay l) + 4) mod 7) with 6
      by (unfold WeekDay; zdiv).
    f_equal. lia.
Qed.

(** The local time between the two setters lies between [l] and the
    entry of the table. *)
Lemma startOfDate_between (u : UnitType) (l : Z) :
  startOfLocal u l <= startOfDate u l <= l.
Proof.
  pose proof (startOfLocal_le u l) as Hle.
  pose proof (TimeWithinDay_range l) as Htw.
  assert (H0 : 0 <= 0 < msPerDay) by (unfold msPerDay; lia).
  assert (Hd : forall d, MakeDate d 0 <= l ->
                 MakeDate d 0 <= MakeDate d (TimeWithinDay l) <= l).
  { intros d Hdl. split; [unfold MakeDate; lia|].
    exact (MakeDate_le d (TimeWithinDay l) l
             (day_le_of_MakeDate d 0 l H0 Hdl) (Z.le_refl _)). }
  revert Hle. destruct u; cbn [startOfLocal startOfDate]; intros Hle;
    [exact (Hd _ Hle)|exact (Hd _ Hle)|exact (Hd _ Hle)|lia..].
Qed.

Lemma endOfDate_between (u : UnitType) (l : Z) :
  l <= endOfDate u l <= endOfLocal u l.
Proof.
  pose proof (endOfLocal_ge u l) as Hge.
  pose proof (TimeWithinDay_range l) as Htw.
  pose proof end_of_day_range as He.
  assert (Hd : forall d, l <= MakeDate d (MakeTime 23 59 59 999) ->
                 l <= MakeDate d (TimeWithinDay l)
                 <= MakeDate d (MakeTime 23 59 59 999)).
  { intros d Hdl. split.
    - exact (MakeDate_ge d (TimeWithinDay l) l
               (day_ge_of_MakeDate d (MakeTime 23 59 59 999) l He Hdl)
               (Z.le_refl _)).
    - unfold MakeDate, MakeTime, msPerHour, msPerMinute, msPerSecond,
        msPerDay in *. lia. }
  revert Hge. destruct u; cbn [endOfLocal endOfDate]; intros Hge;
    [exact (Hd _ Hge)|exact (Hd _ Hge)|exact (Hd _ Hge)|lia..].
Qed.

Lemma startOfValue_readBack_idem (h : Host) (u : UnitType) (t v : Z) :
  startDateReadBack h u (HostDate.LocalTime h t) ->
  readBack h (startOfLocal u (HostDate.LocalTime h t)) ->
  startOfValue h u (Some t) = Some v -> startOfValue h u (Some v) = Some v.
Proof.
  intros Hb Hs Hv.
  destruct (startOfValue_readBack h u t v Hb Hv)
    as [[-> ->]|(Hu & Hl & Hr)]; [reflexivity|].
  assert (HL : HostDate.LocalTime h v
               = startOfLocal u (HostDate.LocalTime h t))
    by (rewrite Hl; apply LocalTime_readBack, Hs).
  pose proof (startOfValue_readBack_total h u v Hu) as Ht.
  cbv zeta in Ht. rewrite HL, startOfDate_snapped, startOfLocal_idem in Ht.
  rewrite <- Hl in Ht. apply Ht; [|exact Hr|exact Hr].
  destruct u; cbn [startDateReadBack]; try exact I;
    rewrite startOfDate_snapped; exact Hs.
Qed.

Lemma endOfValue_readBack_idem (h : Host) (u : UnitType) (t v : Z) :
  endDateReadBack h u (HostDate.LocalTime h t) ->
  readBack h (endOfLocal u (HostDate.LocalTime h t)) ->
  endOfValue h u (Some t) = Some v -> endOfValue h u (Some v) = Some v.
Proof.
  intros Hb Hs Hv.
  destruct (endOfValue_readBack h u t v Hb Hv)
    as [[-> ->]|(Hu & Hl & Hr)]; [reflexivity|].
  assert (HL : HostDate.LocalTime h v
               = endOfLocal u (HostDate.LocalTime h t))
    by (rewrite Hl; apply LocalTime_readBack, Hs).
  pose proof (endOfValue_readBack_total h u v Hu) as Ht.
  cbv zeta in Ht. rewrite HL, endOfDate_snapped, endOfLocal_idem in Ht.
  rewrite <- Hl in Ht. apply Ht; [|exact Hr|exact Hr].
  destruct u; cbn [endDateReadBack]; try exact I;
    rewrite endOfDate_snapped; exact Hs.
Qed.

(** *** The bracket, where the reading of local times is ordered *)

Lemma startDate_readBack (h : Host) (u : UnitType) (t : Z) :
  ownLocalTime h t -> startDateReadBack h u (HostDate.LocalTime h t) ->
  readBack h (startOfDate u (HostDate.LocalTime h t)).
Proof.
  intros Ho Hb. pose proof (readBack_ownLocalTime h t Ho) as Hl.
  destruct u; cbn [startDateReadBack startOfDate] in *; assumption.
Qed.

Lemma endDate_readBack (h : Host) (u : UnitType) (t : Z) :
  ownLocalTime h t -> endDateReadBack h u (HostDate.LocalTime h t) ->
  readBack h (endOfDate u (HostDate.LocalTime h t)).
Proof.
  intros Ho Hb. pose proof (readBack_ownLocalTime h t Ho) as Hl.
  destruct u; cbn [endDateReadBack endOfDate] in *; assumption.
Qed.

Lemma startOfValue_before (h : Host) (u : UnitType) (t s : Z) :
  orderedReading h -> ownLocalTime h t ->
  startDateReadBack h u (HostDate.LocalTime h t) ->
  readBack h (startOfLocal u (HostDate.LocalTime h t)) ->
  startOfValue h u (Some t) = Some s -> s <= t.
Proof.
  intros Hord Ho Hb Hs Hv.
  destruct (startOfValue_readBack h u t s Hb Hv)
    as [[_ ->]|(_ & -> & _)]; [lia|].
  rewrite <- (UTC_ownLocalTime h t Ho) at 2.
  apply Hord; [exact Hs|apply startOfLocal_le].
Qed.

Lemma endOfValue_after (h : Host) (u : UnitType) (t e : Z) :
  orderedReading h -> ownLocalTime h t ->
  endDateReadBack h u (HostDate.LocalTime h t) ->
  endOfValue h u (Some t) = Some e -> t <= e.
Proof.
  intros Hord Ho Hb Hv.
  destruct (endOfValue_readBack h u t e Hb Hv)
    as [[_ ->]|(_ & -> & _)]; [lia|].
  rewrite <- (UTC_ownLocalTime h t Ho) at 1.
  apply Hord; [apply readBack_ownLocalTime, Ho|apply endOfLocal_ge].
Qed.

Lemma startOfValue_in_range (h : Host) (u : UnitType) (t : Z) :
  orderedReading h -> ownLocalTime h t ->
  startDateReadBack h u (HostDate.LocalTime h t) ->
  readBack h (startOfLocal u (HostDate.LocalTime h t)) ->
  Z.abs t <= maxTime ->
  Z.abs (HostDate.UTC h (startOfLocal u (HostDate.LocalTime h t)))
  <= maxTime ->
  startOfValue h u (Some t)
  = Some (HostDate.UTC h (startOfLocal u (HostDate.LocalTime h t))).
Proof.
  intros Hord Ho Hb Hs Ht Hr.
  assert (Hdec : u = Umillisecond \/ u <> Umillisecond)
    by (destruct u; first [left; reflexivity|right; discriminate]).
  destruct Hdec as [->|Hu].
  - cbn [startOfValue startOfLocal]. rewrite (UTC_ownLocalTime h t Ho).
    reflexivity.
  - apply (startOfValue_readBack_total h u t Hu Hb); [|exact Hr].
    pose proof (startOfDate_between u (HostDate.LocalTime h t)) as [H1 H2].
    pose proof (Hord _ _ Hs H1) as H3.
    pose proof (Hord _ _ (startDate_readBack h u t Ho Hb) H2) as H4.
    rewrite (UTC_ownLocalTime h t Ho) in H4. lia.
Qed.

Lemma endOfValue_in_range (h : Host) (u : UnitType) (t : Z) :
  orderedReading h -> ownLocalTime h t ->
  endDateReadBack h u (HostDate.LocalTime h t) ->
  Z.abs t <= maxTime ->
  Z.abs (HostDate.UTC h (endOfLocal u (HostDate.LocalTime h t)))
  <= maxTime ->
  endOfValue h u (Some t)
  = Some (HostDate.UTC h (endOfLocal u (HostDate.LocalTime h t))).
Proof.
  intros Hord Ho Hb Ht Hr.
  assert (Hdec : u = Umillisecond \/ u <> Umillisecond)
    by (destruct u; first [left; reflexivity|right; discriminate]).
  destruct Hdec as [->|Hu].
  - cbn [endOfValue endOfLocal]. rewrite (UTC_ownLocalTime h t Ho).
    reflexivity.
  - apply (endOfValue_readBack_total h u t Hu Hb); [|exact Hr].
    pose proof (endOfDate_between u (HostDate.LocalTime h t)) as [H1 H2].
    pose proof (Hord _ _ (readBack_ownLocalTime h t Ho) H1) as H3.
    pose proof (Hord _ _ (endDate_readBack h u t Ho Hb) H2) as H4.
    rewrite (UTC_ownLocalTime h t Ho) in H3. lia.
Qed.

(** *** The hosts of the model *)

Lemma constantOffset_regular (h : Host) (c : Z) :
  constantOffset h c ->
  orderedReading h /\ (forall l, readBack h l)
  /\ (forall t, ownLocalTime h t).
Proof.
  intros Hc. split; [|split].
  - intros l1 l2 _ Hle. unfold HostDate.UTC.
    rewrite (proj2 (Hc l1)), (proj2 (Hc l2)). lia.
  - intros l. unfold readBack. rewrite (proj1 (Hc _)), (proj2 (Hc _)).
    reflexivity.
  - intros t. unfold ownLocalTime. rewrite (proj1 (Hc _)), (proj2 (Hc _)).
    reflexivity.
Qed.

Lemma nuuk_transitions :
  nuukForward = 1711846800000 /\ nuukBack = 1729990800000.
Proof. split; vm_compute; reflexivity. Qed.

Lemma hostNuuk_ordered : orderedReading hostNuuk.
Proof.
  destruct nuuk_transitions as [HF HB].
  intros l1 l2. unfold readBack, HostDate.UTC.
  cbn [tzOffsetLocal tzOffsetUTC hostNuuk]. rewrite HF, HB.
  unfold msPerMinute.
  destruct (Z.leb_spec (1711846800000 - 60 * 60000) l1),
    (Z.ltb_spec l1 (1729990800000 - 60 * 60000)),
    (Z.leb_spec (1711846800000 - 60 * 60000) l2),
    (Z.ltb_spec l2 (1729990800000 - 60 * 60000)); cbn [andb];
    repeat match goal with
           | |- context [?a <=? ?b] => destruct (Z.leb_spec a b)
           | |- context [?a <? ?b] => destruct (Z.ltb_spec a b)
           end; cbn [andb]; intros; lia.
Qed.

End SnapFacts.


(** * Facts about search and replace *)

Module PatternFacts.
Import Str Pattern.
#[local] Open Scope string_scope.

Lemma prefix_cons (a c : ascii) (w s : string) :
  String.prefix (String a w) (String c s)
  = Ascii.eqb a c && String.prefix w s.
Proof.
  cbn [String.prefix]. destruct (ascii_dec a c) as [->|Hne].
  - rewrite Ascii.eqb_refl. reflexivity.
  - apply Ascii.eqb_neq in Hne. rewrite Hne. reflexivity.
Qed.

Lemma prefix_empty_r (a : ascii) (w : string) :
  String.prefix (String a w) EmptyString = false.
Proof. reflexivity. Qed.

Lemma prefix_nil (s : string) : String.prefix EmptyString s = true.
Proof. destruct s; reflexivity. Qed.

Lemma replace_miss (p r : string) (c : ascii) (s : string) :
  String.prefix p (String c s) = false ->
  replace p r (String c s) = String c (replace p r s).
Proof. intros Hp. cbn [replace]. rewrite Hp. reflexivity. Qed.

Lemma replace_hit (p r s : string) :
  String.prefix p s = true ->
  replace p r s = r ++ dropChars (String.length p) s.
Proof. intros Hp. destruct s; cbn [replace]; rewrite Hp; reflexivity. Qed.

Lemma replace_empty (a : ascii) (w r : string) :
  replace (String a w) r EmptyString = EmptyString.
Proof. reflexivity. Qed.

(** The guard [includes] of the class changes nothing: [replace] leaves a
    string without the pattern as it is. *)
Lemma replace_absent (p r s : string) :
  includes p s = false -> replace p r s = s.
Proof.
  induction s as [|c s IH]; cbn [includes replace].
  - destruct (String.prefix p EmptyString); [discriminate|reflexivity].
  - destruct (String.prefix p (String c s)); [discriminate|].
    intros Hs. rewrite IH by exact Hs. reflexivity.
Qed.

Lemma guarded_replace (p r s : string) :
  (if includes p s then replace p r s else s) = replace p r s.
Proof.
  destruct (includes p s) eqn:Hi; [reflexivity|].
  symmetry. apply replace_absent, Hi.
Qed.

Lemma prefix_split (p s : string) :
  String.prefix p s = true -> s = p ++ dropChars (String.length p) s.
Proof.
  revert s. induction p as [|a p IH]; intros s Hp.
  - destruct s; reflexivity.
  - destruct s as [|c s]; [discriminate|].
    rewrite prefix_cons in Hp. apply andb_true_iff in Hp as [Ha Hp].
    apply Ascii.eqb_eq in Ha as ->. cbn. f_equal. apply IH, Hp.
Qed.

Lemma dropChars_app (p s : string) : dropChars (String.length p) (p ++ s) = s.
Proof. induction p as [|a p IH]; [destruct s; reflexivity|exact IH]. Qed.

Lemma prefix_app (p s : string) : String.prefix p (p ++ s) = true.
Proof.
  induction p as [|a p IH]; [apply prefix_nil|].
  cbn [append]. rewrite prefix_cons, Ascii.eqb_refl. exact IH.
Qed.

Lemma length_repeatChar (n : nat) (a : ascii) :
  String.length (repeatChar n a) = n.
Proof. induction n; cbn; congruence. Qed.

(** *** One replacement and a word of another letter *)

Section OneReplacement.
Variables (a : ascii) (n : nat) (r : string).
#[local] Abbreviation tok := (repeatChar (S n) a).

(** [replace] passes over a head that is not the letter of the token. *)
Lemma replace_other_head (c : ascii) (s : string) :
  c <> a -> replace tok r (String c s) = String c (replace tok r s).
Proof.
  intros Hc. apply replace_miss. cbn [repeatChar]. rewrite prefix_cons.
  apply Ascii.eqb_neq in Hc. rewrite Ascii.eqb_sym, Hc. reflexivity.
Qed.

Lemma replace_other_prefix (pre s : string) :
  allChars (fun c => negb (Ascii.eqb c a)) pre = true ->
  replace tok r (pre ++ s) = pre ++ replace tok r s.
Proof.
  induction pre as [|c pre IH]; [reflexivity|]. cbn [allChars append].
  intros Hp. apply andb_true_iff in Hp as [Hc Hp].
  apply negb_true_iff, Ascii.eqb_neq in Hc.
  rewrite replace_other_head by exact Hc. rewrite IH by exact Hp.
  reflexivity.
Qed.

(** A run of another letter starts the string after the replacement
    exactly when it started it before. *)
Lemma prefix_replace (b : ascii) (m : nat) (s : string) :
  b <> a -> r <> EmptyString -> firstLetter r <> b ->
  String.prefix (repeatChar m b) (replace tok r s)
  = String.prefix (repeatChar m b) s.
Proof.
  intros Hb Hr Hr0. revert s. induction m as [|m IH]; intros s.
  - cbn [repeatChar]. rewrite !prefix_nil. reflexivity.
  - destruct s as [|c s]; [reflexivity|].
    destruct (String.prefix tok (String c s)) eqn:Hp.
    + rewrite (replace_hit _ _ _ Hp).
      cbn [repeatChar] in Hp. rewrite prefix_cons in Hp.
      apply andb_true_iff in Hp as [Hc _]. apply Ascii.eqb_eq in Hc as <-.
      destruct r as [|r0 r']; [congruence|]. cbn [firstLetter] in Hr0.
      cbn [repeatChar append]. rewrite !prefix_cons.
      apply not_eq_sym, Ascii.eqb_neq in Hr0.
      apply Ascii.eqb_neq in Hb. rewrite Hr0, Hb. reflexivity.
    + rewrite (replace_miss _ _ _ _ Hp). cbn [repeatChar].
      rewrite !prefix_cons, IH. reflexivity.
Qed.

End OneReplacement.

(** *** A list of tokens *)

Section Tokens.
Variable letters : list ascii.
#[local] Abbreviation clean :=
  (allChars (fun c => negb (isLetterOf letters c))).

Lemma allChars_impl (P Q : ascii -> bool) (s : string) :
  (forall c, P c = true -> Q c = true) ->
  allChars P s = true -> allChars Q s = true.
Proof.
  intros HPQ. induction s as [|c s IH]; [reflexivity|]. cbn [allChars].
  intros Hs. apply andb_true_iff in Hs as [Hc Hs].
  rewrite (HPQ c Hc), (IH Hs). reflexivity.
Qed.

Lemma clean_other (a : ascii) (s : string) :
  isLetterOf letters a = true -> clean s = true ->
  allChars (fun c => negb (Ascii.eqb c a)) s = true.
Proof.
  intros Ha. apply allChars_impl. intros c Hc.
  apply negb_true_iff in Hc. apply negb_true_iff.
  destruct (Ascii.eqb_spec c a) as [->|]; [congruence|reflexivity].
Qed.

Lemma clean_first (a : ascii) (s : string) :
  isLetterOf letters a = true -> clean s = true -> s <> EmptyString ->
  firstLetter s <> a.
Proof.
  intros Ha Hs Hne. destruct s as [|c s]; [congruence|].
  cbn [allChars firstLetter] in *. apply andb_true_iff in Hs as [Hc _].
  apply negb_true_iff in Hc. congruence.
Qed.

Lemma run_other (a b : ascii) (m : nat) :
  b <> a -> allChars (fun c => negb (Ascii.eqb c a)) (repeatChar m b) = true.
Proof.
  intros Hb. induction m as [|m IH]; [reflexivity|]. cbn [repeatChar allChars].
  apply Ascii.eqb_neq in Hb. rewrite Hb, IH. reflexivity.
Qed.

Lemma findToken_Some (pending : list entry) (s t rp : string)
    (rest : list entry) :
  wellFormed letters pending ->
  findToken pending s = Some (t, rp, rest) ->
  In (t, rp) pending /\ String.prefix t s = true
  /\ wellFormed letters rest.
Proof.
  revert rest. induction pending as [|[tok r] pending IH]; intros rest Hwf;
    [discriminate|].
  destruct Hwf as [Hok Hnd]. inversion Hok as [|? ? Hok1 Hok']; subst.
  inversion Hnd as [|? ? Hnot Hnd']; subst.
  cbn [findToken]. destruct (String.prefix tok s) eqn:Hp.
  - intros [= <- <- <-]. repeat split; auto. left. reflexivity.
  - destruct (findToken pending s) as [[[t' r'] rest']|] eqn:Hf;
      [|discriminate].
    intros [= <- <- <-].
    destruct (IH rest' (conj Hok' Hnd') eq_refl) as (Hin & Hpre & Hok'' & Hnd'').
    repeat split; auto.
    + right. exact Hin.
    + cbn [map]. constructor; [|exact Hnd''].
      intros Hin'. apply Hnot.
      clear -Hf Hin'. revert rest' Hf Hin'.
      induction pending as [|[tk rk] pending IHp]; intros rest' Hf Hin';
        [discriminate|].
      cbn [findToken] in Hf. destruct (String.prefix tk s).
      * inversion Hf; subst. cbn [map]. apply elem_of_cons. right.
        exact Hin'.
      * destruct (findToken pending s) as [[[t2 r2] rest2]|] eqn:Hf2;
          [|discriminate].
        inversion Hf; subst. cbn [map] in Hin' |- *.
        apply elem_of_cons in Hin' as [Heq|Hin']; apply elem_of_cons.
        -- left. exact Heq.
        -- right. apply (IHp rest2 eq_refl Hin').
Qed.

Lemma findToken_None (pending : list entry) (s : string) :
  findToken pending s = None ->
  Forall (fun e => String.prefix (fst e) s = false) pending.
Proof.
  induction pending as [|[tok r] pending IH]; [constructor|].
  cbn [findToken]. destruct (String.prefix tok s) eqn:Hp; [discriminate|].
  destruct (findToken pending s) as [[[? ?] ?]|]; [discriminate|].
  intros _. constructor; [exact Hp|apply IH; reflexivity].
Qed.

(** Replacing one token does not change which of the others starts the
    string. *)
Lemma findToken_replace (a : ascii) (n : nat) (r : string)
    (pending : list entry) (s : string) :
  isLetterOf letters a = true -> clean r = true -> r <> EmptyString ->
  Forall (okEntry letters) pending ->
  a ∉ map (fun e => firstLetter (fst e)) pending ->
  findToken pending (replace (repeatChar (S n) a) r s) = findToken pending s.
Proof.
  intros Ha Hr Hne Hok Hnot.
  induction pending as [|[tok' r'] pending IH]; [reflexivity|].
  inversion Hok as [|? ? Hok1 Hok']; subst. cbn [map] in Hnot.
  destruct Hok1 as ((b & m & Htok & Hb) & _). cbn [fst] in Htok. subst tok'.
  apply not_elem_of_cons in Hnot as [Hab Hnot]. cbn [fst firstLetter repeatChar] in Hab.
  cbn [findToken]. rewrite prefix_replace.
  - rewrite IH; [reflexivity|exact Hok'|exact Hnot].
  - congruence.
  - exact Hne.
  - apply (clean_first b r Hb Hr Hne).
Qed.

Lemma replaceEach_clean_prefix (pending : list entry) (pre s : string) :
  Forall (okEntry letters) pending -> clean pre = true ->
  replaceEach pending (pre ++ s) = pre ++ replaceEach pending s.
Proof.
  intros Hok Hpre. revert s.
  induction pending as [|[tok r] pending IH]; intros s; [reflexivity|].
  inversion Hok as [|? ? Hok1 Hok']; subst.
  destruct Hok1 as ((a & n & Htok & Ha) & _). cbn [fst] in Htok. subst tok.
  cbn [replaceEach].
  rewrite replace_other_prefix by (apply clean_other; assumption).
  apply IH, Hok'.
Qed.

Lemma replaceEach_empty (pending : list entry) :
  Forall (okEntry letters) pending ->
  replaceEach pending EmptyString = EmptyString.
Proof.
  induction pending as [|[tok r] pending IH]; [reflexivity|].
  intros Hok. inversion Hok as [|? ? Hok1 Hok']; subst.
  destruct Hok1 as ((a & n & Htok & Ha) & _). cbn [fst] in Htok. subst tok.
  cbn [replaceEach]. apply IH, Hok'.
Qed.

(** No pending token at the head: every replacement passes over it. *)
Lemma replaceEach_pass (pending : list entry) (c : ascii) (s : string) :
  wellFormed letters pending ->
  findToken pending (String c s) = None ->
  replaceEach pending (String c s) = String c (replaceEach pending s).
Proof.
  revert s. induction pending as [|[tok r] pending IH]; intros s Hwf Hf;
    [reflexivity|].
  destruct Hwf as [Hok Hnd]. inversion Hok as [|? ? Hok1 Hok']; subst.
  inversion Hnd as [|? ? Hnot Hnd']; subst.
  destruct Hok1 as ((a & n & Htok & Ha) & Hne & Hr).
  cbn [fst snd] in Htok, Hne, Hr, Hnot. subst tok.
  cbn [findToken] in Hf.
  destruct (String.prefix (repeatChar (S n) a) (String c s)) eqn:Hp;
    [discriminate|].
  destruct (findToken pending (String c s)) as [[[? ?] ?]|] eqn:Hf';
    [discriminate|].
  cbn [replaceEach]. rewrite (replace_miss _ _ _ _ Hp).
  apply IH; [split; assumption|].
  rewrite <- (replace_miss _ r _ _ Hp).
  rewrite findToken_replace; auto.
Qed.

(** A pending token at the head: it is replaced, and the other
    replacements work on what follows it. *)
Lemma replaceEach_hit (pending : list entry) (s t rp : string)
    (rest : list entry) :
  wellFormed letters pending ->
  findToken pending s = Some (t, rp, rest) ->
  replaceEach pending s
  = rp ++ replaceEach rest (dropChars (String.length t) s).
Proof.
  revert s rest. induction pending as [|[tok r] pending IH];
    intros s rest Hwf Hf; [discriminate|].
  pose proof Hwf as [Hok Hnd]. inversion Hok as [|? ? Hok1 Hok']; subst.
  inversion Hnd as [|? ? Hnot Hnd']; subst.
  destruct Hok1 as ((a & n & Htok & Ha) & Hne & Hr).
  cbn [fst snd] in Htok, Hne, Hr, Hnot. subst tok.
  cbn [findToken] in Hf.
  destruct (String.prefix (repeatChar (S n) a) s) eqn:Hp.
  - inversion Hf; subst. cbn [replaceEach]. rewrite (replace_hit _ _ _ Hp).
    apply replaceEach_clean_prefix; assumption.
  - destruct (findToken pending s) as [[[t' r'] rest']|] eqn:Hf';
      [|discriminate].
    inversion Hf; subst. clear Hf.
    destruct (findToken_Some pending s t rp rest' (conj Hok' Hnd') Hf')
      as (Hin & Hpre & _).
    assert (Hokt : okEntry letters (t, rp))
      by (apply (proj1 (Forall_forall _ _) Hok'), list_elem_of_In, Hin).
    destruct Hokt as ((b & m & Ht & Hb) & _). cbn [fst] in Ht. subst t.
    assert (Hba : b <> a).
    { intros ->. apply Hnot, list_elem_of_In, in_map_iff.
      exists (repeatChar (S m) a, rp). split; [reflexivity|exact Hin]. }
    cbn [replaceEach].
    rewrite (IH (replace (repeatChar (S n) a) r s) rest' (conj Hok' Hnd'));
      [|rewrite findToken_replace; auto].
    f_equal. f_equal.
    rewrite (prefix_split _ _ Hpre) at 1.
    rewrite replace_other_prefix by (apply run_other; exact Hba).
    rewrite dropChars_app. reflexivity.
Qed.

Lemma firstOccurrences_skip (pending : list entry) (k : nat) (s : string) :
  firstOccurrences pending k s
  = firstOccurrences pending 0 (dropChars k s).
Proof.
  revert k. induction s as [|c s IH]; intros k.
  - destruct k; reflexivity.
  - destruct k as [|k]; [reflexivity|]. cbn [firstOccurrences dropChars].
    apply IH.
Qed.

Lemma length_dropChars (k : nat) (s : string) :
  (String.length (dropChars k s) <= String.length s)%nat.
Proof.
  revert s. induction k as [|k IH]; intros [|c s]; cbn; try lia.
  specialize (IH s). lia.
Qed.

(** The replacements one after the other give the pattern with the first
    occurrence of each token replaced. *)
Lemma replaceEach_firstOccurrences (pending : list entry) (s : string) :
  wellFormed letters pending ->
  replaceEach pending s = firstOccurrences pending 0 s.
Proof.
  remember (String.length s) as len eqn:Hlen.
  assert (Hle : (String.length s <= len)%nat) by lia. clear Hlen.
  revert pending s Hle. induction len as [|len IH]; intros pending s Hle Hwf.
  - destruct s; [|cbn in Hle; lia]. apply replaceEach_empty, Hwf.
  - destruct s as [|c s]; [apply replaceEach_empty, Hwf|].
    cbn [String.length] in Hle. cbn [firstOccurrences].
    destruct (findToken pending (String c s)) as [[[t rp] rest]|] eqn:Hf.
    + rewrite (replaceEach_hit _ _ _ _ _ Hwf Hf).
      destruct (findToken_Some _ _ _ _ _ Hwf Hf) as (Hin & Hpre & Hwf').
      destruct Hwf as [Hok _].
      destruct (proj1 (Forall_forall _ _) Hok _
                  (proj2 (list_elem_of_In _ _) Hin))
        as ((a & n & Ht & _) & _). cbn [fst] in Ht.
      subst t. rewrite length_repeatChar. cbn [dropChars].
      replace (S n - 1)%nat with n by lia.
      rewrite firstOccurrences_skip. f_equal. apply IH; [|exact Hwf'].
      pose proof (length_dropChars n s). lia.
    + rewrite (replaceEach_pass _ _ _ Hwf Hf). f_equal.
      apply IH; [lia|exact Hwf].
Qed.

End Tokens.

(** *** The replacements of the class *)

Lemma uint_chars (d : Decimal.uint) :
  allChars isDigitOrMinus (NilEmpty.string_of_uint d) = true.
Proof. induction d; cbn [NilEmpty.string_of_uint allChars]; auto. Qed.

Lemma toString_chars (z : Z) :
  allChars isDigitOrMinus (toString z) = true /\ toString z <> EmptyString.
Proof.
  unfold toString. destruct (Z.to_int z) as [d|d];
    cbn [NilZero.string_of_int]; unfold NilZero.string_of_uint.
  - destruct d; try (split; [apply uint_chars|discriminate]).
    split; [reflexivity|discriminate].
  - split; [|discriminate]. cbn [allChars].
    destruct d; try (rewrite uint_chars; reflexivity). reflexivity.
Qed.

Lemma allChars_app (P : ascii -> bool) (s1 s2 : string) :
  allChars P (s1 ++ s2) = allChars P s1 && allChars P s2.
Proof.
  induction s1 as [|c s1 IH]; [reflexivity|]. cbn [append allChars].
  rewrite IH, andb_assoc. reflexivity.
Qed.

Lemma padStart_chars (n : nat) (s : string) :
  allChars isDigitOrMinus s = true -> s <> EmptyString ->
  allChars isDigitOrMinus (padStart n "0" s) = true
  /\ padStart n "0" s <> EmptyString.
Proof.
  intros Hs Hne. unfold padStart. split.
  - rewrite allChars_app, Hs, andb_true_r.
    induction (n - String.length s)%nat as [|m IH]; [reflexivity|exact IH].
  - destruct (repeatChar (n - String.length s) "0"); [exact Hne|discriminate].
Qed.

Lemma digits_clean (s : string) :
  allChars isDigitOrMinus s = true ->
  allChars (fun c => negb (isLetterOf tokenLetters c)) s = true.
Proof.
  apply allChars_impl. intros c. unfold isDigitOrMinus, isLetterOf, tokenLetters.
  cbn [existsb]. intros Hc.
  repeat match goal with
         | |- context [Ascii.eqb c ?a] =>
             destruct (Ascii.eqb_spec c a) as [->|_]; [discriminate Hc|]
         end.
  reflexivity.
Qed.

Lemma tokens_wellFormed (yr mo dy hr mi sc : string) :
  Forall (fun r => allChars isDigitOrMinus r = true /\ r <> EmptyString)
         [yr; mo; dy; hr; mi; sc] ->
  wellFormed tokenLetters (tokens yr mo dy hr mi sc).
Proof.
  intros Hall. split.
  - unfold tokens.
    repeat match goal with
           | H : Forall _ (_ :: _) |- _ =>
               let H1 := fresh in let H2 := fresh in
               inversion H as [|? ? [H1 H2]]; subst; clear H
           end.
    repeat (constructor;
            [split; [|split; [assumption|apply digits_clean; assumption]]|]).
    + exists "Y"%char, 3%nat. split; reflexivity.
    + exists "M"%char, 1%nat. split; reflexivity.
    + exists "D"%char, 1%nat. split; reflexivity.
    + exists "H"%char, 1%nat. split; reflexivity.
    + exists "m"%char, 1%nat. split; reflexivity.
    + exists "s"%char, 1%nat. split; reflexivity.
    + constructor.
  - cbn [tokens map fst firstLetter].
    repeat (constructor;
            [intros Hin;
             repeat (apply elem_of_cons in Hin as [Hin|Hin];
                     [discriminate Hin|]);
             inversion Hin|]).
    constructor.
Qed.

(** The manual replacement of the class gives the pattern with the first
    occurrence of each of the six tokens replaced. *)
Lemma substitute_firstOccurrences (f yr mo dy hr mi sc : string) :
  Forall (fun r => allChars isDigitOrMinus r = true /\ r <> EmptyString)
         [yr; mo; dy; hr; mi; sc] ->
  Flow.substitute f yr mo dy hr mi sc
  = firstOccurrences (tokens yr mo dy hr mi sc) 0 f.
Proof.
  intros Hall.
  rewrite <- (replaceEach_firstOccurrences tokenLetters)
    by (apply tokens_wellFormed, Hall).
  unfold Flow.substitute. cbv zeta. rewrite !guarded_replace. reflexivity.
Qed.

(** *** Widths *)

Lemma forallb_range (P : Z -> bool) (lo n : Z) :
  forallb P (map (fun i => (lo + Z.of_nat i)%Z) (seq 0 (Z.to_nat n))) = true ->
  forall v, (lo <= v < lo + n)%Z -> P v = true.
Proof.
  intros Hall v Hv. rewrite forallb_forall in Hall. apply Hall.
  apply in_map_iff. exists (Z.to_nat (v - lo)). split; [lia|].
  apply in_seq. lia.
Qed.

Lemma padStart_two_length (v : Z) :
  (0 <= v <= 99)%Z -> String.length (padStart 2 "0" (toString v)) = 2%nat.
Proof.
  intros Hv. apply Nat.eqb_eq.
  apply (forallb_range
           (fun v => (String.length (padStart 2 "0" (toString v)) =? 2)%nat)
           0 100); [vm_compute; reflexivity|lia].
Qed.

(** Among the years 0 to 9999, the decimal digits of the year are four
    exactly from 1000 on. *)
Lemma toString_year_length (y : Z) :
  (0 <= y <= 9999)%Z ->
  (String.length (toString y) = 4%nat <-> (1000 <= y)%Z).
Proof.
  intros Hy.
  assert (Hb : Bool.eqb (String.length (toString y) =? 4)%nat (1000 <=? y)%Z
               = true).
  { apply (forallb_range
             (fun v => Bool.eqb (String.length (toString v) =? 4)%nat
                                (1000 <=? v)%Z) 0 10000);
      [vm_compute; reflexivity|lia]. }
  apply Bool.eqb_prop in Hb. rewrite <- Nat.eqb_eq, Hb. apply Z.leb_le.
Qed.

End PatternFacts.


(** * Properties of the class *)

Module Claims.
Import ES ESFacts Heap Flow Value Run RunFacts Hosts SnapFacts Str Pattern
  PatternFacts.

Lemma call_built (h : Host) (σ : heap) (x : DateFlow) (op : Op) :
  (_date x < length σ)%nat ->
  exists v, call h x op σ = built σ x v.
Proof.
  intros Hx. destruct op; cbn [call]; unfold add, subtract.
  - eexists. apply run_modifyDate, Hx.
  - eexists. apply run_modifyDate, Hx.
  - eexists. apply run_startOf.
  - eexists. apply run_endOf.
  - eexists. apply run_clone.
Qed.

(** C1. Immutability: a call of [add], [subtract], [startOf], [endOf] or
    [clone] on [x] changes no [Date] object that existed before the call;
    so [valueOf] and the seven accessors of [x] answer after the call what
    they answered before it, whether the call returns or throws, and a
    returned [DateFlow] has a [Date] object of its own. *)
Theorem C1_immutability (h : Host) (σ : heap) (x : DateFlow) (op : Op) :
  (_date x < length σ)%nat ->
  let σ' := snd (call h x op σ) in
  (forall d : loc, (d < length σ)%nat -> timeValue σ' d = timeValue σ d)
  /\ fst (valueOf x σ') = fst (valueOf x σ)
  /\ fst (day h x σ') = fst (day h x σ)
  /\ fst (month h x σ') = fst (month h x σ)
  /\ fst (year h x σ') = fst (year h x σ)
  /\ fst (hour h x σ') = fst (hour h x σ)
  /\ fst (minute h x σ') = fst (minute h x σ)
  /\ fst (second h x σ') = fst (second h x σ)
  /\ fst (millisecond h x σ') = fst (millisecond h x σ)
  /\ (forall x', fst (call h x op σ) = Ok x' -> _date x' <> _date x).
Proof.
  intros Hx. destruct (call_built h σ x op Hx) as [v Hv].
  cbv zeta. rewrite Hv. unfold built. cbn [fst snd].
  assert (Hframe : forall d : loc, (d < length σ)%nat ->
                     timeValue (σ ++ [v]) d = timeValue σ d)
    by (intros d Hd; apply timeValue_old, Hd).
  split; [exact Hframe|].
  unfold valueOf, day, month, year, hour, minute, second, millisecond.
  run_method. rewrite (Hframe _ Hx).
  repeat split; try reflexivity.
  intros x' Hx'. destruct v; inversion Hx'; subst x'. cbn [_date]. lia.
Qed.

(** C2. DST correction of [add] and [subtract]: the new date is the
    result of the calendar step, shifted by the difference of the two
    offsets exactly when the instance has a locale and the host's offset at
    the stepped instant differs from the offset at the original one; with
    no locale it is the stepped instant itself.  The returned [DateFlow]
    has the format and the locale of the original.  The amount is one the
    step handles in exact arithmetic ([exactStep]). *)
Theorem C2_dst_correction (h : Host) (σ : heap) (x : DateFlow) (amount : Z)
    (unit : UnitType) :
  (_date x < length σ)%nat ->
  exactStep unit amount ->
  let original := timeValue σ (_date x) in
  let new := stepValue h unit amount original in
  add h x amount unit σ
  = built σ x (if truthy (_locale x) && offsetChanged h original new
               then shiftMinutes h original new else new)
  /\ subtract h x amount unit σ = add h x (- amount) unit σ
  /\ (truthy (_locale x) = false -> add h x amount unit σ = built σ x new)
  /\ (offsetChanged h original new = false ->
      add h x amount unit σ = built σ x new)
  /\ (truthy (_locale x) = true -> offsetChanged h original new = true ->
      add h x amount unit σ = built σ x (shiftMinutes h original new))
  /\ (forall x' σ', add h x amount unit σ = (Ok x', σ') ->
      _dateFormat x' = _dateFormat x /\ _locale x' = _locale x).
Proof.
  intros Hx _. cbv zeta. unfold add, subtract.
  rewrite (run_modifyDate h σ x amount unit Hx). unfold modifyValue.
  split; [reflexivity|]. split; [reflexivity|].
  split; [intros ->; reflexivity|].
  split; [intros ->; rewrite andb_false_r; reflexivity|].
  split; [intros -> ->; reflexivity|].
  intros x' σ'. unfold built.
  match goal with |- context [match ?v with _ => _ end] => destruct v end;
    intros H; inversion H; subst. split; reflexivity.
Qed.

(** C3, as stated, fails.  The value thrown by the constructor is the
    same [Error] for two different unusable inputs, so it does not carry
    the input; and [add] throws on a constructed [DateFlow] whose instant
    is the last representable one. *)
Lemma C3_counterexample :
  fst (ofString hostUTC "not-a-date" []) = Throw (Error "Invalid date provided")
  /\ fst (constructor hostUTC {| date := Some (ANumber None);
                                 dateFormat := None; locale := None |} [])
     = Throw (Error "Invalid date provided")
  /\ (exists x σ,
        constructor hostUTC {| date := Some (ANumber (Some maxTime));
                               dateFormat := None; locale := None |} []
        = (Ok x, σ)
        /\ moment σ x maxTime
        /\ fst (add hostUTC x 1 Umillisecond σ)
           = Throw (Error "Invalid date provided")).
Proof.
  split; [reflexivity|]. split; [reflexivity|].
  eexists _, _. split; [reflexivity|]. split; [|reflexivity].
  split; [cbn; lia|reflexivity].
Qed.

(** C3, amended.  The constructor throws [Error "Invalid date provided"]
    exactly when its input resolves to [NaN], and otherwise returns a
    [DateFlow] of the resolved instant and the given format and locale.
    [add], [subtract], [startOf], [endOf] and [clone] of a constructed
    [DateFlow] return, or throw that same [Error]; [clone], [valueOf],
    [toISOString], the accessors and [diff] return. *)
Theorem C3_construction_errors (h : Host) (σ : heap) :
  (forall o t, resolve h σ (date o) = Some t ->
     exists x σ', constructor h o σ = (Ok x, σ')
       /\ timeValue σ' (_date x) = Some t
       /\ _dateFormat x = dateFormat o /\ _locale x = locale o)
  /\ (forall o, resolve h σ (date o) = None ->
        throws (constructor h o) σ (Error "Invalid date provided"))
  /\ (forall x t op, moment σ x t ->
        (exists v, returns (call h x op) σ v)
        \/ throws (call h x op) σ (Error "Invalid date provided"))
  /\ (forall x t, moment σ x t ->
        returns (clone h x) σ t
        /\ valueOf x σ = (Ok (Some t), σ)
        /\ toISOString x σ = (Ok (DateString.isoString t), σ)
        /\ (forall y u, exists r, diff h x (OtherFlow y) u σ = (Ok r, σ))
        /\ (exists d mo y hh mi s ms,
              day h x σ = (Ok (Some d), σ) /\ month h x σ = (Ok (Some mo), σ)
              /\ year h x σ = (Ok (Some y), σ) /\ hour h x σ = (Ok (Some hh), σ)
              /\ minute h x σ = (Ok (Some mi), σ)
              /\ second h x σ = (Ok (Some s), σ)
              /\ millisecond h x σ = (Ok (Some ms), σ))).
Proof.
  repeat split.
  - intros o t Ht. rewrite run_constructor.
    destruct (date o) as [[d|n|s]|] eqn:Hd; cbn [resolve] in Ht |- *;
      rewrite ?Ht; eexists _, _;
      (split; [reflexivity|]); cbn [_date _dateFormat _locale];
      rewrite ?timeValue_new; auto.
  - intros o Hn. unfold throws. rewrite run_constructor.
    destruct (date o) as [[d|n|s]|] eqn:Hd; cbn [resolve] in Hn |- *;
      [| | |discriminate Hn]; rewrite ?Hn; eexists; reflexivity.
  - intros x t op [Hx Ht]. destruct (call_built h σ x op Hx) as [v Hv].
    unfold returns, throws. rewrite Hv. unfold built. destruct v as [v|].
    + left. exists v. eexists _, _. split; [reflexivity|]. cbn [_date].
      apply timeValue_new.
    + right. eexists. reflexivity.
  - destruct H as [Hx Ht]. unfold returns. rewrite run_clone, Ht.
    eexists _, _. split; [reflexivity|]. cbn [_date]. apply timeValue_new.
  - destruct H as [Hx Ht]. unfold valueOf. run_method. rewrite Ht.
    reflexivity.
  - destruct H as [Hx Ht]. unfold toISOString, Date.toISOString. run_method.
    rewrite Ht. reflexivity.
  - intros y u. rewrite run_diff. eexists. reflexivity.
  - destruct H as [Hx Ht].
    unfold day, month, year, hour, minute, second, millisecond.
    run_method. rewrite Ht. cbn. eexists _, _, _, _, _, _, _.
    repeat split; reflexivity.
Qed.

(** C4. For the units of fixed length, [x.diff(y, u)] is the floor of
    the millisecond difference divided by the length of the unit: the
    integer [q] with [len * q <= delta < len * (q + 1)].  The difference
    [delta] is the one the program computes, [x.valueOf() - y.valueOf()]
    in doubles: the exact difference of the two instants when that is at
    most 2^53 in magnitude, and never more than 1 away from it.  On every
    host, from 2024-02-10 to 2024-04-05 there are 55 days, and from
    2024-04-05 back to 2024-02-10 it is -8 weeks (the floor of -7.86). *)
Theorem C4_diff_fixed_units (h : Host) :
  (forall σ x y tx ty u len,
     timeValue σ (_date x) = Some tx -> timeValue σ (_date y) = Some ty ->
     Z.abs tx <= maxTime -> Z.abs ty <= maxTime ->
     unitLength u = Some len ->
     let delta := roundDouble (tx - ty) in
     diff h x (OtherFlow y) u σ = (Ok (Some (delta / len)), σ)
     /\ len * (delta / len) <= delta < len * (delta / len + 1)
     /\ (Z.abs (tx - ty) <= 2 ^ 53 -> delta = tx - ty)
     /\ Z.abs (delta - (tx - ty)) <= 1)
  /\ fst ((y ← ofString h "2024-02-10"; x ← ofString h "2024-04-05";
           diff h x (OtherFlow y) Uday) [])
     = Ok (Some 55)
  /\ fst ((y ← ofString h "2024-02-10"; x ← ofString h "2024-04-05";
           diff h y (OtherFlow x) Uweek) [])
     = Ok (Some (-8)).
Proof.
  split; [|split].
  - intros σ x y tx ty u len Hx Hy Htx Hty Hu. cbv zeta.
    rewrite run_diff, Hx, Hy, Hu. cbv zeta. cbn [nsubDouble floorDiv].
    split; [reflexivity|].
    assert (0 < len) by (destruct u; inversion Hu; lia).
    pose proof (Z.mul_div_le (roundDouble (tx - ty)) len ltac:(lia)).
    pose proof (Z.mul_succ_div_gt (roundDouble (tx - ty)) len ltac:(lia)).
    split; [lia|]. split; [apply roundDouble_exact|].
    apply roundDouble_54. unfold maxTime in *.
    change (2 ^ 54) with 18014398509481984. lia.
  - rewrite run_bind, run_ofString.
    change (DateString.parse h "2024-02-10") with (Some 1707523200000).
    cbv beta iota. rewrite run_bind, run_ofString.
    change (DateString.parse h "2024-04-05") with (Some 1712275200000).
    cbv beta iota. rewrite run_diff. reflexivity.
  - rewrite run_bind, run_ofString.
    change (DateString.parse h "2024-02-10") with (Some 1707523200000).
    cbv beta iota. rewrite run_bind, run_ofString.
    change (DateString.parse h "2024-04-05") with (Some 1712275200000).
    cbv beta iota. rewrite run_diff. reflexivity.
Qed.

Lemma local_day_near_midnight (h : Host) (t : Z) :
  -1440 < tzOffsetUTC h t < 1440 -> t mod msPerDay = 0 ->
  Day (HostDate.LocalTime h t) = Day t - 1
  \/ Day (HostDate.LocalTime h t) = Day t.
Proof.
  unfold HostDate.LocalTime, Day, msPerDay, msPerMinute. intros. ESFacts.zdiv.
Qed.

(** C5. [x.diff(y, 'month')] is [(xYear - yYear) * 12 + (xMonth0 -
    yMonth0)] and [x.diff(y, 'year')] is [xYear - yYear], the years and
    0-based months being those of the two instants in local time (the
    values of the accessors [year] and [month - 1]); nothing else of the
    two instants enters.  From 2024-01-31 to 2024-02-29 the month
    difference is 1, on every host whose offset stays within a day. *)
Theorem C5_diff_calendar (h : Host) :
  (forall σ x y tx ty,
     timeValue σ (_date x) = Some tx -> timeValue σ (_date y) = Some ty ->
     let lx := HostDate.LocalTime h tx in
     let ly := HostDate.LocalTime h ty in
     diff h x (OtherFlow y) Umonth σ
     = (Ok (Some ((YearFromTime lx - YearFromTime ly) * 12
                  + (MonthFromTime lx - MonthFromTime ly))), σ)
     /\ diff h x (OtherFlow y) Uyear σ
        = (Ok (Some (YearFromTime lx - YearFromTime ly)), σ)
     /\ year h x σ = (Ok (Some (YearFromTime lx)), σ)
     /\ month h x σ = (Ok (Some (MonthFromTime lx + 1)), σ))
  /\ ((forall t, -1440 < tzOffsetUTC h t < 1440) ->
      fst ((x ← ofString h "2024-02-29"; y ← ofString h "2024-01-31";
            diff h x (OtherFlow y) Umonth) [])
      = Ok (Some 1)).
Proof.
  split.
  - intros σ x y tx ty Hx Hy. cbv zeta.
    rewrite !run_diff, Hx, Hy. cbn [unitLength].
    unfold year, month. run_method. rewrite Hx.
    repeat split; reflexivity.
  - intros Hb. rewrite run_bind, run_ofString.
    change (DateString.parse h "2024-02-29") with (Some 1709164800000).
    cbv beta iota. rewrite run_bind, run_ofString.
    change (DateString.parse h "2024-01-31") with (Some 1706659200000).
    cbv beta iota. rewrite run_diff.
    cbn [unitLength fst _date length app].
    repeat match goal with
           | |- context [timeValue ?l ?n] =>
               let v := eval cbv in (timeValue l n) in
               change (timeValue l n) with v
           end.
    unfold HostDate.getFullYear, HostDate.getMonth, HostDate.local,
      MonthFromTime, DayWithinYear, InLeapYear, YearFromTime.
    destruct (local_day_near_midnight h 1709164800000 (Hb _) eq_refl)
      as [-> | ->];
      destruct (local_day_near_midnight h 1706659200000 (Hb _) eq_refl)
        as [-> | ->];
      reflexivity.
Qed.

(** C7. With no pattern and no locale, neither as argument nor as default
    of the instance, [format] returns what [toISOString] returns: for a
    [DateFlow] of instant [t] the UTC ISO-8601 string of [t], which depends
    on the date alone and not on the format or locale of the instance. *)
Theorem C7_format_fallback_iso (h : Host) (σ : heap) (x : DateFlow) :
  truthy (_dateFormat x) = false -> truthy (_locale x) = false ->
  format h x NoParam σ = toISOString x σ
  /\ format h x (OptionsParam None None) σ = toISOString x σ
  /\ (forall t, timeValue σ (_date x) = Some t ->
      format h x NoParam σ = (Ok (DateString.isoString t), σ))
  /\ (forall x', _date x' = _date x -> toISOString x' σ = toISOString x σ).
Proof.
  intros Hf Hl.
  assert (Hno : format h x NoParam σ = toISOString x σ).
  { unfold format, orElse. cbn [truthy]. unfold truthy in Hf, Hl.
    destruct (_locale x) as [[|c l]|]; try discriminate Hl;
      destruct (_dateFormat x) as [[|c' f]|]; try discriminate Hf;
      reflexivity. }
  repeat split.
  - exact Hno.
  - unfold format, orElse. cbn [truthy]. unfold truthy in Hf, Hl.
    destruct (_locale x) as [[|c l]|]; try discriminate Hl;
      destruct (_dateFormat x) as [[|c' f]|]; try discriminate Hf;
      reflexivity.
  - intros t Ht. rewrite Hno. unfold toISOString, Date.toISOString.
    run_method. rewrite Ht. reflexivity.
  - intros x' Hx'. unfold toISOString. rewrite Hx'. reflexivity.
Qed.

(** *** Range snapping *)

Lemma LocalTime_constant (h : Host) (c t : Z) :
  constantOffset h c -> HostDate.LocalTime h t = t + msPerMinute * c.
Proof. intros Hc. unfold HostDate.LocalTime. rewrite (proj1 (Hc t)). reflexivity. Qed.

Lemma startOf_returns (h : Host) (c : Z) (σ : heap) (x : DateFlow) (t s : Z)
    (u : UnitType) :
  constantOffset h c -> timeValue σ (_date x) = Some t ->
  (returns (startOf h x u) σ s
   <-> startOfValue (fixedHost c) u (Some t) = Some s).
Proof.
  intros Hc Ht.
  rewrite (returns_built _ σ x _ s (run_startOf h σ x u)), Ht.
  rewrite (proj1 (constantOffset_values h c u (Some t) Hc)). reflexivity.
Qed.

Lemma endOf_returns (h : Host) (c : Z) (σ : heap) (x : DateFlow) (t s : Z)
    (u : UnitType) :
  constantOffset h c -> timeValue σ (_date x) = Some t ->
  (returns (endOf h x u) σ s
   <-> endOfValue (fixedHost c) u (Some t) = Some s).
Proof.
  intros Hc Ht.
  rewrite (returns_built _ σ x _ s (run_endOf h σ x u)), Ht.
  rewrite (proj2 (constantOffset_values h c u (Some t) Hc)). reflexivity.
Qed.

(** C8, as stated, fails.  On a host with the 2024 rule of America/Nuuk,
    at 2024-10-27T01:30Z (23:30 local time, in the hour the clocks repeat)
    [endOf('hour')] returns 2024-10-27T00:59:59.999Z, which is before the
    instant itself; and on a UTC host [endOf('day')] of the last
    representable instant throws. *)
Lemma C8_counterexample :
  (let σ := [Some 1729992600000] in
   let x := {| _date := 0; _dateFormat := None; _locale := None |} in
   moment σ x 1729992600000
   /\ returns (endOf hostNuuk x Uhour) σ 1729990799999
   /\ 1729990799999 < 1729992600000)
  /\ (let σ := [Some maxTime] in
      let x := {| _date := 0; _dateFormat := None; _locale := None |} in
      moment σ x maxTime
      /\ throws (endOf hostUTC x Uday) σ (Error "Invalid date provided")).
Proof.
  split; cbv zeta.
  - split; [split; [cbn; lia|reflexivity]|]. split; [|lia].
    eexists _, _. split; reflexivity.
  - split; [split; [cbn; lia|reflexivity]|]. eexists. reflexivity.
Qed.

(** C8, amended.  For the unit millisecond [startOf] and [endOf] return
    the instant itself, and for every unit each of them returns or throws
    the constructor's [Error], on every host.  The bracket holds where the
    counterexample does not reach: on a host that reads local times in
    their order, for an instant that is the one the host takes for its own
    local time (not the second pass of a repeated hour), and when the
    local times the setters write are read back (not skipped), whenever
    [startOf(u)] returns, its instant is not after that of [x], and
    whenever [endOf(u)] returns, its instant is not before; and they do
    return when the instant of [x] and the instant of the first (last)
    millisecond of the unit are representable. *)
Theorem C8_bracket_read_back (h : Host) (σ : heap) (x : DateFlow) (t : Z) :
  moment σ x t ->
  (returns (startOf h x Umillisecond) σ t
   /\ returns (endOf h x Umillisecond) σ t)
  /\ (forall u,
        ((exists s, returns (startOf h x u) σ s)
         \/ throws (startOf h x u) σ (Error "Invalid date provided"))
        /\ ((exists e, returns (endOf h x u) σ e)
            \/ throws (endOf h x u) σ (Error "Invalid date provided")))
  /\ (forall u, orderedReading h -> ownLocalTime h t ->
        let l := HostDate.LocalTime h t in
        (startDateReadBack h u l -> readBack h (startOfLocal u l) ->
         (forall s, returns (startOf h x u) σ s -> s <= t)
         /\ (Z.abs t <= maxTime ->
             Z.abs (HostDate.UTC h (startOfLocal u l)) <= maxTime ->
             returns (startOf h x u) σ (HostDate.UTC h (startOfLocal u l))))
        /\ (endDateReadBack h u l ->
            (forall e, returns (endOf h x u) σ e -> t <= e)
            /\ (Z.abs t <= maxTime ->
                Z.abs (HostDate.UTC h (endOfLocal u l)) <= maxTime ->
                returns (endOf h x u) σ (HostDate.UTC h (endOfLocal u l))))).
Proof.
  intros [Hx Ht]. split; [|split].
  - split.
    + apply (returns_built _ σ x _ t (run_startOf h σ x Umillisecond)).
      exact Ht.
    + apply (returns_built _ σ x _ t (run_endOf h σ x Umillisecond)).
      exact Ht.
  - intros u. split.
    + apply (built_total _ σ x _ (run_startOf h σ x u)).
    + apply (built_total _ σ x _ (run_endOf h σ x u)).
  - intros u Hord Ho. cbv zeta. split.
    + intros Hb Hs. split.
      * intros s Hr.
        apply (returns_built _ σ x _ s (run_startOf h σ x u)) in Hr.
        rewrite Ht in Hr.
        exact (startOfValue_before h u t s Hord Ho Hb Hs Hr).
      * intros Hrt Hrs.
        apply (returns_built _ σ x _ _ (run_startOf h σ x u)).
        rewrite Ht.
        exact (startOfValue_in_range h u t Hord Ho Hb Hs Hrt Hrs).
    + intros Hb. split.
      * intros e Hr.
        apply (returns_built _ σ x _ e (run_endOf h σ x u)) in Hr.
        rewrite Ht in Hr.
        exact (endOfValue_after h u t e Hord Ho Hb Hr).
      * intros Hrt Hre.
        apply (returns_built _ σ x _ _ (run_endOf h σ x u)).
        rewrite Ht.
        exact (endOfValue_in_range h u t Hord Ho Hb Hrt Hre).
Qed.

(** C9, as stated, fails.  On a host with the 2024 rule of America/Nuuk,
    [endOf('week')] of Saturday 2024-03-30, 12:00 local time, returns
    2024-03-31T01:59:59.999Z: the clocks skip the last hour of that
    Saturday, and the result is Sunday, 00:59:59.999 local time.  On a UTC
    host [startOf('week')] of the first representable instant throws. *)
Lemma C9_counterexample :
  (let σ := [Some 1711807200000] in
   let x := {| _date := 0; _dateFormat := None; _locale := None |} in
   moment σ x 1711807200000
   /\ HostDate.getDay hostNuuk (Some 1711807200000) = Some 6
   /\ returns (endOf hostNuuk x Uweek) σ 1711850399999
   /\ HostDate.getDay hostNuuk (Some 1711850399999) = Some 0
   /\ HostDate.getHours hostNuuk (Some 1711850399999) = Some 0)
  /\ (let σ := [Some (- maxTime)] in
      let x := {| _date := 0; _dateFormat := None; _locale := None |} in
      moment σ x (- maxTime)
      /\ throws (startOf hostUTC x Uweek) σ (Error "Invalid date provided")).
Proof.
  split; cbv zeta.
  - split; [split; [cbn; lia|reflexivity]|].
    split; [vm_compute; reflexivity|].
    split; [|split; vm_compute; reflexivity].
    eexists _, _. split; vm_compute; reflexivity.
  - split; [split; [cbn; lia|reflexivity]|].
    eexists. vm_compute. reflexivity.
Qed.

(** C9, amended.  On every host the result of [startOf('week')] and of
    [endOf('week')] is the same whatever the format and locale of the
    instance.  When the local times that the two setters of
    [startOf('week')] write are read back by the host (not skipped), then
    whenever [startOf('week')] returns, its local time is 00:00:00.000 of a
    Sunday, the day of [x] or one of the six days before; and when those of
    [endOf('week')] are read back, whenever [endOf('week')] returns, its
    local time is 23:59:59.999 of a Saturday, the day of [x] or one of the
    six days after. *)
Theorem C9_week_read_back (h : Host) (σ : heap) (x : DateFlow) (t : Z) :
  moment σ x t ->
  (forall x' v, _date x' = _date x ->
     (returns (startOf h x' Uweek) σ v <-> returns (startOf h x Uweek) σ v)
     /\ (returns (endOf h x' Uweek) σ v <-> returns (endOf h x Uweek) σ v))
  /\ (let l := HostDate.LocalTime h t in
      (readBack h (startOfDate Uweek l) ->
       readBack h (startOfLocal Uweek l) ->
       forall s, returns (startOf h x Uweek) σ s ->
         let ls := HostDate.LocalTime h s in
         WeekDay ls = 0 /\ TimeWithinDay ls = 0
         /\ 0 <= Day l - Day ls <= 6)
      /\ (readBack h (endOfDate Uweek l) ->
          readBack h (endOfLocal Uweek l) ->
          forall e, returns (endOf h x Uweek) σ e ->
            let le := HostDate.LocalTime h e in
            WeekDay le = 6 /\ HourFromTime le = 23 /\ MinFromTime le = 59
            /\ SecFromTime le = 59 /\ msFromTime le = 999
            /\ 0 <= Day le - Day l <= 6)).
Proof.
  intros [Hx Ht]. split.
  - intros x' v Hx'. split.
    + rewrite (returns_built _ σ x' _ v (run_startOf h σ x' Uweek)).
      rewrite (returns_built _ σ x _ v (run_startOf h σ x Uweek)).
      rewrite Hx'. reflexivity.
    + rewrite (returns_built _ σ x' _ v (run_endOf h σ x' Uweek)).
      rewrite (returns_built _ σ x _ v (run_endOf h σ x Uweek)).
      rewrite Hx'. reflexivity.
  - cbv zeta. split.
    + intros Hb Hs s Hr.
      apply (returns_built _ σ x _ s (run_startOf h σ x Uweek)) in Hr.
      rewrite Ht in Hr.
      destruct (startOfValue_readBack h Uweek t s Hb Hr)
        as [[Hu _]|(_ & -> & _)]; [discriminate Hu|].
      rewrite (LocalTime_readBack h _ Hs). cbn [startOfLocal].
      assert (H0 : 0 <= 0 < msPerDay) by (unfold msPerDay; lia).
      rewrite WeekDay_MakeDate, TimeWithinDay_MakeDate, Day_MakeDate
        by exact H0.
      pose proof (WeekDay_range (HostDate.LocalTime h t)).
      repeat split; try lia. unfold WeekDay. ESFacts.zdiv.
    + intros Hb He e Hr.
      apply (returns_built _ σ x _ e (run_endOf h σ x Uweek)) in Hr.
      rewrite Ht in Hr.
      destruct (endOfValue_readBack h Uweek t e Hb Hr)
        as [[Hu _]|(_ & -> & _)]; [discriminate Hu|].
      rewrite (LocalTime_readBack h _ He). cbn [endOfLocal].
      rewrite WeekDay_MakeDate by apply end_of_day_range.
      destruct (ESFacts.fields_of_MakeTime
                  (Day (HostDate.LocalTime h t)
                   + (6 - WeekDay (HostDate.LocalTime h t))) 23 59 59 999)
        as (-> & -> & -> & -> & ->); try lia.
      pose proof (WeekDay_range (HostDate.LocalTime h t)).
      repeat split; try lia. unfold WeekDay. ESFacts.zdiv.
Qed.

(** C10, as stated, fails.  On a host with the 2024 rule of
    America/Nuuk, [endOf('day')] of 2024-03-30, 12:00 local time, returns
    2024-03-31T01:59:59.999Z (the last hour of that day is skipped), and
    [endOf('day')] of that result returns 2024-04-01T00:59:59.999Z. *)
Lemma C10_counterexample :
  let σ := [Some 1711807200000] in
  let x := {| _date := 0; _dateFormat := None; _locale := None |} in
  moment σ x 1711807200000
  /\ exists y σ',
       endOf hostNuuk x Uday σ = (Ok y, σ')
       /\ timeValue σ' (_date y) = Some 1711850399999
       /\ returns (endOf hostNuuk y Uday) σ' 1711933199999
       /\ 1711850399999 <> 1711933199999.
Proof.
  cbv zeta. split; [split; [cbn; lia|reflexivity]|].
  eexists _, _. split; [vm_compute; reflexivity|].
  split; [vm_compute; reflexivity|].
  split; [|lia]. eexists _, _. split; vm_compute; reflexivity.
Qed.

(** C10, amended.  [startOf] and [endOf] are idempotent when the local
    times that the setters write are read back by the host (none of them
    is skipped by a change of the offset): when [x.startOf(u)] returns
    [y], then [y.startOf(u)] returns too, with the instant of [y]; and the
    same for [endOf]. *)
Theorem C10_idempotent_read_back (h : Host) (σ : heap) (x : DateFlow)
    (t : Z) (u : UnitType) :
  moment σ x t ->
  let l := HostDate.LocalTime h t in
  (startDateReadBack h u l -> readBack h (startOfLocal u l) ->
   forall y σ', startOf h x u σ = (Ok y, σ') ->
     exists s, timeValue σ' (_date y) = Some s
               /\ returns (startOf h y u) σ' s)
  /\ (endDateReadBack h u l -> readBack h (endOfLocal u l) ->
      forall y σ', endOf h x u σ = (Ok y, σ') ->
        exists e, timeValue σ' (_date y) = Some e
                  /\ returns (endOf h y u) σ' e).
Proof.
  intros [Hx Ht]. cbv zeta. split; intros Hb Hl y σ' Hy.
  - rewrite run_startOf, Ht in Hy. unfold built in Hy.
    destruct (startOfValue h u (Some t)) as [s|] eqn:Hs;
      inversion Hy; subst y σ'; clear Hy.
    exists s. cbn [_date]. rewrite timeValue_new. split; [reflexivity|].
    apply (returns_built _ _ _ _ s (run_startOf h _ _ u)).
    cbn [_date]. rewrite timeValue_new.
    exact (startOfValue_readBack_idem h u t s Hb Hl Hs).
  - rewrite run_endOf, Ht in Hy. unfold built in Hy.
    destruct (endOfValue h u (Some t)) as [e|] eqn:He;
      inversion Hy; subst y σ'; clear Hy.
    exists e. cbn [_date]. rewrite timeValue_new. split; [reflexivity|].
    apply (returns_built _ _ _ _ e (run_endOf h _ _ u)).
    cbn [_date]. rewrite timeValue_new.
    exact (endOfValue_readBack_idem h u t e Hb Hl He).
Qed.

(** *** Manual formatting *)

Lemma run_format_manual (h : Host) (σ : heap) (x : DateFlow) (t : Z)
    (param : FormatParam) (f : string) :
  timeValue σ (_date x) = Some t ->
  truthy (resolvedLocale x param) = false ->
  resolvedPattern x param = Some f -> f <> EmptyString ->
  let l := HostDate.LocalTime h t in
  format h x param σ
  = (Ok (substitute f (toString (YearFromTime l))
           (padStart 2 "0" (toString (MonthFromTime l + 1)))
           (padStart 2 "0" (toString (DateFromTime l)))
           (padStart 2 "0" (toString (HourFromTime l)))
           (padStart 2 "0" (toString (MinFromTime l)))
           (padStart 2 "0" (toString (SecFromTime l)))), σ).
Proof.
  intros Ht Hl Hf Hne. cbv zeta. unfold format.
  unfold resolvedLocale, resolvedPattern in Hl, Hf.
  destruct param as [|f0|f0 l0]; cbn beta iota;
    (destruct (orElse _ (_locale x)) as [[|c0 l1]|]; try discriminate Hl);
    rewrite Hf; (destruct f as [|c f]; [congruence|]);
    unfold year, month, day, hour, minute, second; run_method;
    rewrite Ht; reflexivity.
Qed.

(** C6, as stated, fails: the year is not padded.  On a UTC host the
    date 0999-06-15 with the pattern YYYY-MM-DD is formatted as
    999-06-15. *)
Lemma C6_counterexample :
  fst ((x ← constructor hostUTC
              {| date := Some (AString "0999-06-15");
                 dateFormat := Some "YYYY-MM-DD"%string; locale := None |};
        format hostUTC x NoParam) [])
  = Ok "999-06-15"%string
  /\ "999-06-15"%string <> "0999-06-15"%string.
Proof. split; [vm_compute; reflexivity|discriminate]. Qed.

(** C6, amended.  With no locale and a pattern resolved, [format]
    returns the pattern in which the first occurrence of [YYYY] is replaced
    by the decimal digits of the year, without padding, and the first
    occurrences of [MM], [DD], [HH], [mm], [ss] by the month, day, hour,
    minute and second padded with zeros to two characters; every other
    character, later occurrences included, is copied.  The padded fields
    are two characters wide, and the year is four characters wide exactly
    for the years 1000 to 9999 among the years from 0 on. *)
Theorem C6_manual_format (h : Host) (σ : heap) (x : DateFlow) (t : Z)
    (param : FormatParam) (f : string) :
  timeValue σ (_date x) = Some t ->
  truthy (resolvedLocale x param) = false ->
  resolvedPattern x param = Some f -> f <> EmptyString ->
  let l := HostDate.LocalTime h t in
  let yr := toString (YearFromTime l) in
  let mo := padStart 2 "0" (toString (MonthFromTime l + 1)) in
  let dy := padStart 2 "0" (toString (DateFromTime l)) in
  let hr := padStart 2 "0" (toString (HourFromTime l)) in
  let mi := padStart 2 "0" (toString (MinFromTime l)) in
  let sc := padStart 2 "0" (toString (SecFromTime l)) in
  format h x param σ
  = (Ok (firstOccurrences (tokens yr mo dy hr mi sc) 0 f), σ)
  /\ String.length mo = 2%nat /\ String.length dy = 2%nat
  /\ String.length hr = 2%nat /\ String.length mi = 2%nat
  /\ String.length sc = 2%nat
  /\ (0 <= YearFromTime l <= 9999 ->
      (String.length yr = 4%nat <-> 1000 <= YearFromTime l)).
Proof.
  intros Ht Hl Hf Hne. cbv zeta.
  pose proof (time_fields (HostDate.LocalTime h t)) as (_ & Hh & Hm & Hs & _).
  pose proof (MonthFromTime_range (HostDate.LocalTime h t)) as Hmo.
  pose proof (DateFromTime_range (HostDate.LocalTime h t)) as Hd.
  assert (Hd' : 1 <= DateFromTime (HostDate.LocalTime h t) <= 31).
  { pose proof (leapOf_range (YearFromTime (HostDate.LocalTime h t))) as Hlp.
    rewrite InLeapYear_leapOf in Hd. revert Hd.
    generalize (leapOf (YearFromTime (HostDate.LocalTime h t))) Hlp.
    generalize (MonthFromTime (HostDate.LocalTime h t)) Hmo.
    intros m Hm' lp Hlp'. month_cases. }
  split; [|repeat split; try (apply padStart_two_length; lia)].
  - rewrite (run_format_manual h σ x t param f Ht Hl Hf Hne). cbv zeta.
    rewrite substitute_firstOccurrences; [reflexivity|].
    repeat (constructor;
            [first [ apply toString_chars
                   | apply padStart_chars; apply toString_chars ]|]).
    constructor.
  - apply toString_year_length. assumption.
  - apply toString_year_length. assumption.
Qed.

(** *** The theorems at concrete inputs *)

Lemma constantOffset_fixedHost (c : Z) : constantOffset (fixedHost c) c.
Proof. intros t. split; reflexivity. Qed.

Lemma C1_immutability_witness :
  let σ := [Some 1711800000000] in
  let x := {| _date := 0; _dateFormat := None; _locale := None |} in
  (_date x < length σ)%nat
  /\ fst (valueOf x (snd (call hostUTC x (OpAdd 1 Uday) σ)))
     = fst (valueOf x σ).
Proof.
  cbv zeta.
  assert (Hx : (0 < 1)%nat) by lia.
  split; [exact Hx|].
  exact (proj1 (proj2 (C1_immutability hostUTC [Some 1711800000000]
                         {| _date := 0; _dateFormat := None;
                            _locale := None |} (OpAdd 1 Uday) Hx))).
Defined.

Lemma C2_dst_correction_witness :
  let σ := [Some 1711807200000] in
  let x := {| _date := 0; _dateFormat := None;
              _locale := Some "en-US"%string |} in
  (_date x < length σ)%nat /\ exactStep Uday 1
  /\ truthy (_locale x) = true
  /\ offsetChanged hostNuuk (timeValue σ (_date x))
       (stepValue hostNuuk Uday 1 (timeValue σ (_date x))) = true
  /\ stepValue hostNuuk Uday 1 (timeValue σ (_date x))
     = Some 1711890000000
  /\ add hostNuuk x 1 Uday σ = built σ x (Some 1711893600000).
Proof.
  cbv zeta.
  assert (Hx : (0 < 1)%nat) by lia.
  assert (He : exactStep Uday 1) by (vm_compute; discriminate).
  assert (Hl : truthy (Some "en-US"%string) = true) by reflexivity.
  assert (Hc : offsetChanged hostNuuk (timeValue [Some 1711807200000] 0)
                 (stepValue hostNuuk Uday 1
                    (timeValue [Some 1711807200000] 0)) = true)
    by (vm_compute; reflexivity).
  split; [exact Hx|]. split; [exact He|]. split; [exact Hl|].
  split; [exact Hc|]. split; [vm_compute; reflexivity|].
  rewrite (proj1 (proj2 (proj2 (proj2 (proj2
             (C2_dst_correction hostNuuk [Some 1711807200000]
                {| _date := 0; _dateFormat := None;
                   _locale := Some "en-US"%string |} 1 Uday Hx He)))))
             Hl Hc).
  vm_compute. reflexivity.
Defined.

Lemma C3_construction_errors_witness :
  let o := {| date := Some (ANumber (Some 0)); dateFormat := None;
              locale := None |} in
  resolve hostUTC [] (date o) = Some 0
  /\ exists x σ', constructor hostUTC o [] = (Ok x, σ')
       /\ timeValue σ' (_date x) = Some 0
       /\ _dateFormat x = dateFormat o /\ _locale x = locale o.
Proof.
  cbv zeta.
  assert (Hr : resolve hostUTC []
                 (date {| date := Some (ANumber (Some 0));
                          dateFormat := None; locale := None |}) = Some 0)
    by reflexivity.
  split; [exact Hr|].
  exact (proj1 (C3_construction_errors hostUTC []) _ 0 Hr).
Defined.

Lemma C4_diff_fixed_units_witness :
  let σ := [Some maxTime; Some (- maxTime + 1)] in
  let x := {| _date := 0; _dateFormat := None; _locale := None |} in
  let y := {| _date := 1; _dateFormat := None; _locale := None |} in
  timeValue σ (_date x) = Some maxTime
  /\ timeValue σ (_date y) = Some (- maxTime + 1)
  /\ Z.abs maxTime <= maxTime /\ Z.abs (- maxTime + 1) <= maxTime
  /\ unitLength Usecond = Some 1000
  /\ diff hostUTC x (OtherFlow y) Usecond σ = (Ok (Some 17280000000000), σ).
Proof.
  cbv zeta.
  assert (Hx : timeValue [Some maxTime; Some (- maxTime + 1)] 0
               = Some maxTime) by reflexivity.
  assert (Hy : timeValue [Some maxTime; Some (- maxTime + 1)] 1
               = Some (- maxTime + 1)) by reflexivity.
  assert (Htx : Z.abs maxTime <= maxTime) by (vm_compute; discriminate).
  assert (Hty : Z.abs (- maxTime + 1) <= maxTime)
    by (vm_compute; discriminate).
  assert (Hu : unitLength Usecond = Some 1000) by reflexivity.
  split; [exact Hx|]. split; [exact Hy|]. split; [exact Htx|].
  split; [exact Hty|]. split; [exact Hu|].
  exact (proj1 (proj1 (C4_diff_fixed_units hostUTC) _
                  {| _date := 0; _dateFormat := None; _locale := None |}
                  {| _date := 1; _dateFormat := None; _locale := None |}
                  _ _ Usecond _ Hx Hy Htx Hty Hu)).
Defined.

Lemma C5_diff_calendar_witness :
  (forall t, -1440 < tzOffsetUTC hostUTC t < 1440)
  /\ fst ((x ← ofString hostUTC "2024-02-29";
           y ← ofString hostUTC "2024-01-31";
           diff hostUTC x (OtherFlow y) Umonth) [])
     = Ok (Some 1).
Proof.
  assert (Hb : forall t, -1440 < tzOffsetUTC hostUTC t < 1440)
    by (intros t; cbn; lia).
  split; [exact Hb|].
  exact (proj2 (C5_diff_calendar hostUTC) Hb).
Defined.

Lemma C6_manual_format_witness :
  let σ := [Some 1735084800000] in
  let x := {| _date := 0; _dateFormat := Some "DD/MM/YYYY"%string;
              _locale := None |} in
  timeValue σ (_date x) = Some 1735084800000
  /\ truthy (resolvedLocale x NoParam) = false
  /\ resolvedPattern x NoParam = Some "DD/MM/YYYY"%string
  /\ "DD/MM/YYYY"%string <> EmptyString
  /\ format hostUTC x NoParam σ = (Ok "25/12/2024"%string, σ).
Proof.
  cbv zeta.
  assert (Ht : timeValue [Some 1735084800000] 0 = Some 1735084800000)
    by reflexivity.
  assert (Hl : truthy (resolvedLocale
                         {| _date := 0;
                            _dateFormat := Some "DD/MM/YYYY"%string;
                            _locale := None |} NoParam) = false)
    by reflexivity.
  assert (Hf : resolvedPattern
                 {| _date := 0; _dateFormat := Some "DD/MM/YYYY"%string;
                    _locale := None |} NoParam
               = Some "DD/MM/YYYY"%string) by reflexivity.
  assert (Hne : "DD/MM/YYYY"%string <> EmptyString) by discriminate.
  split; [exact Ht|]. split; [exact Hl|]. split; [exact Hf|].
  split; [exact Hne|].
  exact (proj1 (C6_manual_format hostUTC [Some 1735084800000]
                  {| _date := 0; _dateFormat := Some "DD/MM/YYYY"%string;
                     _locale := None |} 1735084800000 NoParam
                  "DD/MM/YYYY" Ht Hl Hf Hne)).
Defined.

Lemma C7_format_fallback_iso_witness :
  let σ := [Some 1735084800000] in
  let x := {| _date := 0; _dateFormat := None; _locale := None |} in
  truthy (_dateFormat x) = false /\ truthy (_locale x) = false
  /\ format hostUTC x NoParam σ = toISOString x σ.
Proof.
  cbv zeta.
  assert (Hf : truthy (_dateFormat {| _date := 0; _dateFormat := None;
                                      _locale := None |}) = false)
    by reflexivity.
  assert (Hl : truthy (_locale {| _date := 0; _dateFormat := None;
                                  _locale := None |}) = false)
    by reflexivity.
  split; [exact Hf|]. split; [exact Hl|].
  exact (proj1 (C7_format_fallback_iso hostUTC [Some 1735084800000]
                  {| _date := 0; _dateFormat := None; _locale := None |}
                  Hf Hl)).
Defined.

Lemma C8_bracket_read_back_witness :
  let σ := [Some 1718452800000] in
  let x := {| _date := 0; _dateFormat := None; _locale := None |} in
  let l := HostDate.LocalTime hostNuuk 1718452800000 in
  moment σ x 1718452800000
  /\ orderedReading hostNuuk /\ ownLocalTime hostNuuk 1718452800000
  /\ startDateReadBack hostNuuk Uyear l
  /\ readBack hostNuuk (startOfLocal Uyear l)
  /\ endDateReadBack hostNuuk Uyear l
  /\ (forall s, returns (startOf hostNuuk x Uyear) σ s -> s <= 1718452800000)
  /\ (forall e, returns (endOf hostNuuk x Uyear) σ e -> 1718452800000 <= e).
Proof.
  cbv zeta.
  assert (Hm : moment [Some 1718452800000]
                 {| _date := 0; _dateFormat := None; _locale := None |}
                 1718452800000)
    by (split; [cbn; lia|reflexivity]).
  pose proof hostNuuk_ordered as Hord.
  assert (Ho : ownLocalTime hostNuuk 1718452800000)
    by (vm_compute; reflexivity).
  assert (Hb : startDateReadBack hostNuuk Uyear
                 (HostDate.LocalTime hostNuuk 1718452800000))
    by (vm_compute; reflexivity).
  assert (Hs : readBack hostNuuk
                 (startOfLocal Uyear
                    (HostDate.LocalTime hostNuuk 1718452800000)))
    by (vm_compute; reflexivity).
  assert (He : endDateReadBack hostNuuk Uyear
                 (HostDate.LocalTime hostNuuk 1718452800000))
    by (vm_compute; reflexivity).
  split; [exact Hm|]. split; [exact Hord|]. split; [exact Ho|].
  split; [exact Hb|]. split; [exact Hs|]. split; [exact He|].
  pose proof (proj2 (proj2 (C8_bracket_read_back hostNuuk _ _ _ Hm))
                Uyear Hord Ho) as [H1 H2].
  split; [exact (proj1 (H1 Hb Hs))|exact (proj1 (H2 He))].
Defined.

Lemma C9_week_read_back_witness :
  let σ := [Some 1712145600000] in
  let x := {| _date := 0; _dateFormat := None; _locale := None |} in
  let l := HostDate.LocalTime hostNuuk 1712145600000 in
  moment σ x 1712145600000
  /\ readBack hostNuuk (startOfDate Uweek l)
  /\ readBack hostNuuk (startOfLocal Uweek l)
  /\ (forall s, returns (startOf hostNuuk x Uweek) σ s ->
        WeekDay (HostDate.LocalTime hostNuuk s) = 0
        /\ TimeWithinDay (HostDate.LocalTime hostNuuk s) = 0).
Proof.
  cbv zeta.
  assert (Hm : moment [Some 1712145600000]
                 {| _date := 0; _dateFormat := None; _locale := None |}
                 1712145600000)
    by (split; [cbn; lia|reflexivity]).
  assert (Hb : readBack hostNuuk
                 (startOfDate Uweek
                    (HostDate.LocalTime hostNuuk 1712145600000)))
    by (vm_compute; reflexivity).
  assert (Hs : readBack hostNuuk
                 (startOfLocal Uweek
                    (HostDate.LocalTime hostNuuk 1712145600000)))
    by (vm_compute; reflexivity).
  split; [exact Hm|]. split; [exact Hb|]. split; [exact Hs|].
  intros s Hr.
  destruct (proj1 (proj2 (C9_week_read_back hostNuuk _ _ _ Hm)) Hb Hs s Hr)
    as (H1 & H2 & _).
  split; [exact H1|exact H2].
Defined.

Lemma C10_idempotent_read_back_witness :
  let σ := [Some 1718452800000] in
  let x := {| _date := 0; _dateFormat := None; _locale := None |} in
  let l := HostDate.LocalTime hostNuuk 1718452800000 in
  moment σ x 1718452800000
  /\ endDateReadBack hostNuuk Uyear l
  /\ readBack hostNuuk (endOfLocal Uyear l)
  /\ (forall y σ', endOf hostNuuk x Uyear σ = (Ok y, σ') ->
        exists e, timeValue σ' (_date y) = Some e
                  /\ returns (endOf hostNuuk y Uyear) σ' e).
Proof.
  cbv zeta.
  assert (Hm : moment [Some 1718452800000]
                 {| _date := 0; _dateFormat := None; _locale := None |}
                 1718452800000)
    by (split; [cbn; lia|reflexivity]).
  assert (Hb : endDateReadBack hostNuuk Uyear
                 (HostDate.LocalTime hostNuuk 1718452800000))
    by (vm_compute; reflexivity).
  assert (He : readBack hostNuuk
                 (endOfLocal Uyear
                    (HostDate.LocalTime hostNuuk 1718452800000)))
    by (vm_compute; reflexivity).
  split; [exact Hm|]. split; [exact Hb|]. split; [exact He|].
  exact (proj2 (C10_idempotent_read_back hostNuuk _ _ _ Uyear Hm) Hb He).
Defined.

End Claims.


(** * Further properties of the class *)

Module More.
Import ES ESFacts Heap Flow Value Run RunFacts Hosts SnapFacts Str Pattern
  PatternFacts Claims.

(** ** The accessors *)

Lemma run_accessors (h : Host) (σ : heap) (x : DateFlow) (t : Z) :
  timeValue σ (_date x) = Some t ->
  let l := HostDate.LocalTime h t in
  day h x σ = (Ok (Some (DateFromTime l)), σ)
  /\ month h x σ = (Ok (Some (MonthFromTime l + 1)), σ)
  /\ year h x σ = (Ok (Some (YearFromTime l)), σ)
  /\ hour h x σ = (Ok (Some (HourFromTime l)), σ)
  /\ minute h x σ = (Ok (Some (MinFromTime l)), σ)
  /\ second h x σ = (Ok (Some (SecFromTime l)), σ)
  /\ millisecond h x σ = (Ok (Some (msFromTime l)), σ).
Proof.
  intros Ht. cbv zeta.
  unfold day, month, year, hour, minute, second, millisecond.
  run_method. rewrite Ht. repeat split; reflexivity.
Qed.

Lemma DateFromTime_le_31 (l : Z) : 1 <= DateFromTime l <= 31.
Proof.
  pose proof (DateFromTime_range l) as Hd.
  pose proof (MonthFromTime_range l) as Hm.
  pose proof (leapOf_range (YearFromTime l)) as Hlp.
  rewrite InLeapYear_leapOf in Hd. revert Hd.
  generalize (leapOf (YearFromTime l)) Hlp.
  generalize (MonthFromTime l) Hm. intros m Hm' lp Hlp'. month_cases.
Qed.

(** The seven accessors of a constructed [DateFlow] return numbers in the
    ranges their documentation gives, on every host: day 1-31, month 1-12,
    hour 0-23, minute 0-59, second 0-59, millisecond 0-999; and the year,
    the month and the day are those of one calendar date. *)
Theorem accessors_in_range (h : Host) (σ : heap) (x : DateFlow) (t : Z) :
  moment σ x t ->
  exists d mo y hh mi s ms,
    day h x σ = (Ok (Some d), σ) /\ month h x σ = (Ok (Some mo), σ)
    /\ year h x σ = (Ok (Some y), σ) /\ hour h x σ = (Ok (Some hh), σ)
    /\ minute h x σ = (Ok (Some mi), σ) /\ second h x σ = (Ok (Some s), σ)
    /\ millisecond h x σ = (Ok (Some ms), σ)
    /\ 1 <= d <= 31 /\ 1 <= mo <= 12 /\ 0 <= hh <= 23 /\ 0 <= mi <= 59
    /\ 0 <= s <= 59 /\ 0 <= ms <= 999
    /\ d <= DateString.daysInMonth y mo.
Proof.
  intros [_ Ht].
  destruct (run_accessors h σ x t Ht) as (Hd & Hmo & Hy & Hh & Hmi & Hs & Hms).
  set (l := HostDate.LocalTime h t) in *.
  pose proof (time_fields l) as (_ & ? & ? & ? & ?).
  pose proof (MonthFromTime_range l). pose proof (DateFromTime_le_31 l).
  pose proof (DateFromTime_range l) as Hr.
  eexists _, _, _, _, _, _, _.
  repeat (split; [eassumption|]). repeat (split; [lia|]).
  unfold DateString.daysInMonth.
  replace (MonthFromTime l + 1 - 1) with (MonthFromTime l) by lia.
  rewrite InLeapYear_leapOf in Hr. lia.
Qed.

Lemma accessors_in_range_witness :
  let σ := [Some 1709164800000] in
  let x := {| _date := 0; _dateFormat := None; _locale := None |} in
  moment σ x 1709164800000
  /\ exists d mo y hh mi s ms,
       day hostUTC x σ = (Ok (Some d), σ)
       /\ month hostUTC x σ = (Ok (Some mo), σ)
       /\ year hostUTC x σ = (Ok (Some y), σ)
       /\ hour hostUTC x σ = (Ok (Some hh), σ)
       /\ minute hostUTC x σ = (Ok (Some mi), σ)
       /\ second hostUTC x σ = (Ok (Some s), σ)
       /\ millisecond hostUTC x σ = (Ok (Some ms), σ)
       /\ 1 <= d <= 31 /\ 1 <= mo <= 12 /\ 0 <= hh <= 23 /\ 0 <= mi <= 59
       /\ 0 <= s <= 59 /\ 0 <= ms <= 999
       /\ d <= DateString.daysInMonth y mo.
Proof.
  cbv zeta.
  assert (Hm : moment [Some 1709164800000]
                 {| _date := 0; _dateFormat := None; _locale := None |}
                 1709164800000)
    by (split; [cbn; lia|reflexivity]).
  split; [exact Hm|]. exact (accessors_in_range hostUTC _ _ _ Hm).
Defined.

(** ** Construction *)

Lemma timeValue_store (σ : heap) (d : loc) (v : num) :
  (d < length σ)%nat -> timeValue (<[d := v]> σ) d = v.
Proof.
  intros Hd. unfold timeValue. rewrite list_lookup_insert_eq by exact Hd.
  reflexivity.
Qed.

Lemma timeValue_store_other (σ : heap) (d d' : loc) (v : num) :
  d <> d' -> timeValue (<[d := v]> σ) d' = timeValue σ d'.
Proof.
  intros Hd. unfold timeValue. rewrite list_lookup_insert_ne by exact Hd.
  reflexivity.
Qed.

(** Constructed from a [Date] object, a [DateFlow] keeps that very object
    and allocates nothing: whatever a setter later writes into the
    caller's [Date] is what [valueOf] returns from then on.  A [clone]
    taken before has a date object of its own and keeps the instant. *)
Theorem constructor_shares_date_object (h : Host) (σ : heap) (d : loc)
    (t : Z) (f l : option string) :
  (d < length σ)%nat -> timeValue σ d = Some t ->
  let x := {| _date := d; _dateFormat := f; _locale := l |} in
  constructor h {| date := Some (ADate d); dateFormat := f; locale := l |} σ
  = (Ok x, σ)
  /\ (forall v, fst (valueOf x (snd (store d v σ))) = Ok v)
  /\ (exists y σ', clone h x σ = (Ok y, σ')
        /\ _date y <> d /\ _dateFormat y = f /\ _locale y = l
        /\ forall v, fst (valueOf y (snd (store d v σ'))) = Ok (Some t)).
Proof.
  intros Hd Ht. cbv zeta. split; [|split].
  - rewrite run_constructor. cbn [date dateFormat locale]. rewrite Ht.
    reflexivity.
  - intros v. unfold valueOf, store. run_method. cbn [snd fst _date].
    rewrite timeValue_store by exact Hd. reflexivity.
  - rewrite run_clone. cbn [_date]. rewrite Ht. unfold built.
    eexists _, _. split; [reflexivity|]. cbn [_date _dateFormat _locale].
    repeat split; try lia.
    intros v. unfold valueOf, store. run_method. cbn [snd fst _date].
    rewrite timeValue_store_other by lia. rewrite timeValue_new.
    reflexivity.
Qed.

Lemma constructor_shares_date_object_witness :
  let σ := [Some 1709164800000] in
  let x := {| _date := 0; _dateFormat := None; _locale := None |} in
  (0 < length σ)%nat /\ timeValue σ 0 = Some 1709164800000
  /\ constructor hostUTC {| date := Some (ADate 0); dateFormat := None;
                            locale := None |} σ = (Ok x, σ)
  /\ (forall v, fst (valueOf x (snd (store 0 v σ))) = Ok v).
Proof.
  cbv zeta.
  assert (Hd : (0 < length [Some 1709164800000%Z])%nat) by (cbn; lia).
  assert (Ht : timeValue [Some 1709164800000] 0 = Some 1709164800000)
    by reflexivity.
  split; [exact Hd|]. split; [exact Ht|].
  pose proof (constructor_shares_date_object hostUTC _ 0 _ None None Hd Ht)
    as (Hc & Hv & _).
  split; [exact Hc|exact Hv].
Defined.

(** Round trip through [valueOf]: constructing from the number that
    [valueOf] returns gives a [DateFlow] of the same instant, when the
    instant is a representable one. *)
Theorem valueOf_roundtrip (h : Host) (σ : heap) (x : DateFlow) (t : Z)
    (f l : option string) :
  moment σ x t -> Z.abs t <= maxTime ->
  returns (v ← valueOf x;
           constructor h {| date := Some (ANumber v); dateFormat := f;
                            locale := l |}) σ t.
Proof.
  intros [Hx Ht] Hr. unfold returns. rewrite run_bind. unfold valueOf.
  run_method. rewrite Ht, run_constructor. cbn [date resolve].
  change (Some t ≫= TimeClip) with (TimeClip t).
  rewrite (TimeClip_in_range t Hr). eexists _, _. split; [reflexivity|].
  cbn [_date]. apply timeValue_new.
Qed.

Lemma valueOf_roundtrip_witness :
  let σ := [Some 1709164800000] in
  let x := {| _date := 0; _dateFormat := None; _locale := None |} in
  moment σ x 1709164800000 /\ Z.abs 1709164800000 <= maxTime
  /\ returns (v ← valueOf x;
              constructor hostUTC {| date := Some (ANumber v);
                                     dateFormat := None; locale := None |})
       σ 1709164800000.
Proof.
  cbv zeta.
  assert (Hm : moment [Some 1709164800000]
                 {| _date := 0; _dateFormat := None; _locale := None |}
                 1709164800000)
    by (split; [cbn; lia|reflexivity]).
  assert (Hr : Z.abs 1709164800000 <= maxTime) by (unfold maxTime; lia).
  split; [exact Hm|]. split; [exact Hr|].
  exact (valueOf_roundtrip hostUTC _ _ _ None None Hm Hr).
Defined.

(** ** Comparison *)

Lemma run_equal (h : Host) (σ : heap) (x : DateFlow) (o : Other)
    (mode : EqualMode) :
  equal h x o mode σ
  = (Ok (let a := timeValue σ (_date x) in
         let b := timeValue σ (otherDate o) in
         match mode with
         | Strict => neqb a b
         | Short =>
             neqb (HostDate.getFullYear h a) (HostDate.getFullYear h b)
             && neqb (nadd (HostDate.getMonth h a) (Some 1))
                     (nadd (HostDate.getMonth h b) (Some 1))
             && neqb (HostDate.getDate h a) (HostDate.getDate h b)
         end), σ).
Proof.
  unfold equal, _getOtherTime, year, month, day.
  destruct mode, o; run_method; reflexivity.
Qed.

Lemma run_isBefore (σ : heap) (x : DateFlow) (o : Other) :
  isBefore x o σ
  = (Ok (nlt (timeValue σ (_date x)) (timeValue σ (otherDate o))), σ).
Proof. unfold isBefore, _getOtherTime. destruct o; run_method; reflexivity. Qed.

Lemma run_isAfter (σ : heap) (x : DateFlow) (o : Other) :
  isAfter x o σ
  = (Ok (nlt (timeValue σ (otherDate o)) (timeValue σ (_date x))), σ).
Proof. unfold isAfter, _getOtherTime. destruct o; run_method; reflexivity. Qed.

Lemma date_fields_of_day (l l' : Z) :
  Day l = Day l' ->
  YearFromTime l = YearFromTime l' /\ MonthFromTime l = MonthFromTime l'
  /\ DateFromTime l = DateFromTime l'.
Proof.
  intros Hd.
  unfold DateFromTime, MonthFromTime, DayWithinYear, InLeapYear, YearFromTime.
  rewrite Hd. repeat split; reflexivity.
Qed.

Lemma day_of_date_fields (l l' : Z) :
  YearFromTime l = YearFromTime l' -> MonthFromTime l = MonthFromTime l' ->
  DateFromTime l = DateFromTime l' -> Day l = Day l'.
Proof.
  intros Hy Hm Hd.
  pose proof (MakeDay_fields l (DateFromTime l)) as H1.
  pose proof (MakeDay_fields l' (DateFromTime l')) as H2.
  rewrite Hy, Hm, Hd in H1. lia.
Qed.

(** [equal]: the mode 'strict' compares the instants; the mode 'short'
    holds exactly when the two instants fall on the same calendar day of
    the host's local time, so 'strict' equality implies 'short' equality.
    A [DateFlow] argument and its native [Date] give the same answer. *)
Theorem equal_strict_and_short (h : Host) (σ : heap) (x : DateFlow)
    (o : Other) (tx ty : Z) :
  timeValue σ (_date x) = Some tx -> timeValue σ (otherDate o) = Some ty ->
  equal h x o Strict σ = (Ok (tx =? ty), σ)
  /\ equal h x o Short σ
     = (Ok (Day (HostDate.LocalTime h tx) =? Day (HostDate.LocalTime h ty)),
        σ)
  /\ (tx = ty -> equal h x o Short σ = (Ok true, σ))
  /\ (forall mode, equal h x (OtherDate (otherDate o)) mode σ
                   = equal h x o mode σ).
Proof.
  intros Hx Hy.
  assert (Hshort : equal h x o Short σ
            = (Ok (Day (HostDate.LocalTime h tx)
                   =? Day (HostDate.LocalTime h ty)), σ)).
  { rewrite run_equal, Hx, Hy. cbv zeta.
    unfold HostDate.getFullYear, HostDate.getMonth, HostDate.getDate,
      HostDate.local, neqb, nneq, nadd. rewrite !negb_involutive.
    do 2 f_equal.
    destruct (Z.eqb_spec (Day (HostDate.LocalTime h tx))
                (Day (HostDate.LocalTime h ty))) as [Hd|Hd].
    - destruct (date_fields_of_day _ _ Hd) as (-> & -> & ->).
      rewrite !Z.eqb_refl. reflexivity.
    - destruct (Z.eqb_spec (YearFromTime (HostDate.LocalTime h tx))
                  (YearFromTime (HostDate.LocalTime h ty))); [|reflexivity].
      destruct (Z.eqb_spec (MonthFromTime (HostDate.LocalTime h tx) + 1)
                  (MonthFromTime (HostDate.LocalTime h ty) + 1));
        [|reflexivity].
      destruct (Z.eqb_spec (DateFromTime (HostDate.LocalTime h tx))
                  (DateFromTime (HostDate.LocalTime h ty))); [|reflexivity].
      exfalso. apply Hd, day_of_date_fields; lia. }
  split; [|split; [exact Hshort|split]].
  - rewrite run_equal, Hx, Hy. cbv zeta. unfold neqb, nneq.
    rewrite negb_involutive. reflexivity.
  - intros ->. rewrite Hshort, Z.eqb_refl. reflexivity.
  - intros mode. rewrite !run_equal. reflexivity.
Qed.

Lemma equal_strict_and_short_witness :
  let σ := [Some 1704067200000; Some 1704110400000] in
  let x := {| _date := 0; _dateFormat := None; _locale := None |} in
  let y := {| _date := 1; _dateFormat := None; _locale := None |} in
  timeValue σ (_date x) = Some 1704067200000
  /\ timeValue σ (otherDate (OtherFlow y)) = Some 1704110400000
  /\ equal hostUTC x (OtherFlow y) Strict σ = (Ok false, σ)
  /\ equal hostUTC x (OtherFlow y) Short σ = (Ok true, σ).
Proof.
  cbv zeta.
  assert (Hx : timeValue [Some 1704067200000; Some 1704110400000] 0
               = Some 1704067200000) by reflexivity.
  assert (Hy : timeValue [Some 1704067200000; Some 1704110400000] 1
               = Some 1704110400000) by reflexivity.
  split; [exact Hx|]. split; [exact Hy|].
  pose proof (equal_strict_and_short hostUTC _
                {| _date := 0; _dateFormat := None; _locale := None |}
                (OtherFlow {| _date := 1; _dateFormat := None;
                              _locale := None |}) _ _ Hx Hy)
    as (Hs & Hsh & _).
  split; [exact Hs|exact Hsh].
Defined.

(** [isBefore], [isAfter] and strict [equal] of two valid instants: one
    of the three holds and the other two do not; and [x.isBefore(y)] is
    [y.isAfter(x)]. *)
Theorem comparisons_trichotomy (h : Host) (σ : heap) (x y : DateFlow)
    (tx ty : Z) :
  timeValue σ (_date x) = Some tx -> timeValue σ (_date y) = Some ty ->
  isBefore x (OtherFlow y) σ = (Ok (tx <? ty), σ)
  /\ isAfter x (OtherFlow y) σ = (Ok (ty <? tx), σ)
  /\ isBefore x (OtherFlow y) σ = isAfter y (OtherFlow x) σ
  /\ (exists b a e,
        isBefore x (OtherFlow y) σ = (Ok b, σ)
        /\ isAfter x (OtherFlow y) σ = (Ok a, σ)
        /\ equal h x (OtherFlow y) Strict σ = (Ok e, σ)
        /\ ((b = true /\ a = false /\ e = false)
            \/ (b = false /\ a = true /\ e = false)
            \/ (b = false /\ a = false /\ e = true))).
Proof.
  intros Hx Hy. rewrite !run_isBefore, !run_isAfter, run_equal.
  cbn [otherDate]. rewrite Hx, Hy. cbv zeta. unfold nlt, neqb, nneq.
  rewrite negb_involutive. repeat split.
  eexists _, _, _. repeat (split; [reflexivity|]).
  destruct (Z.ltb_spec tx ty), (Z.ltb_spec ty tx), (Z.eqb_spec tx ty);
    try lia; auto.
Qed.

Lemma comparisons_trichotomy_witness :
  let σ := [Some 1704067200000; Some 1704110400000] in
  let x := {| _date := 0; _dateFormat := None; _locale := None |} in
  let y := {| _date := 1; _dateFormat := None; _locale := None |} in
  timeValue σ (_date x) = Some 1704067200000
  /\ timeValue σ (_date y) = Some 1704110400000
  /\ isBefore x (OtherFlow y) σ = (Ok true, σ).
Proof.
  cbv zeta.
  assert (Hx : timeValue [Some 1704067200000; Some 1704110400000] 0
               = Some 1704067200000) by reflexivity.
  assert (Hy : timeValue [Some 1704067200000; Some 1704110400000] 1
               = Some 1704110400000) by reflexivity.
  split; [exact Hx|]. split; [exact Hy|].
  exact (proj1 (comparisons_trichotomy hostUTC _
                  {| _date := 0; _dateFormat := None; _locale := None |}
                  {| _date := 1; _dateFormat := None; _locale := None |}
                  _ _ Hx Hy)).
Defined.

(** Compared with an invalid native [Date] (time value [NaN]), nothing
    throws and every comparison answers false: [isBefore], [isAfter] and
    [equal] in both modes. *)
Theorem comparisons_with_invalid_date (h : Host) (σ : heap) (x : DateFlow)
    (d : loc) :
  timeValue σ d = None ->
  isBefore x (OtherDate d) σ = (Ok false, σ)
  /\ isAfter x (OtherDate d) σ = (Ok false, σ)
  /\ equal h x (OtherDate d) Strict σ = (Ok false, σ)
  /\ equal h x (OtherDate d) Short σ = (Ok false, σ).
Proof.
  intros Hd. rewrite run_isBefore, run_isAfter, !run_equal.
  cbn [otherDate]. rewrite Hd. cbv zeta.
  destruct (timeValue σ (_date x)) as [t|]; repeat split; reflexivity.
Qed.

Lemma comparisons_with_invalid_date_witness :
  let σ := [Some 1704067200000; None] in
  let x := {| _date := 0; _dateFormat := None; _locale := None |} in
  timeValue σ 1 = None
  /\ isBefore x (OtherDate 1) σ = (Ok false, σ)
  /\ equal hostUTC x (OtherDate 1) Short σ = (Ok false, σ).
Proof.
  cbv zeta.
  assert (Hd : timeValue [Some 1704067200000; None] 1 = None) by reflexivity.
  split; [exact Hd|].
  pose proof (comparisons_with_invalid_date hostUTC _
                {| _date := 0; _dateFormat := None; _locale := None |} 1 Hd)
    as (Hb & _ & _ & Hs).
  split; [exact Hb|exact Hs].
Defined.

(** ** Difference *)

(** [diff] the other way round: for 'month' and 'year' the sign flips;
    for the units of fixed length the floor makes the two results add up
    to 0 when the difference, as the doubles compute it, is a whole number
    of units and to -1 otherwise.  The difference of an instant with itself
    is 0. *)
Theorem diff_reversed (h : Host) (σ : heap) (x y : DateFlow) (tx ty : Z)
    (u : UnitType) :
  timeValue σ (_date x) = Some tx -> timeValue σ (_date y) = Some ty ->
  Z.abs tx <= maxTime -> Z.abs ty <= maxTime ->
  exists v w,
    diff h x (OtherFlow y) u σ = (Ok (Some v), σ)
    /\ diff h y (OtherFlow x) u σ = (Ok (Some w), σ)
    /\ match unitLength u with
       | Some len =>
           v + w = if roundDouble (tx - ty) mod len =? 0 then 0 else -1
       | None => w = - v
       end
    /\ diff h x (OtherFlow x) u σ = (Ok (Some 0), σ).
Proof.
  intros Hx Hy _ _. rewrite !run_diff, Hx, Hy. cbv zeta.
  destruct (unitLength u) as [len|] eqn:Hu.
  - cbn [nsubDouble floorDiv].
    replace (ty - tx) with (- (tx - ty)) by lia.
    rewrite roundDouble_opp, Z.sub_diag.
    change (roundDouble 0) with 0.
    generalize (roundDouble (tx - ty)). intros d.
    eexists _, _.
    split; [reflexivity|]. split; [reflexivity|]. split.
    + destruct u; inversion Hu; subst len;
        match goal with
        | |- context [?a mod ?b =? 0] => destruct (Z.eqb_spec (a mod b) 0)
        end; zdiv.
    + destruct u; inversion Hu; reflexivity.
  - destruct u; try discriminate Hu;
      cbn [HostDate.getFullYear HostDate.getMonth HostDate.local nsub nmul
           nadd];
      eexists _, _; (split; [reflexivity|]); (split; [reflexivity|]);
      (split; [lia|]); do 3 f_equal; lia.
Qed.

Lemma diff_reversed_witness :
  let σ := [Some maxTime; Some (- maxTime + 1)] in
  let x := {| _date := 0; _dateFormat := None; _locale := None |} in
  let y := {| _date := 1; _dateFormat := None; _locale := None |} in
  timeValue σ (_date x) = Some maxTime
  /\ timeValue σ (_date y) = Some (- maxTime + 1)
  /\ Z.abs maxTime <= maxTime /\ Z.abs (- maxTime + 1) <= maxTime
  /\ exists v w,
       diff hostUTC x (OtherFlow y) Usecond σ = (Ok (Some v), σ)
       /\ diff hostUTC y (OtherFlow x) Usecond σ = (Ok (Some w), σ)
       /\ match unitLength Usecond with
          | Some len =>
              v + w = if roundDouble (maxTime - (- maxTime + 1)) mod len =? 0
                      then 0 else -1
          | None => w = - v
          end
       /\ diff hostUTC x (OtherFlow x) Usecond σ = (Ok (Some 0), σ).
Proof.
  cbv zeta.
  assert (Hx : timeValue [Some maxTime; Some (- maxTime + 1)] 0
               = Some maxTime) by reflexivity.
  assert (Hy : timeValue [Some maxTime; Some (- maxTime + 1)] 1
               = Some (- maxTime + 1)) by reflexivity.
  assert (Htx : Z.abs maxTime <= maxTime) by (vm_compute; discriminate).
  assert (Hty : Z.abs (- maxTime + 1) <= maxTime)
    by (vm_compute; discriminate).
  split; [exact Hx|]. split; [exact Hy|]. split; [exact Htx|].
  split; [exact Hty|].
  exact (diff_reversed hostUTC _
           {| _date := 0; _dateFormat := None; _locale := None |}
           {| _date := 1; _dateFormat := None; _locale := None |}
           _ _ Usecond Hx Hy Htx Hty).
Defined.

(** ** Arithmetic *)

Lemma MakeDay_carry (y m n dt : Z) :
  0 <= m <= 11 -> MakeDay y (m + 12 * n) dt = MakeDay (y + n) m dt.
Proof.
  intros Hm. unfold MakeDay.
  replace ((m + 12 * n) / 12) with (n + m / 12) by zdiv.
  replace ((m + 12 * n) mod 12) with (m mod 12) by zdiv.
  replace (m / 12) with 0 by zdiv.
  replace (y + (n + 0)) with (y + n + 0) by lia. reflexivity.
Qed.

Lemma stepValue_months_years (h : Host) (n : Z) (tv : num) :
  stepValue h Umonth (12 * n) tv = stepValue h Uyear n tv.
Proof.
  destruct tv as [t|]; [|reflexivity].
  cbn [stepValue HostDate.getMonth HostDate.getFullYear HostDate.local nadd].
  unfold HostDate.setMonth, HostDate.setFullYear, HostDate.orField.
  rewrite MakeDay_carry by apply MonthFromTime_range. reflexivity.
Qed.

(** Twelve months are a year and seven days are a week: on every host
    [add(12 * n, 'month')] does what [add(n, 'year')] does, and
    [add(7 * n, 'day')] what [add(n, 'week')] does, to the new date and to
    the heap, the DST correction included. *)
Theorem add_months_as_years (h : Host) (σ : heap) (x : DateFlow) (n : Z) :
  (_date x < length σ)%nat ->
  add h x (12 * n) Umonth σ = add h x n Uyear σ
  /\ add h x (7 * n) Uday σ = add h x n Uweek σ
  /\ subtract h x (12 * n) Umonth σ = subtract h x n Uyear σ.
Proof.
  intros Hx. unfold add, subtract. rewrite !run_modifyDate by exact Hx.
  unfold modifyValue.
  replace (- (12 * n)) with (12 * - n) by lia.
  rewrite !stepValue_months_years.
  split; [reflexivity|]. split; [|reflexivity].
  cbn [stepValue]. rewrite (Z.mul_comm 7 n). reflexivity.
Qed.

Lemma add_months_as_years_witness :
  let σ := [Some 1706659200000] in
  let x := {| _date := 0; _dateFormat := None;
              _locale := Some "it-IT"%string |} in
  (_date x < length σ)%nat
  /\ add hostNuuk x (12 * 2) Umonth σ = add hostNuuk x 2 Uyear σ.
Proof.
  cbv zeta.
  assert (Hx : (0 < 1)%nat) by lia.
  split; [exact Hx|].
  exact (proj1 (add_months_as_years hostNuuk [Some 1706659200000]
                  {| _date := 0; _dateFormat := None;
                     _locale := Some "it-IT"%string |} 2 Hx)).
Defined.

(** *** Arithmetic on a host of constant offset *)

Lemma constantOffset_ops (h : Host) (c : Z) :
  constantOffset h c ->
  (forall f v, HostDate.local h f v = HostDate.local (fixedHost c) f v)
  /\ (forall v, HostDate.getTimezoneOffset h v
                = HostDate.getTimezoneOffset (fixedHost c) v)
  /\ (forall v a, HostDate.setFullYear h v a
                  = HostDate.setFullYear (fixedHost c) v a)
  /\ (forall v a b, HostDate.setMonth h v a b
                    = HostDate.setMonth (fixedHost c) v a b)
  /\ (forall v a, HostDate.setDate h v a = HostDate.setDate (fixedHost c) v a)
  /\ (forall v a b d e, HostDate.setHours h v a b d e
                        = HostDate.setHours (fixedHost c) v a b d e)
  /\ (forall v a b d, HostDate.setMinutes h v a b d
                      = HostDate.setMinutes (fixedHost c) v a b d)
  /\ (forall v a b, HostDate.setSeconds h v a b
                    = HostDate.setSeconds (fixedHost c) v a b)
  /\ (forall v a, HostDate.setMilliseconds h v a
                  = HostDate.setMilliseconds (fixedHost c) v a).
Proof.
  intros Hc.
  assert (HL : forall t, HostDate.LocalTime h t
                         = HostDate.LocalTime (fixedHost c) t)
    by (intros t; unfold HostDate.LocalTime; cbn [tzOffsetUTC fixedHost];
        rewrite (proj1 (Hc t)); reflexivity).
  assert (HU : forall t, HostDate.UTC h t = HostDate.UTC (fixedHost c) t)
    by (intros t; unfold HostDate.UTC; cbn [tzOffsetLocal fixedHost];
        rewrite (proj2 (Hc t)); reflexivity).
  repeat apply conj.
  - intros f [v|]; unfold HostDate.local; rewrite ?HL; reflexivity.
  - intros [v|]; unfold HostDate.getTimezoneOffset; rewrite ?HL; reflexivity.
  - intros [v|] a; unfold HostDate.setFullYear; rewrite ?HL;
      repeat case_match; rewrite ?HU; reflexivity.
  - intros [v|] a b; unfold HostDate.setMonth; rewrite ?HL;
      repeat case_match; rewrite ?HU; reflexivity.
  - intros [v|] a; unfold HostDate.setDate; rewrite ?HL;
      repeat case_match; rewrite ?HU; reflexivity.
  - intros [v|] a b d e; unfold HostDate.setHours; rewrite ?HL;
      repeat case_match; rewrite ?HU; reflexivity.
  - intros [v|] a b d; unfold HostDate.setMinutes; rewrite ?HL;
      repeat case_match; rewrite ?HU; reflexivity.
  - intros [v|] a b; unfold HostDate.setSeconds; rewrite ?HL;
      repeat case_match; rewrite ?HU; reflexivity.
  - intros [v|] a; unfold HostDate.setMilliseconds; rewrite ?HL;
      repeat case_match; rewrite ?HU; reflexivity.
Qed.

Lemma constantOffset_modifyValue (h : Host) (c : Z) (locale : option string)
    (u : UnitType) (n : Z) (tv : num) :
  constantOffset h c ->
  stepValue h u n tv = stepValue (fixedHost c) u n tv
  /\ modifyValue h locale u n tv = modifyValue (fixedHost c) locale u n tv.
Proof.
  intros Hc.
  destruct (constantOffset_ops h c Hc)
    as (Hl & Ho & HsY & HsMo & HsD & HsH & HsMi & HsS & HsMs).
  assert (Hstep : forall u, stepValue h u n tv
                            = stepValue (fixedHost c) u n tv).
  { intros u'. destruct u'; cbn [stepValue];
      unfold HostDate.getFullYear, HostDate.getMonth, HostDate.getDate,
        HostDate.getHours, HostDate.getMinutes, HostDate.getSeconds,
        HostDate.getMilliseconds;
      rewrite ?HsY, ?HsMo, ?HsD, ?HsH, ?HsMi, ?HsS, ?HsMs, ?Hl;
      reflexivity. }
  split; [apply Hstep|].
  unfold modifyValue, offsetChanged, shiftMinutes, HostDate.getMinutes.
  rewrite Hstep, !Ho, HsMi, Hl. reflexivity.
Qed.

Lemma stepValue_fixed_length (c : Z) (u : UnitType) (n t len : Z) :
  unitLength u = Some len ->
  stepValue (fixedHost c) u n (Some t) = TimeClip (t + n * len).
Proof.
  intros Hu.
  pose proof (time_fields (t + msPerMinute * c)) as (Htw & _).
  pose proof (MakeDate_Day (t + msPerMinute * c)) as Hmd.
  destruct u; inversion Hu; subst len; clear Hu; cbn [stepValue];
    rewrite ?getDate_fixed; cbn [HostDate.getHours HostDate.getMinutes
      HostDate.getSeconds HostDate.getMilliseconds HostDate.local nadd];
    change (HostDate.LocalTime (fixedHost c) t) with (t + msPerMinute * c).
  - rewrite setDate_fixed, MakeDay_fields. f_equal.
    unfold MakeDate, msPerDay in *. lia.
  - rewrite setDate_fixed, MakeDay_fields. f_equal.
    unfold MakeDate, msPerDay in *. lia.
  - change (HostDate.setHours (fixedHost c) (Some t)
              (Some (HourFromTime (t + msPerMinute * c) + n)) None None None)
      with (TimeClip (MakeDate (Day (t + msPerMinute * c))
                        (MakeTime (HourFromTime (t + msPerMinute * c) + n)
                           (MinFromTime (t + msPerMinute * c))
                           (SecFromTime (t + msPerMinute * c))
                           (msFromTime (t + msPerMinute * c)))
                      - msPerMinute * c)).
    f_equal. rewrite Htw in Hmd.
    unfold MakeDate, MakeTime, msPerDay, msPerHour, msPerMinute,
      msPerSecond in *. lia.
  - change (HostDate.setMinutes (fixedHost c) (Some t)
              (Some (MinFromTime (t + msPerMinute * c) + n)) None None)
      with (TimeClip (MakeDate (Day (t + msPerMinute * c))
                        (MakeTime (HourFromTime (t + msPerMinute * c))
                           (MinFromTime (t + msPerMinute * c) + n)
                           (SecFromTime (t + msPerMinute * c))
                           (msFromTime (t + msPerMinute * c)))
                      - msPerMinute * c)).
    f_equal. rewrite Htw in Hmd.
    unfold MakeDate, MakeTime, msPerDay, msPerHour, msPerMinute,
      msPerSecond in *. lia.
  - change (HostDate.setSeconds (fixedHost c) (Some t)
              (Some (SecFromTime (t + msPerMinute * c) + n)) None)
      with (TimeClip (MakeDate (Day (t + msPerMinute * c))
                        (MakeTime (HourFromTime (t + msPerMinute * c))
                           (MinFromTime (t + msPerMinute * c))
                           (SecFromTime (t + msPerMinute * c) + n)
                           (msFromTime (t + msPerMinute * c)))
                      - msPerMinute * c)).
    f_equal. rewrite Htw in Hmd.
    unfold MakeDate, MakeTime, msPerDay, msPerHour, msPerMinute,
      msPerSecond in *. lia.
  - rewrite setMilliseconds_fixed. f_equal. rewrite Htw in Hmd.
    unfold MakeDate, MakeTime, msPerDay, msPerHour, msPerMinute,
      msPerSecond in *. lia.
Qed.

Lemma modifyValue_fixed (c : Z) (locale : option string) (u : UnitType)
    (n t : Z) :
  modifyValue (fixedHost c) locale u n (Some t)
  = stepValue (fixedHost c) u n (Some t).
Proof.
  unfold modifyValue, offsetChanged, shiftMinutes.
  destruct (stepValue (fixedHost c) u n (Some t)) as [v|];
    destruct (truthy locale); cbn [andb]; try reflexivity.
  replace (nneq (HostDate.getTimezoneOffset (fixedHost c) (Some t))
             (HostDate.getTimezoneOffset (fixedHost c) (Some v)))
    with false; [reflexivity|].
  unfold HostDate.getTimezoneOffset, HostDate.LocalTime, nneq.
  cbn [tzOffsetUTC fixedHost]. symmetry. apply negb_false_iff, Z.eqb_eq.
  f_equal. lia.
Qed.

Lemma add_returns_fixed (h : Host) (c : Z) (σ : heap) (x : DateFlow)
    (t n len v : Z) (u : UnitType) :
  constantOffset h c -> moment σ x t -> unitLength u = Some len ->
  (returns (add h x n u) σ v <-> v = t + n * len /\ Z.abs v <= maxTime).
Proof.
  intros Hc [Hx Ht] Hu. unfold add.
  rewrite (returns_built _ σ x _ v (run_modifyDate h σ x n u Hx)), Ht.
  rewrite (proj2 (constantOffset_modifyValue h c _ u n (Some t) Hc)).
  rewrite modifyValue_fixed, (stepValue_fixed_length c u n t len Hu).
  split.
  - intros Hv. apply TimeClip_Some in Hv as [-> Hr]. auto.
  - intros [-> Hr]. apply TimeClip_in_range, Hr.
Qed.

(** On a host whose zone keeps one UTC offset, with or without a locale
    on the instance, [add(n, u)] for the units week, day, hour, minute,
    second and millisecond, and an amount that the step handles in exact
    arithmetic ([exactStep]), moves the instant by exactly [n] times the
    length of the unit, and returns exactly when that instant is
    representable; [subtract(n, u)] moves it back by as much.  So
    [x.add(n, u).subtract(n, u)] is the instant of [x] again. *)
Theorem add_fixed_length_units (h : Host) (c : Z) (σ : heap) (x : DateFlow)
    (t n len : Z) (u : UnitType) :
  constantOffset h c -> moment σ x t -> unitLength u = Some len ->
  exactStep u n ->
  (forall v, returns (add h x n u) σ v
             <-> v = t + n * len /\ Z.abs v <= maxTime)
  /\ (forall v, returns (subtract h x n u) σ v
                <-> v = t - n * len /\ Z.abs v <= maxTime)
  /\ (Z.abs t <= maxTime ->
      forall y σ', add h x n u σ = (Ok y, σ') ->
                   returns (subtract h y n u) σ' t).
Proof.
  intros Hc Hm Hu _. split; [|split].
  - intros v. apply (add_returns_fixed h c σ x t n len v u Hc Hm Hu).
  - intros v. unfold subtract. fold (add h x (- n) u).
    rewrite (add_returns_fixed h c σ x t (- n) len v u Hc Hm Hu).
    replace (t + - n * len) with (t - n * len) by lia. reflexivity.
  - intros Hr y σ' Hy. destruct Hm as [Hx Ht].
    unfold add in Hy. rewrite (run_modifyDate h σ x n u Hx), Ht in Hy.
    unfold built in Hy.
    destruct (modifyValue h (_locale x) u n (Some t)) as [v|] eqn:Hv;
      inversion Hy; subst y σ'; clear Hy.
    rewrite (proj2 (constantOffset_modifyValue h c _ u n (Some t) Hc)) in Hv.
    rewrite modifyValue_fixed, (stepValue_fixed_length c u n t len Hu) in Hv.
    apply TimeClip_Some in Hv as [-> _].
    unfold subtract. fold (add h {| _date := length σ;
                                    _dateFormat := _dateFormat x;
                                    _locale := _locale x |} (- n) u).
    apply (add_returns_fixed h c _ _ (t + n * len) (- n) len t u Hc).
    + split; [rewrite length_app; cbn; lia|]. cbn [_date].
      apply timeValue_new.
    + exact Hu.
    + split; [lia|exact Hr].
Qed.

Lemma add_fixed_length_units_witness :
  let σ := [Some 1709164800000] in
  let x := {| _date := 0; _dateFormat := None;
              _locale := Some "ja-JP"%string |} in
  constantOffset (fixedHost 540) 540 /\ moment σ x 1709164800000
  /\ unitLength Uday = Some 86400000 /\ exactStep Uday 5
  /\ (forall v, returns (add (fixedHost 540) x 5 Uday) σ v
                <-> v = 1709164800000 + 5 * 86400000
                    /\ Z.abs v <= maxTime).
Proof.
  cbv zeta.
  assert (Hc : constantOffset (fixedHost 540) 540)
    by (intros t; split; reflexivity).
  assert (Hm : moment [Some 1709164800000]
                 {| _date := 0; _dateFormat := None;
                    _locale := Some "ja-JP"%string |} 1709164800000)
    by (split; [cbn; lia|reflexivity]).
  assert (Hu : unitLength Uday = Some 86400000) by reflexivity.
  assert (He : exactStep Uday 5) by (vm_compute; discriminate).
  split; [exact Hc|]. split; [exact Hm|]. split; [exact Hu|].
  split; [exact He|].
  exact (proj1 (add_fixed_length_units (fixedHost 540) 540 _ _ _ 5 _ Uday
                  Hc Hm Hu He)).
Defined.

Lemma MakeDay_normal (y m dt : Z) :
  MakeDay y m dt = MakeDay (y + m / 12) (m mod 12) dt.
Proof.
  unfold MakeDay.
  replace ((m mod 12) / 12) with 0 by zdiv.
  replace ((m mod 12) mod 12) with (m mod 12) by zdiv.
  replace (y + m / 12 + 0) with (y + m / 12) by lia. reflexivity.
Qed.

Lemma month_length_28 (m leap : Z) :
  0 <= m <= 11 -> 0 <= leap <= 1 ->
  28 <= monthStart (m + 1) leap - monthStart m leap.
Proof. intros Hm Hl. month_cases. Qed.

Lemma setMonth_fixed_keep (c t m : Z) :
  HostDate.setMonth (fixedHost c) (Some t) (Some m) None
  = TimeClip (MakeDate (MakeDay (YearFromTime (t + msPerMinute * c)) m
                                (DateFromTime (t + msPerMinute * c)))
                       (TimeWithinDay (t + msPerMinute * c))
              - msPerMinute * c).
Proof. reflexivity. Qed.

Lemma stepValue_month_fixed (c t n : Z) :
  stepValue (fixedHost c) Umonth n (Some t)
  = TimeClip (MakeDate (MakeDay (YearFromTime (t + msPerMinute * c))
                                (MonthFromTime (t + msPerMinute * c) + n)
                                (DateFromTime (t + msPerMinute * c)))
                       (TimeWithinDay (t + msPerMinute * c))
              - msPerMinute * c).
Proof.
  unfold stepValue. rewrite getMonth_fixed. unfold nadd.
  apply setMonth_fixed_keep.
Qed.

Lemma month_step_fields (l n : Z) :
  DateFromTime l <= 28 ->
  let v := MakeDate (MakeDay (YearFromTime l) (MonthFromTime l + n)
                       (DateFromTime l)) (TimeWithinDay l) in
  YearFromTime v = YearFromTime l + (MonthFromTime l + n) / 12
  /\ MonthFromTime v = (MonthFromTime l + n) mod 12
  /\ DateFromTime v = DateFromTime l
  /\ TimeWithinDay v = TimeWithinDay l.
Proof.
  intros Hd. cbv zeta.
  rewrite (MakeDay_normal (YearFromTime l) (MonthFromTime l + n)).
  pose proof (TimeWithinDay_range l) as Htw.
  pose proof (DateFromTime_le_31 l) as Hd1.
  assert (Hmn : 0 <= (MonthFromTime l + n) mod 12 <= 11) by zdiv.
  pose proof (month_length_28 _ _ Hmn
                (leapOf_range (YearFromTime l + (MonthFromTime l + n) / 12)))
    as Hlen.
  assert (Hr : 1 <= DateFromTime l
               <= monthStart ((MonthFromTime l + n) mod 12 + 1)
                    (leapOf (YearFromTime l + (MonthFromTime l + n) / 12))
                  - monthStart ((MonthFromTime l + n) mod 12)
                      (leapOf (YearFromTime l + (MonthFromTime l + n) / 12)))
    by lia.
  destruct (fields_of_MakeDay
              (YearFromTime l + (MonthFromTime l + n) / 12)
              ((MonthFromTime l + n) mod 12) (DateFromTime l)
              (TimeWithinDay l) Hmn Hr Htw) as (Hy & Hm & Hdt).
  refine (conj Hy (conj Hm (conj Hdt _))).
  exact (TimeWithinDay_MakeDate _ (TimeWithinDay l) Htw).
Qed.

(** Adding months keeps the day of the month and the time of day when the
    day is at most the 28th: on a host whose zone keeps one UTC offset,
    the result of [add(n, 'month')] has the same date, hour, minute,
    second and millisecond as [x], in the month [(month0 + n) mod 12] of
    the year [year + floor((month0 + n) / 12)]. *)
Theorem add_month_keeps_date (h : Host) (c : Z) (σ : heap) (x : DateFlow)
    (t n : Z) :
  constantOffset h c -> moment σ x t ->
  let l := HostDate.LocalTime h t in
  DateFromTime l <= 28 ->
  forall v, returns (add h x n Umonth) σ v ->
    let lv := HostDate.LocalTime h v in
    YearFromTime lv = YearFromTime l + (MonthFromTime l + n) / 12
    /\ MonthFromTime lv = (MonthFromTime l + n) mod 12
    /\ DateFromTime lv = DateFromTime l
    /\ TimeWithinDay lv = TimeWithinDay l.
Proof.
  intros Hc [Hx Ht]. cbv zeta.
  rewrite (LocalTime_constant h c t Hc). intros Hd v Hv.
  rewrite (LocalTime_constant h c v Hc).
  unfold add in Hv.
  apply (returns_built _ σ x _ v (run_modifyDate h σ x n Umonth Hx)) in Hv.
  rewrite Ht in Hv.
  rewrite (proj2 (constantOffset_modifyValue h c _ Umonth n (Some t) Hc)),
    modifyValue_fixed, stepValue_month_fixed in Hv.
  apply TimeClip_Some in Hv as [Hv _].
  replace (v + msPerMinute * c)
    with (MakeDate (MakeDay (YearFromTime (t + msPerMinute * c))
                      (MonthFromTime (t + msPerMinute * c) + n)
                      (DateFromTime (t + msPerMinute * c)))
            (TimeWithinDay (t + msPerMinute * c))) by lia.
  exact (month_step_fields (t + msPerMinute * c) n Hd).
Qed.

Lemma add_month_keeps_date_witness :
  let σ := [Some 1707993072345] in
  let x := {| _date := 0; _dateFormat := None; _locale := None |} in
  constantOffset hostUTC 0 /\ moment σ x 1707993072345
  /\ DateFromTime (HostDate.LocalTime hostUTC 1707993072345) <= 28
  /\ forall v, returns (add hostUTC x 11 Umonth) σ v ->
       DateFromTime (HostDate.LocalTime hostUTC v)
       = DateFromTime (HostDate.LocalTime hostUTC 1707993072345).
Proof.
  cbv zeta.
  assert (Hm : moment [Some 1707993072345]
                 {| _date := 0; _dateFormat := None; _locale := None |}
                 1707993072345)
    by (split; [cbn; lia|reflexivity]).
  pose proof (constantOffset_fixedHost 0) as Hc.
  assert (Hd : DateFromTime (HostDate.LocalTime hostUTC 1707993072345) <= 28)
    by (vm_compute; discriminate).
  split; [exact Hc|]. split; [exact Hm|]. split; [exact Hd|].
  intros v Hv.
  exact (proj1 (proj2 (proj2
           (add_month_keeps_date hostUTC 0 _ _ _ 11 Hc Hm Hd v Hv)))).
Defined.

(** *** [diff] after [add] *)

Lemma add_value_fixed (h : Host) (c : Z) (σ σ' : heap) (x y : DateFlow)
    (t n : Z) (u : UnitType) :
  constantOffset h c -> moment σ x t ->
  add h x n u σ = (Ok y, σ') ->
  exists v, stepValue (fixedHost c) u n (Some t) = Some v
            /\ timeValue σ' (_date y) = Some v
            /\ timeValue σ' (_date x) = Some t.
Proof.
  intros Hc [Hx Ht] Hy. unfold add in Hy.
  rewrite (run_modifyDate h σ x n u Hx), Ht in Hy. unfold built in Hy.
  destruct (modifyValue h (_locale x) u n (Some t)) as [v|] eqn:Hv;
    inversion Hy; subst y σ'; clear Hy.
  rewrite (proj2 (constantOffset_modifyValue h c _ u n (Some t) Hc)) in Hv.
  rewrite modifyValue_fixed in Hv.
  exists v. split; [exact Hv|]. cbn [_date]. split; [apply timeValue_new|].
  rewrite timeValue_old by exact Hx. exact Ht.
Qed.

(** [diff] undoes [add]: on a host whose zone keeps one UTC offset, for
    an amount [n] that the step handles in exact arithmetic ([exactStep]),
    if [x.add(n, u)] returns [y] then [y.diff(x, u)] is [n], for the units
    of fixed length always and for 'month' and 'year' when the local day
    of the month of [x] is at most 28 (so that no month is too short for
    it). *)
Theorem diff_after_add (h : Host) (c : Z) (σ : heap) (x : DateFlow)
    (t n : Z) (u : UnitType) :
  constantOffset h c -> moment σ x t -> exactStep u n ->
  (unitLength u = None -> DateFromTime (HostDate.LocalTime h t) <= 28) ->
  forall y σ', add h x n u σ = (Ok y, σ') ->
               diff h y (OtherFlow x) u σ' = (Ok (Some n), σ').
Proof.
  intros Hc Hm He Hd y σ' Hy.
  destruct (add_value_fixed h c σ σ' x y t n u Hc Hm Hy)
    as (v & Hv & Hyv & Hxv).
  rewrite run_diff, Hyv, Hxv. cbv zeta. unfold exactStep in He.
  destruct (unitLength u) as [len|] eqn:Hu.
  - rewrite (stepValue_fixed_length c u n t len Hu) in Hv.
    apply TimeClip_Some in Hv as [-> _]. cbn [nsubDouble floorDiv].
    replace (t + n * len - t) with (n * len) by lia.
    unfold msPerDay in He. change (2 ^ 53) with 9007199254740992 in He.
    rewrite roundDouble_exact
      by (change (2 ^ 53) with 9007199254740992;
          destruct u; inversion Hu; subst len; lia).
    do 3 f_equal. destruct u; inversion Hu; subst len; zdiv.
  - specialize (Hd eq_refl). rewrite (LocalTime_constant h c t Hc) in Hd.
    pose proof (MonthFromTime_range (t + msPerMinute * c)) as Hmr.
    destruct u; try discriminate Hu;
      cbn [HostDate.getFullYear HostDate.getMonth HostDate.local nsub nmul
           nadd];
      rewrite !(LocalTime_constant h c _ Hc).
    + rewrite <- stepValue_months_years, stepValue_month_fixed in Hv.
      apply TimeClip_Some in Hv as [Hv _].
      destruct (month_step_fields (t + msPerMinute * c) (12 * n) Hd)
        as (HY & _).
      replace (v + msPerMinute * c)
        with (MakeDate (MakeDay (YearFromTime (t + msPerMinute * c))
                          (MonthFromTime (t + msPerMinute * c) + 12 * n)
                          (DateFromTime (t + msPerMinute * c)))
                (TimeWithinDay (t + msPerMinute * c))) by lia.
      rewrite HY. do 3 f_equal. zdiv.
    + rewrite stepValue_month_fixed in Hv.
      apply TimeClip_Some in Hv as [Hv _].
      destruct (month_step_fields (t + msPerMinute * c) n Hd)
        as (HY & HM & _).
      replace (v + msPerMinute * c)
        with (MakeDate (MakeDay (YearFromTime (t + msPerMinute * c))
                          (MonthFromTime (t + msPerMinute * c) + n)
                          (DateFromTime (t + msPerMinute * c)))
                (TimeWithinDay (t + msPerMinute * c))) by lia.
      rewrite HY, HM. do 3 f_equal. zdiv.
Qed.

Lemma diff_after_add_witness :
  let σ := [Some 1707993072345] in
  let x := {| _date := 0; _dateFormat := None; _locale := None |} in
  constantOffset hostUTC 0 /\ moment σ x 1707993072345
  /\ exactStep Umonth (-14)
  /\ (unitLength Umonth = None ->
      DateFromTime (HostDate.LocalTime hostUTC 1707993072345) <= 28)
  /\ (forall y σ', add hostUTC x (-14) Umonth σ = (Ok y, σ') ->
        diff hostUTC y (OtherFlow x) Umonth σ' = (Ok (Some (-14)), σ')).
Proof.
  cbv zeta.
  assert (Hm : moment [Some 1707993072345]
                 {| _date := 0; _dateFormat := None; _locale := None |}
                 1707993072345)
    by (split; [cbn; lia|reflexivity]).
  pose proof (constantOffset_fixedHost 0) as Hc.
  assert (Hd : unitLength Umonth = None ->
               DateFromTime (HostDate.LocalTime hostUTC 1707993072345) <= 28)
    by (intros _; vm_compute; discriminate).
  assert (He : exactStep Umonth (-14)) by (vm_compute; discriminate).
  split; [exact Hc|]. split; [exact Hm|]. split; [exact He|].
  split; [exact Hd|].
  exact (diff_after_add hostUTC 0 _ _ _ (-14) Umonth Hc Hm He Hd).
Defined.

(** *** Arithmetic across a change of the offset *)

Lemma setDate_plus (h : Host) (t n : Z) :
  HostDate.setDate h (Some t) (nadd (HostDate.getDate h (Some t)) (Some n))
  = TimeClip (HostDate.UTC h (HostDate.LocalTime h t + n * msPerDay)).
Proof.
  unfold HostDate.setDate, HostDate.getDate, HostDate.local, nadd.
  rewrite MakeDay_fields. f_equal. f_equal.
  pose proof (MakeDate_Day (HostDate.LocalTime h t)) as Hmd.
  unfold MakeDate, msPerDay in *. lia.
Qed.

Lemma setMinutes_minus (h : Host) (t d : Z) :
  HostDate.setMinutes h (Some t)
    (nsub (HostDate.getMinutes h (Some t)) (Some d)) None None
  = TimeClip (HostDate.UTC h (HostDate.LocalTime h t - d * msPerMinute)).
Proof.
  unfold HostDate.setMinutes, HostDate.getMinutes, HostDate.local, nsub,
    HostDate.orField.
  f_equal. f_equal.
  pose proof (MakeDate_Day (HostDate.LocalTime h t)) as Hmd.
  pose proof (time_fields (HostDate.LocalTime h t)) as (Htw & _).
  rewrite Htw in Hmd.
  unfold MakeDate, MakeTime, msPerDay, msPerHour, msPerMinute,
    msPerSecond in *. lia.
Qed.

Lemma getTimezoneOffset_value (h : Host) (t : Z) :
  HostDate.getTimezoneOffset h (Some t) = Some (- tzOffsetUTC h t).
Proof.
  unfold HostDate.getTimezoneOffset, HostDate.LocalTime, msPerMinute.
  f_equal. zdiv.
Qed.

Lemma modifyValue_day_across (h : Host) (locale : option string)
    (t n o1 o2 : Z) :
  tzOffsetUTC h t = o1 ->
  tzOffsetLocal h (t + msPerMinute * o1 + n * msPerDay) = o2 ->
  tzOffsetUTC h (t + msPerMinute * o1 + n * msPerDay - msPerMinute * o2)
  = o2 ->
  tzOffsetLocal h (t + msPerMinute * o1 + n * msPerDay
                   + msPerMinute * (o2 - o1)) = o2 ->
  o1 <> o2 ->
  Z.abs (t + msPerMinute * o1 + n * msPerDay - msPerMinute * o2)
  <= maxTime ->
  modifyValue h locale Uday n (Some t)
  = if truthy locale then TimeClip (t + n * msPerDay)
    else Some (t + n * msPerDay - msPerMinute * (o2 - o1)).
Proof.
  intros H1 H2 H3 H4 Hne Hr.
  assert (Hstep : stepValue h Uday n (Some t)
                  = Some (t + msPerMinute * o1 + n * msPerDay
                          - msPerMinute * o2)).
  { unfold stepValue. rewrite setDate_plus.
    unfold HostDate.UTC, HostDate.LocalTime. rewrite H1, H2.
    apply TimeClip_in_range, Hr. }
  unfold modifyValue. rewrite Hstep. unfold offsetChanged.
  rewrite !getTimezoneOffset_value, H1, H3.
  destruct (truthy locale); cbn [andb].
  - unfold nneq. destruct (Z.eqb_spec (- o1) (- o2)) as [Heq|_]; [lia|].
    cbn [negb]. unfold shiftMinutes.
    rewrite !getTimezoneOffset_value, H1, H3. cbn [nsub].
    rewrite setMinutes_minus. f_equal.
    unfold HostDate.LocalTime. rewrite H3. unfold HostDate.UTC.
    replace (t + msPerMinute * o1 + n * msPerDay - msPerMinute * o2
             + msPerMinute * o2 - (- o2 - - o1) * msPerMinute)
      with (t + msPerMinute * o1 + n * msPerDay + msPerMinute * (o2 - o1))
      by lia.
    rewrite H4. lia.
  - f_equal. lia.
Qed.

(** What the locale changes in [add(n, 'day')] when the host's offset at
    the stepped date ([o2]) differs from the one at the start ([o1]), both
    in minutes east of UTC.  Without a locale on the instance the result
    keeps the wall-clock time: the instant moves by [n] days minus the
    change of the offset.  With a locale the minutes are shifted by the
    difference of the two offsets, and the instant moves by exactly
    [n * 86400000] milliseconds: the wall-clock time is moved by the change
    of the offset. *)
Theorem add_days_across_offset_change (h : Host) (σ : heap) (x : DateFlow)
    (t n o1 o2 : Z) :
  moment σ x t ->
  tzOffsetUTC h t = o1 ->
  tzOffsetLocal h (t + msPerMinute * o1 + n * msPerDay) = o2 ->
  tzOffsetUTC h (t + msPerMinute * o1 + n * msPerDay - msPerMinute * o2)
  = o2 ->
  tzOffsetLocal h (t + msPerMinute * o1 + n * msPerDay
                   + msPerMinute * (o2 - o1)) = o2 ->
  o1 <> o2 ->
  Z.abs (t + msPerMinute * o1 + n * msPerDay - msPerMinute * o2)
  <= maxTime ->
  forall v, returns (add h x n Uday) σ v <->
    if truthy (_locale x)
    then v = t + n * msPerDay /\ Z.abs v <= maxTime
    else v = t + n * msPerDay - msPerMinute * (o2 - o1).
Proof.
  intros [Hx Ht] H1 H2 H3 H4 Hne Hr v. unfold add.
  rewrite (returns_built _ σ x _ v (run_modifyDate h σ x n Uday Hx)), Ht.
  rewrite (modifyValue_day_across h (_locale x) t n o1 o2 H1 H2 H3 H4 Hne Hr).
  destruct (truthy (_locale x)).
  - split.
    + intros Hv. apply TimeClip_Some in Hv as [-> Hv]. auto.
    + intros [-> Hv]. apply TimeClip_in_range, Hv.
  - split; [intros [= <-]; reflexivity|intros ->; reflexivity].
Qed.

Lemma add_days_across_offset_change_witness :
  let σ := [Some 1711807200000] in
  let x := {| _date := 0; _dateFormat := None;
              _locale := Some "en-US"%string |} in
  moment σ x 1711807200000
  /\ tzOffsetUTC hostNuuk 1711807200000 = -120
  /\ -120 <> -60
  /\ (forall v, returns (add hostNuuk x 1 Uday) σ v <->
        v = 1711807200000 + 1 * msPerDay /\ Z.abs v <= maxTime).
Proof.
  cbv zeta.
  assert (Hm : moment [Some 1711807200000]
                 {| _date := 0; _dateFormat := None;
                    _locale := Some "en-US"%string |} 1711807200000)
    by (split; [cbn; lia|reflexivity]).
  assert (H1 : tzOffsetUTC hostNuuk 1711807200000 = -120)
    by (vm_compute; reflexivity).
  assert (Hne : -120 <> -60) by lia.
  split; [exact Hm|]. split; [exact H1|]. split; [exact Hne|].
  intros v.
  exact (add_days_across_offset_change hostNuuk _ _ 1711807200000 1
           (-120) (-60) Hm H1
           ltac:(vm_compute; reflexivity) ltac:(vm_compute; reflexivity)
           ltac:(vm_compute; reflexivity) Hne
           ltac:(vm_compute; discriminate) v).
Defined.

(** ** An instance whose date object was invalidated *)

Lemma values_of_NaN (h : Host) (locale : option string) (u : UnitType)
    (n : Z) :
  modifyValue h locale u n None = None
  /\ startOfValue h u None = None /\ endOfValue h u None = None.
Proof.
  unfold modifyValue, offsetChanged, shiftMinutes.
  destruct u; cbn [stepValue startOfValue endOfValue]; repeat apply conj;
    try reflexivity; destruct (truthy locale); reflexivity.
Qed.

(** A [DateFlow] does not keep its validity by itself: once the [Date]
    object it holds has the time value [NaN] (the constructor keeps the
    caller's object, which a setter can invalidate later), [valueOf] and
    the accessors return [NaN] without throwing, [toISOString] and a
    [format()] that falls back to it throw a [RangeError], and [add],
    [subtract], [startOf], [endOf] and [clone] all throw the constructor's
    [Error "Invalid date provided"]. *)
Theorem invalidated_instance (h : Host) (σ : heap) (x : DateFlow) :
  (_date x < length σ)%nat -> timeValue σ (_date x) = None ->
  valueOf x σ = (Ok None, σ)
  /\ day h x σ = (Ok None, σ) /\ month h x σ = (Ok None, σ)
  /\ year h x σ = (Ok None, σ) /\ hour h x σ = (Ok None, σ)
  /\ minute h x σ = (Ok None, σ) /\ second h x σ = (Ok None, σ)
  /\ millisecond h x σ = (Ok None, σ)
  /\ throws (toISOString x) σ (RangeError "Invalid time value")
  /\ (truthy (_dateFormat x) = false -> truthy (_locale x) = false ->
      throws (format h x NoParam) σ (RangeError "Invalid time value"))
  /\ (forall op, throws (call h x op) σ (Error "Invalid date provided")).
Proof.
  intros Hx Ht.
  assert (Hb : forall v, v = None ->
            throws (fun s => built s x v) σ (Error "Invalid date provided"))
    by (intros v ->; eexists; reflexivity).
  repeat apply conj.
  - unfold valueOf. run_method. rewrite Ht. reflexivity.
  - unfold day. run_method. rewrite Ht. reflexivity.
  - unfold month. run_method. rewrite Ht. reflexivity.
  - unfold year. run_method. rewrite Ht. reflexivity.
  - unfold hour. run_method. rewrite Ht. reflexivity.
  - unfold minute. run_method. rewrite Ht. reflexivity.
  - unfold second. run_method. rewrite Ht. reflexivity.
  - unfold millisecond. run_method. rewrite Ht. reflexivity.
  - unfold throws, toISOString, Date.toISOString. run_method. rewrite Ht.
    eexists. reflexivity.
  - intros Hf Hl. unfold throws, format. cbn [orElse truthy].
    unfold orElse. cbn [truthy].
    destruct (_locale x) as [[|? ?]|]; try discriminate Hl;
      destruct (_dateFormat x) as [[|? ?]|]; try discriminate Hf;
      unfold toISOString, Date.toISOString; run_method; rewrite Ht;
      eexists; reflexivity.
  - intros op. unfold throws.
    destruct op as [n u|n u|u|u|]; cbn [call]; unfold add, subtract;
      rewrite ?(run_modifyDate h σ x _ _ Hx), ?run_startOf, ?run_endOf,
        ?run_clone, Ht;
      rewrite ?(proj1 (values_of_NaN h (_locale x) _ _)),
        ?(proj1 (proj2 (values_of_NaN h None u 0))),
        ?(proj2 (proj2 (values_of_NaN h None u 0)));
      eexists; reflexivity.
Qed.

Lemma invalidated_instance_witness :
  let σ := [None] in
  let x := {| _date := 0; _dateFormat := None; _locale := None |} in
  (_date x < length σ)%nat /\ timeValue σ (_date x) = None
  /\ throws (call hostUTC x OpClone) σ (Error "Invalid date provided").
Proof.
  cbv zeta.
  assert (Hx : (_date {| _date := 0; _dateFormat := None; _locale := None |}
                < length [@None Z])%nat) by (cbn; lia).
  assert (Ht : timeValue [None]
                 (_date {| _date := 0; _dateFormat := None;
                           _locale := None |}) = None) by reflexivity.
  split; [exact Hx|]. split; [exact Ht|].
  destruct (invalidated_instance hostUTC _ _ Hx Ht)
    as (_ & _ & _ & _ & _ & _ & _ & _ & _ & _ & Hop).
  exact (Hop OpClone).
Defined.

(** ** Range snapping on a host of constant offset *)

Lemma fields_of_midnight (d : Z) :
  Day (MakeDate d 0) = d /\ HourFromTime (MakeDate d 0) = 0
  /\ MinFromTime (MakeDate d 0) = 0 /\ SecFromTime (MakeDate d 0) = 0
  /\ msFromTime (MakeDate d 0) = 0.
Proof. apply (fields_of_MakeTime d 0 0 0 0); lia. Qed.

Lemma startOfLocal_fields (u : UnitType) (l : Z) :
  u <> Uweek ->
  let s := startOfLocal u l in
  YearFromTime s = YearFromTime l
  /\ MonthFromTime s = (if u is Uyear then 0 else MonthFromTime l)
  /\ DateFromTime s
     = (match u with Uyear | Umonth => 1 | _ => DateFromTime l end)
  /\ HourFromTime s
     = (match u with
        | Uyear | Umonth | Uweek | Uday => 0
        | _ => HourFromTime l
        end)
  /\ MinFromTime s
     = (match u with
        | Uminute | Usecond | Umillisecond => MinFromTime l
        | _ => 0
        end)
  /\ SecFromTime s
     = (match u with Usecond | Umillisecond => SecFromTime l | _ => 0 end)
  /\ msFromTime s = (if u is Umillisecond then msFromTime l else 0).
Proof.
  intros Hu. cbv zeta.
  pose proof (time_fields l) as (Htw & Hh & Hm & Hs & Hms).
  pose proof (MonthFromTime_range l) as Hmo.
  pose proof (leapOf_range (YearFromTime l)) as Hlp.
  pose proof (month_length_pos (MonthFromTime l) _ Hmo Hlp) as Hlen.
  assert (H0 : 0 <= 0 < msPerDay) by (unfold msPerDay; lia).
  destruct u; try congruence; cbn [startOfLocal].
  - destruct (fields_of_MakeDay (YearFromTime l) 0 1 0) as (-> & -> & ->);
      [lia|unfold monthStart; simpl; lia|exact H0|].
    destruct (fields_of_midnight (MakeDay (YearFromTime l) 0 1))
      as (_ & -> & -> & -> & ->). repeat split; reflexivity.
  - destruct (fields_of_MakeDay (YearFromTime l) (MonthFromTime l) 1 0)
      as (-> & -> & ->); [lia|lia|exact H0|].
    destruct (fields_of_midnight
                (MakeDay (YearFromTime l) (MonthFromTime l) 1))
      as (_ & -> & -> & -> & ->). repeat split; reflexivity.
  - destruct (fields_of_midnight (Day l)) as (Hd & -> & -> & -> & ->).
    destruct (date_fields_of_day _ _ Hd) as (-> & -> & ->).
    repeat split; reflexivity.
  - destruct (fields_of_MakeTime (Day l) (HourFromTime l) 0 0 0)
      as (Hd & -> & -> & -> & ->); [lia|lia|lia|lia|].
    destruct (date_fields_of_day _ _ Hd) as (-> & -> & ->).
    repeat split; reflexivity.
  - destruct (fields_of_MakeTime (Day l) (HourFromTime l) (MinFromTime l) 0 0)
      as (Hd & -> & -> & -> & ->); [lia|lia|lia|lia|].
    destruct (date_fields_of_day _ _ Hd) as (-> & -> & ->).
    repeat split; reflexivity.
  - destruct (fields_of_MakeTime (Day l) (HourFromTime l) (MinFromTime l)
                (SecFromTime l) 0)
      as (Hd & -> & -> & -> & ->); [lia|lia|lia|lia|].
    destruct (date_fields_of_day _ _ Hd) as (-> & -> & ->).
    repeat split; reflexivity.
  - repeat split; reflexivity.
Qed.

Lemma endOfLocal_fields (u : UnitType) (l : Z) :
  u <> Uweek ->
  let e := endOfLocal u l in
  YearFromTime e = YearFromTime l
  /\ MonthFromTime e = (if u is Uyear then 11 else MonthFromTime l)
  /\ DateFromTime e
     = (match u with
        | Uyear => 31
        | Umonth =>
            DateString.daysInMonth (YearFromTime l) (MonthFromTime l + 1)
        | _ => DateFromTime l
        end)
  /\ HourFromTime e
     = (match u with
        | Uyear | Umonth | Uweek | Uday => 23
        | _ => HourFromTime l
        end)
  /\ MinFromTime e
     = (match u with
        | Uminute | Usecond | Umillisecond => MinFromTime l
        | _ => 59
        end)
  /\ SecFromTime e
     = (match u with Usecond | Umillisecond => SecFromTime l | _ => 59 end)
  /\ msFromTime e = (if u is Umillisecond then msFromTime l else 999).
Proof.
  intros Hu. cbv zeta.
  pose proof (time_fields l) as (Htw & Hh & Hm & Hs & Hms).
  pose proof (MonthFromTime_range l) as Hmo.
  pose proof (leapOf_range (YearFromTime l)) as Hlp.
  pose proof (month_length_pos (MonthFromTime l) _ Hmo Hlp) as Hlen.
  pose proof end_of_day_range as He.
  destruct u; try congruence; cbn [endOfLocal].
  - destruct (fields_of_MakeDay (YearFromTime l) 11 31
                (MakeTime 23 59 59 999)) as (-> & -> & ->);
      [lia|unfold monthStart; simpl; lia|exact He|].
    destruct (fields_of_MakeTime (MakeDay (YearFromTime l) 11 31)
                23 59 59 999) as (_ & -> & -> & -> & ->); [lia|lia|lia|lia|].
    repeat split; reflexivity.
  - rewrite MakeDay_month_end by exact Hmo.
    destruct (fields_of_MakeDay (YearFromTime l) (MonthFromTime l)
                (monthStart (MonthFromTime l + 1) (leapOf (YearFromTime l))
                 - monthStart (MonthFromTime l) (leapOf (YearFromTime l)))
                (MakeTime 23 59 59 999)) as (-> & -> & ->);
      [lia|lia|exact He|].
    destruct (fields_of_MakeTime
                (MakeDay (YearFromTime l) (MonthFromTime l)
                   (monthStart (MonthFromTime l + 1)
                      (leapOf (YearFromTime l))
                    - monthStart (MonthFromTime l)
                        (leapOf (YearFromTime l))))
                23 59 59 999) as (_ & -> & -> & -> & ->); [lia|lia|lia|lia|].
    unfold DateString.daysInMonth.
    replace (MonthFromTime l + 1 - 1) with (MonthFromTime l) by lia.
    repeat split; reflexivity.
  - destruct (fields_of_MakeTime (Day l) 23 59 59 999)
      as (Hd & -> & -> & -> & ->); [lia|lia|lia|lia|].
    destruct (date_fields_of_day _ _ Hd) as (-> & -> & ->).
    repeat split; reflexivity.
  - destruct (fields_of_MakeTime (Day l) (HourFromTime l) 59 59 999)
      as (Hd & -> & -> & -> & ->); [lia|lia|lia|lia|].
    destruct (date_fields_of_day _ _ Hd) as (-> & -> & ->).
    repeat split; reflexivity.
  - destruct (fields_of_MakeTime (Day l) (HourFromTime l) (MinFromTime l)
                59 999) as (Hd & -> & -> & -> & ->); [lia|lia|lia|lia|].
    destruct (date_fields_of_day _ _ Hd) as (-> & -> & ->).
    repeat split; reflexivity.
  - destruct (fields_of_MakeTime (Day l) (HourFromTime l) (MinFromTime l)
                (SecFromTime l) 999) as (Hd & -> & -> & -> & ->); [lia|lia|lia|lia|].
    destruct (date_fields_of_day _ _ Hd) as (-> & -> & ->).
    repeat split; reflexivity.
  - repeat split; reflexivity.
Qed.

(** The table of [startOf] and [endOf], field by field, for the units
    other than week, on a host whose zone keeps one UTC offset: the
    returned instant has, in local time, the fields of [x] down to the
    unit, and below it the first values (month index 0, date 1, 00:00:00.000)
    for [startOf] and the last ones (month index 11, the last date of the
    month, 23:59:59.999) for [endOf]. *)
Theorem snapping_table (h : Host) (c : Z) (σ : heap) (x : DateFlow) (t : Z)
    (u : UnitType) :
  constantOffset h c -> moment σ x t -> u <> Uweek ->
  let l := HostDate.LocalTime h t in
  (forall v, returns (startOf h x u) σ v ->
     let s := HostDate.LocalTime h v in
     YearFromTime s = YearFromTime l
     /\ MonthFromTime s = (if u is Uyear then 0 else MonthFromTime l)
     /\ DateFromTime s
        = (match u with Uyear | Umonth => 1 | _ => DateFromTime l end)
     /\ HourFromTime s
        = (match u with
           | Uyear | Umonth | Uweek | Uday => 0
           | _ => HourFromTime l
           end)
     /\ MinFromTime s
        = (match u with
           | Uminute | Usecond | Umillisecond => MinFromTime l
           | _ => 0
           end)
     /\ SecFromTime s
        = (match u with Usecond | Umillisecond => SecFromTime l | _ => 0 end)
     /\ msFromTime s = (if u is Umillisecond then msFromTime l else 0))
  /\ (forall v, returns (endOf h x u) σ v ->
        let e := HostDate.LocalTime h v in
        YearFromTime e = YearFromTime l
        /\ MonthFromTime e = (if u is Uyear then 11 else MonthFromTime l)
        /\ DateFromTime e
           = (match u with
              | Uyear => 31
              | Umonth =>
                  DateString.daysInMonth (YearFromTime l)
                    (MonthFromTime l + 1)
              | _ => DateFromTime l
              end)
        /\ HourFromTime e
           = (match u with
              | Uyear | Umonth | Uweek | Uday => 23
              | _ => HourFromTime l
              end)
        /\ MinFromTime e
           = (match u with
              | Uminute | Usecond | Umillisecond => MinFromTime l
              | _ => 59
              end)
        /\ SecFromTime e
           = (match u with
              | Usecond | Umillisecond => SecFromTime l
              | _ => 59
              end)
        /\ msFromTime e = (if u is Umillisecond then msFromTime l else 999)).
Proof.
  intros Hc [Hx Ht] Hu. cbv zeta. split; intros v Hv.
  - apply (startOf_returns h c σ x t v u Hc Ht) in Hv.
    apply startOfValue_fixed in Hv as [Hv _].
    rewrite !(LocalTime_constant h c _ Hc), Hv.
    apply (startOfLocal_fields u _ Hu).
  - apply (endOf_returns h c σ x t v u Hc Ht) in Hv.
    apply endOfValue_fixed in Hv as [Hv _].
    rewrite !(LocalTime_constant h c _ Hc), Hv.
    apply (endOfLocal_fields u _ Hu).
Qed.

Lemma snapping_table_witness :
  let σ := [Some 1707993072345] in
  let x := {| _date := 0; _dateFormat := None; _locale := None |} in
  constantOffset hostUTC 0 /\ moment σ x 1707993072345 /\ Umonth <> Uweek
  /\ (forall v, returns (endOf hostUTC x Umonth) σ v ->
        DateFromTime (HostDate.LocalTime hostUTC v)
        = DateString.daysInMonth
            (YearFromTime (HostDate.LocalTime hostUTC 1707993072345))
            (MonthFromTime (HostDate.LocalTime hostUTC 1707993072345) + 1)).
Proof.
  cbv zeta.
  assert (Hm : moment [Some 1707993072345]
                 {| _date := 0; _dateFormat := None; _locale := None |}
                 1707993072345)
    by (split; [cbn; lia|reflexivity]).
  pose proof (constantOffset_fixedHost 0) as Hc.
  assert (Hu : Umonth <> Uweek) by discriminate.
  split; [exact Hc|]. split; [exact Hm|]. split; [exact Hu|].
  intros v Hv.
  exact (proj1 (proj2 (proj2
           (proj2 (snapping_table hostUTC 0 _ _ _ Umonth Hc Hm Hu) v Hv)))).
Defined.

Lemma startOfLocal_endOfLocal (u : UnitType) (l : Z) :
  startOfLocal u (endOfLocal u l) = startOfLocal u l.
Proof.
  assert (Hcase : u = Uweek \/ u <> Uweek)
    by (destruct u; first [left; reflexivity|right; discriminate]).
  destruct Hcase as [->|Hu].
  - cbn [startOfLocal endOfLocal].
    rewrite WeekDay_MakeDate, Day_MakeDate by apply end_of_day_range.
    f_equal. unfold WeekDay. zdiv.
  - destruct (endOfLocal_fields u l Hu) as (Hy & Hmo & Hd & Hh & Hmi & Hs & _).
    assert (Hday : u <> Uyear -> u <> Umonth ->
                   Day (endOfLocal u l) = Day l).
    { intros H1 H2. apply day_of_date_fields; try assumption;
        destruct u; congruence. }
    destruct u; try congruence; cbn [startOfLocal];
      rewrite ?Hy, ?Hmo; try reflexivity;
      cbn [startOfLocal] in *; rewrite ?Hday by discriminate;
      rewrite ?Hh, ?Hmi, ?Hs; reflexivity.
Qed.

Lemma endOfLocal_startOfLocal (u : UnitType) (l : Z) :
  endOfLocal u (startOfLocal u l) = endOfLocal u l.
Proof.
  assert (Hcase : u = Uweek \/ u <> Uweek)
    by (destruct u; first [left; reflexivity|right; discriminate]).
  destruct Hcase as [->|Hu].
  - cbn [startOfLocal endOfLocal].
    assert (H0 : 0 <= 0 < msPerDay) by (unfold msPerDay; lia).
    rewrite WeekDay_MakeDate, Day_MakeDate by exact H0.
    f_equal. unfold WeekDay. zdiv.
  - destruct (startOfLocal_fields u l Hu)
      as (Hy & Hmo & Hd & Hh & Hmi & Hs & _).
    assert (Hday : u <> Uyear -> u <> Umonth ->
                   Day (startOfLocal u l) = Day l).
    { intros H1 H2. apply day_of_date_fields; try assumption;
        destruct u; congruence. }
    destruct u; try congruence; cbn [endOfLocal];
      rewrite ?Hy, ?Hmo; try reflexivity;
      cbn [endOfLocal] in *; rewrite ?Hday by discriminate;
      rewrite ?Hh, ?Hmi, ?Hs; reflexivity.
Qed.

(** [startOf] and [endOf] of the same unit do not leave the unit: on a
    host whose zone keeps one UTC offset, [x.endOf(u).startOf(u)] returns
    the instant of [x.startOf(u)] and [x.startOf(u).endOf(u)] that of
    [x.endOf(u)]. *)
Theorem startOf_endOf_compose (h : Host) (c : Z) (σ : heap) (x : DateFlow)
    (t : Z) (u : UnitType) :
  constantOffset h c -> moment σ x t ->
  (forall y σ' s, endOf h x u σ = (Ok y, σ') ->
     returns (startOf h x u) σ s -> returns (startOf h y u) σ' s)
  /\ (forall y σ' e, startOf h x u σ = (Ok y, σ') ->
        returns (endOf h x u) σ e -> returns (endOf h y u) σ' e).
Proof.
  intros Hc [Hx Ht]. split.
  - intros y σ' s Hy Hs.
    rewrite run_endOf, Ht in Hy. unfold built in Hy.
    destruct (endOfValue h u (Some t)) as [e|] eqn:He;
      inversion Hy; subst y σ'; clear Hy.
    rewrite (proj2 (constantOffset_values h c u (Some t) Hc)) in He.
    apply (startOf_returns h c σ x t s u Hc Ht) in Hs.
    apply (startOf_returns h c _ _ e s u Hc);
      [cbn [_date]; apply timeValue_new|].
    destruct (endOfValue_fixed c u t e He) as [Hel [->|Her]].
    + cbn [endOfValue startOfValue] in *. congruence.
    + destruct (startOfValue_fixed c u t s Hs) as [Hsl [->|Hsr]].
      * cbn [endOfValue startOfValue] in *. congruence.
      * rewrite (startOfValue_fixed_total c u e Her);
          rewrite Hel, startOfLocal_endOfLocal, <- Hsl;
          [f_equal; lia|].
        replace (s + msPerMinute * c - msPerMinute * c) with s by lia.
        exact Hsr.
  - intros y σ' e Hy He.
    rewrite run_startOf, Ht in Hy. unfold built in Hy.
    destruct (startOfValue h u (Some t)) as [s|] eqn:Hs;
      inversion Hy; subst y σ'; clear Hy.
    rewrite (proj1 (constantOffset_values h c u (Some t) Hc)) in Hs.
    apply (endOf_returns h c σ x t e u Hc Ht) in He.
    apply (endOf_returns h c _ _ s e u Hc);
      [cbn [_date]; apply timeValue_new|].
    destruct (startOfValue_fixed c u t s Hs) as [Hsl [->|Hsr]].
    + cbn [endOfValue startOfValue] in *. congruence.
    + destruct (endOfValue_fixed c u t e He) as [Hel [->|Her]].
      * cbn [endOfValue startOfValue] in *. congruence.
      * rewrite (endOfValue_fixed_total c u s Hsr);
          rewrite Hsl, endOfLocal_startOfLocal, <- Hel;
          [f_equal; lia|].
        replace (e + msPerMinute * c - msPerMinute * c) with e by lia.
        exact Her.
Qed.

Lemma startOf_endOf_compose_witness :
  let σ := [Some 1707993072345] in
  let x := {| _date := 0; _dateFormat := None; _locale := None |} in
  constantOffset hostUTC 0 /\ moment σ x 1707993072345
  /\ (forall y σ' s, endOf hostUTC x Uweek σ = (Ok y, σ') ->
        returns (startOf hostUTC x Uweek) σ s ->
        returns (startOf hostUTC y Uweek) σ' s).
Proof.
  cbv zeta.
  assert (Hm : moment [Some 1707993072345]
                 {| _date := 0; _dateFormat := None; _locale := None |}
                 1707993072345)
    by (split; [cbn; lia|reflexivity]).
  pose proof (constantOffset_fixedHost 0) as Hc.
  split; [exact Hc|]. split; [exact Hm|].
  exact (proj1 (startOf_endOf_compose hostUTC 0 _ _ _ Uweek Hc Hm)).
Defined.

(** ** Round trip through [toISOString] *)

Section IsoRoundTrip.
Import DateString.
#[local] Open Scope string_scope.

Lemma readDigits_app (n : nat) (acc : Z) (s r rest : string) (v : Z) :
  readDigits n acc s = Some (v, r) ->
  readDigits n acc (s ++ rest) = Some (v, r ++ rest).
Proof.
  revert acc s. induction n as [|n IH]; intros acc s.
  - cbn [readDigits]. intros [= <- <-]. reflexivity.
  - destruct s as [|ch s]; [discriminate|]. cbn [readDigits append].
    destruct (digitVal ch); [|discriminate]. apply IH.
Qed.

Lemma readsBack_spec (n : nat) (v : Z) (rest : string) :
  readsBack n v = true ->
  readDigits n 0 (pad n v ++ rest) = Some (v, rest).
Proof.
  unfold readsBack.
  destruct (readDigits n 0 (pad n v)) as [[w [|ch r]]|] eqn:Hr;
    try discriminate.
  intros Hw. apply Z.eqb_eq in Hw as ->.
  apply (readDigits_app n 0 _ _ rest _ Hr).
Qed.

Lemma read_pad2 (v : Z) (rest : string) :
  (0 <= v <= 99)%Z -> readDigits 2 0 (pad 2 v ++ rest) = Some (v, rest).
Proof.
  intros Hv. apply readsBack_spec.
  apply (forallb_range (readsBack 2) 0 100); [vm_compute; reflexivity|lia].
Qed.

Lemma read_pad3 (v : Z) (rest : string) :
  (0 <= v <= 999)%Z -> readDigits 3 0 (pad 3 v ++ rest) = Some (v, rest).
Proof.
  intros Hv. apply readsBack_spec.
  apply (forallb_range (readsBack 3) 0 1000); [vm_compute; reflexivity|lia].
Qed.

Lemma read_pad4 (v : Z) (rest : string) :
  (0 <= v <= 9999)%Z -> readDigits 4 0 (pad 4 v ++ rest) = Some (v, rest).
Proof.
  intros Hv. apply readsBack_spec.
  apply (forallb_range (readsBack 4) 0 10000); [vm_compute; reflexivity|lia].
Qed.

Ltac step :=
  cbn [mbind option_bind expect append Ascii.eqb Bool.eqb].

Lemma year_in_range (t : Z) :
  (0 <= YearFromTime t <= 9999)%Z -> (Z.abs t <= maxTime)%Z.
Proof.
  intros Hy. pose proof (yearOfDay_spec (Day t)) as Hs.
  fold (YearFromTime t) in Hs.
  pose proof (DayFromYear_mono 0 (YearFromTime t) ltac:(lia)) as H1.
  pose proof (DayFromYear_mono (YearFromTime t + 1) 10000 ltac:(lia)) as H2.
  change (DayFromYear 0) with (-719528)%Z in H1.
  change (DayFromYear 10000) with 2932897%Z in H2.
  unfold Day, msPerDay, maxTime in *. zdiv.
Qed.

(** [Date.parse] reads back what [toISOString] writes, for the years 0
    to 9999, on every host. *)
Lemma parse_isoString (h : Host) (t : Z) :
  (0 <= YearFromTime t <= 9999)%Z -> parse h (isoString t) = Some t.
Proof.
  intros Hy.
  pose proof (time_fields t) as (Htw & Hh & Hm & Hs & Hms).
  pose proof (MonthFromTime_range t) as Hmo.
  pose proof (DateFromTime_le_31 t) as Hd31.
  pose proof (DateFromTime_range t) as Hd. rewrite InLeapYear_leapOf in Hd.
  unfold parse, parseISO, isoString, isoYear, readDate.
  replace ((0 <=? YearFromTime t)%Z && (YearFromTime t <=? 9999)%Z)
    with true by (symmetry; apply andb_true_iff; split; apply Z.leb_le; lia).
  assert (Hv1 : ((1 <=? MonthFromTime t + 1)%Z
                 && (MonthFromTime t + 1 <=? 12)%Z
                 && (1 <=? DateFromTime t)%Z
                 && (DateFromTime t
                     <=? daysInMonth (YearFromTime t) (MonthFromTime t + 1))%Z)
                = true).
  { rewrite !andb_true_iff, !Z.leb_le. unfold daysInMonth.
    replace (MonthFromTime t + 1 - 1)%Z with (MonthFromTime t) by lia. lia. }
  assert (Hv2 : ((HourFromTime t <=? 23)%Z && (MinFromTime t <=? 59)%Z
                 && (SecFromTime t <=? 59)%Z) = true)
    by (rewrite !andb_true_iff, !Z.leb_le; lia).
  rewrite read_pad4 by lia. step.
  rewrite read_pad2 by lia. step.
  rewrite read_pad2 by lia. step. rewrite Hv1. step.
  unfold readTime. rewrite read_pad2 by lia. step.
  rewrite read_pad2 by lia. step. unfold readSeconds. step.
  rewrite read_pad2 by lia. step. unfold readFraction. step.
  rewrite read_pad3 by lia. step. rewrite Hv2. step.
  replace (MonthFromTime t + 1 - 1)%Z with (MonthFromTime t) by lia.
  rewrite MakeDay_fields, <- Htw.
  replace (Day t + (DateFromTime t - DateFromTime t))%Z with (Day t) by lia.
  rewrite MakeDate_Day. apply TimeClip_in_range, year_in_range, Hy.
Qed.

End IsoRoundTrip.

(** Round trip through [toISOString]: constructing from the string that
    [toISOString] returns gives a [DateFlow] of the same instant, on every
    host, for the instants of the years 0 to 9999 (UTC). *)
Theorem toISOString_roundtrip (h : Host) (σ : heap) (x : DateFlow) (t : Z)
    (f l : option string) :
  moment σ x t -> 0 <= YearFromTime t <= 9999 ->
  returns (s ← toISOString x;
           constructor h {| date := Some (AString s); dateFormat := f;
                            locale := l |}) σ t.
Proof.
  intros [Hx Ht] Hy. unfold returns. rewrite run_bind.
  unfold toISOString, Date.toISOString. run_method. rewrite Ht.
  rewrite run_constructor. cbn [date resolve].
  rewrite (parse_isoString h t Hy). eexists _, _. split; [reflexivity|].
  cbn [_date]. apply timeValue_new.
Qed.

Lemma toISOString_roundtrip_witness :
  let σ := [Some 1709202600123] in
  let x := {| _date := 0; _dateFormat := None; _locale := None |} in
  moment σ x 1709202600123 /\ 0 <= YearFromTime 1709202600123 <= 9999
  /\ returns (s ← toISOString x;
              constructor hostNuuk {| date := Some (AString s);
                                      dateFormat := None; locale := None |})
       σ 1709202600123.
Proof.
  cbv zeta.
  assert (Hm : moment [Some 1709202600123]
                 {| _date := 0; _dateFormat := None; _locale := None |}
                 1709202600123)
    by (split; [cbn; lia|reflexivity]).
  assert (Hy : 0 <= YearFromTime 1709202600123 <= 9999)
    by (vm_compute; split; discriminate).
  split; [exact Hm|]. split; [exact Hy|].
  exact (toISOString_roundtrip hostNuuk _ _ _ None None Hm Hy).
Defined.

(** ** Formatting *)

Section Formatting.
#[local] Open Scope string_scope.

Lemma length_append (s1 s2 : string) :
  String.length (s1 ++ s2) = (String.length s1 + String.length s2)%nat.
Proof. induction s1 as [|c s1 IH]; cbn; [reflexivity|]. rewrite IH. reflexivity. Qed.

Lemma declared_pattern_rendering (yr mo dy hr mi sc : string) :
  let clean := allChars (fun c => negb (isLetterOf tokenLetters c)) in
  clean yr = true -> clean mo = true -> clean dy = true ->
  clean hr = true -> clean mi = true -> clean sc = true ->
  Forall (fun f =>
            let out := firstOccurrences (tokens yr mo dy hr mi sc) 0 f in
            clean out = true
            /\ (String.length yr = 4%nat -> String.length mo = 2%nat ->
                String.length dy = 2%nat -> String.length hr = 2%nat ->
                String.length mi = 2%nat -> String.length sc = 2%nat ->
                String.length out = String.length f))
         DateFormatType.
Proof.
  cbv zeta. intros Hyr Hmo Hdy Hhr Hmi Hsc. unfold DateFormatType.
  repeat (constructor;
          [cbn [firstOccurrences findToken tokens String.prefix ascii_dec
                ascii_rec ascii_rect bool_dec bool_rec bool_rect sumbool_rec
                sumbool_rect String.length Nat.sub];
           split;
           [repeat (rewrite allChars_app || cbn [allChars]);
            rewrite ?Hyr, ?Hmo, ?Hdy, ?Hhr, ?Hmi, ?Hsc; reflexivity
           |intros L1 L2 L3 L4 L5 L6;
            repeat (rewrite length_append || cbn [String.length]);
            rewrite ?L1, ?L2, ?L3, ?L4, ?L5, ?L6; reflexivity]|]).
  constructor.
Qed.

Lemma declared_pattern_nonempty (f : string) :
  f ∈ DateFormatType -> exists c f', f = String c f'.
Proof.
  intros Hf. unfold DateFormatType in Hf.
  repeat (apply elem_of_cons in Hf as [->|Hf]; [eexists _, _; reflexivity|]).
  inversion Hf.
Qed.

(** With one of the sixteen declared patterns and no locale, [format]
    replaces every token: no letter of a token is left in the result, and
    for the years 1000 to 9999 the result is as long as the pattern. *)
Theorem format_declared_patterns (h : Host) (σ : heap) (x : DateFlow)
    (t : Z) (f : string) :
  timeValue σ (_date x) = Some t -> truthy (_locale x) = false ->
  f ∈ DateFormatType ->
  exists out,
    format h x (PatternParam f) σ = (Ok out, σ)
    /\ allChars (fun c => negb (isLetterOf tokenLetters c)) out = true
    /\ ((1000 <= YearFromTime (HostDate.LocalTime h t) <= 9999)%Z ->
        String.length out = String.length f).
Proof.
  intros Ht Hl Hf.
  destruct (declared_pattern_nonempty f Hf) as (c & f' & Hne).
  set (l := HostDate.LocalTime h t).
  pose proof (time_fields l) as (_ & Hh & Hm & Hs & _).
  pose proof (MonthFromTime_range l) as Hmo.
  pose proof (DateFromTime_le_31 l) as Hd.
  assert (Hall : Forall (fun r => allChars isDigitOrMinus r = true
                                  /\ r <> EmptyString)
                   [toString (YearFromTime l);
                    padStart 2 "0" (toString (MonthFromTime l + 1));
                    padStart 2 "0" (toString (DateFromTime l));
                    padStart 2 "0" (toString (HourFromTime l));
                    padStart 2 "0" (toString (MinFromTime l));
                    padStart 2 "0" (toString (SecFromTime l))]).
  { repeat (constructor;
            [first [ apply toString_chars
                   | apply padStart_chars; apply toString_chars ]|]).
    constructor. }
  eexists. split.
  - rewrite (run_format_manual h σ x t (PatternParam f) f Ht).
    + cbv zeta. fold l. rewrite (substitute_firstOccurrences _ _ _ _ _ _ _ Hall).
      reflexivity.
    + unfold resolvedLocale, orElse. cbn [truthy]. exact Hl.
    + unfold resolvedPattern, orElse. rewrite Hne. reflexivity.
    + rewrite Hne. discriminate.
  - assert (Hclean : Forall (fun r =>
               allChars (fun c => negb (isLetterOf tokenLetters c)) r = true)
               [toString (YearFromTime l);
                padStart 2 "0" (toString (MonthFromTime l + 1));
                padStart 2 "0" (toString (DateFromTime l));
                padStart 2 "0" (toString (HourFromTime l));
                padStart 2 "0" (toString (MinFromTime l));
                padStart 2 "0" (toString (SecFromTime l))]).
    { eapply Forall_impl; [exact Hall|]. intros r [Hr _].
      apply digits_clean, Hr. }
    apply Forall_cons in Hclean as [C1 Hclean].
    apply Forall_cons in Hclean as [C2 Hclean].
    apply Forall_cons in Hclean as [C3 Hclean].
    apply Forall_cons in Hclean as [C4 Hclean].
    apply Forall_cons in Hclean as [C5 Hclean].
    apply Forall_cons in Hclean as [C6 _].
    pose proof (declared_pattern_rendering _ _ _ _ _ _ C1 C2 C3 C4 C5 C6)
      as Hr.
    cbv zeta in Hr.
    destruct (proj1 (Forall_forall _ _) Hr f Hf) as [Hout Hlen].
    split; [exact Hout|]. intros Hy. apply Hlen.
    + apply toString_year_length; lia.
    + apply padStart_two_length; lia.
    + apply padStart_two_length; lia.
    + apply padStart_two_length; lia.
    + apply padStart_two_length; lia.
    + apply padStart_two_length; lia.
Qed.

Lemma format_declared_patterns_witness :
  let σ := [Some 1735084800000] in
  let x := {| _date := 0; _dateFormat := None; _locale := None |} in
  timeValue σ (_date x) = Some 1735084800000
  /\ truthy (_locale x) = false
  /\ "DD/MM/YYYY HH:mm" ∈ DateFormatType
  /\ exists out,
       format hostUTC x (PatternParam "DD/MM/YYYY HH:mm") σ = (Ok out, σ)
       /\ allChars (fun c => negb (isLetterOf tokenLetters c)) out = true
       /\ ((1000 <= YearFromTime (HostDate.LocalTime hostUTC 1735084800000)
            <= 9999)%Z ->
           String.length out = String.length "DD/MM/YYYY HH:mm").
Proof.
  cbv zeta.
  assert (Ht : timeValue [Some 1735084800000%Z] 0 = Some 1735084800000%Z)
    by reflexivity.
  assert (Hl : truthy (_locale {| _date := 0; _dateFormat := None;
                                  _locale := None |}) = false)
    by reflexivity.
  assert (Hf : "DD/MM/YYYY HH:mm" ∈ DateFormatType)
    by (unfold DateFormatType; repeat first [apply list_elem_of_here
                                            |apply list_elem_of_further]).
  split; [exact Ht|]. split; [exact Hl|]. split; [exact Hf|].
  exact (format_declared_patterns hostUTC _
           {| _date := 0; _dateFormat := None; _locale := None |}
           _ _ Ht Hl Hf).
Defined.

Lemma run_format_locale (h : Host) (σ : heap) (x : DateFlow)
    (param : FormatParam) (c : ascii) (loc : string) :
  resolvedLocale x param = Some (String c loc) ->
  format h x param σ
  = match dateTimeFormat h (String c loc)
            (intlOptions (String c loc) (resolvedPattern x param)) with
    | inl msg => (Throw (RangeError msg), σ)
    | inr formatter =>
        match timeValue σ (_date x) with
        | Some t => (Ok (formatter t), σ)
        | None => (Throw (RangeError "Invalid time value"), σ)
        end
    end.
Proof.
  intros Hl. unfold format. unfold resolvedLocale, resolvedPattern in *.
  destruct param as [|f0|f0 l0]; cbn beta iota in *; rewrite Hl;
    match goal with
    | |- context [dateTimeFormat ?a ?b ?d] =>
        destruct (dateTimeFormat a b d)
    end; unfold Date.getTime; run_method; try reflexivity;
    destruct (timeValue σ (_date x)); reflexivity.
Qed.

(** Locale mode of [format].  When a locale is resolved, from the
    argument or from the instance, [format] constructs the host's
    [Intl.DateTimeFormat] for the locale and the options built from the
    locale and the resolved pattern: when the constructor throws its
    [RangeError] (as it does for a string that is no language tag),
    [format] throws it; otherwise the result is what the formatter gives
    for the instant.  A locale on the instance puts [format] into this
    mode also when a pattern string is passed.  The options depend on the
    separator and on the time part of the pattern only: [DD/MM/YYYY] and
    [YYYY/MM/DD] (and [DD-MM-YYYY] and [YYYY-MM-DD]) format alike, whatever
    the time suffix. *)
Theorem format_locale_mode (h : Host) (σ : heap) (x : DateFlow) (t : Z)
    (c : ascii) (loc : string) :
  timeValue σ (_date x) = Some t ->
  let l := String c loc in
  (forall param, resolvedLocale x param = Some l ->
     let options := intlOptions l (resolvedPattern x param) in
     (forall formatter, dateTimeFormat h l options = inr formatter ->
        format h x param σ = (Ok (formatter t), σ))
     /\ (forall msg, dateTimeFormat h l options = inl msg ->
           format h x param σ = (Throw (RangeError msg), σ)))
  /\ (_locale x = Some l ->
      forall f formatter,
        dateTimeFormat h l
          (intlOptions l (resolvedPattern x (PatternParam f)))
        = inr formatter ->
        format h x (PatternParam f) σ = (Ok (formatter t), σ))
  /\ Forall (fun suffix =>
               format h x (OptionsParam (Some ("DD/MM/YYYY" ++ suffix))
                             (Some l)) σ
               = format h x (OptionsParam (Some ("YYYY/MM/DD" ++ suffix))
                               (Some l)) σ
               /\ format h x (OptionsParam (Some ("DD-MM-YYYY" ++ suffix))
                                (Some l)) σ
                  = format h x (OptionsParam (Some ("YYYY-MM-DD" ++ suffix))
                                  (Some l)) σ)
            [""; " HH"; " HH:mm"; " HH:mm:ss"].
Proof.
  intros Ht. cbv zeta. split; [|split].
  - intros param Hl. rewrite (run_format_locale h σ x param c loc Hl), Ht.
    split; [intros formatter ->|intros msg ->]; reflexivity.
  - intros Hl f formatter Hf.
    rewrite (run_format_locale h σ x (PatternParam f) c loc), Hf, Ht;
      [reflexivity|].
    unfold resolvedLocale, orElse. cbn [truthy]. exact Hl.
  - repeat (constructor;
            [split;
             rewrite !(run_format_locale h σ x _ c loc)
               by reflexivity; reflexivity|]).
    constructor.
Qed.

Lemma format_locale_mode_witness :
  let σ := [Some 1735084800000] in
  let x := {| _date := 0; _dateFormat := Some "DD/MM/YYYY";
              _locale := Some "it-IT" |} in
  timeValue σ (_date x) = Some 1735084800000
  /\ _locale x = Some "it-IT"
  /\ (forall f,
        dateTimeFormat hostUTC "it-IT"
          (intlOptions "it-IT" (resolvedPattern x (PatternParam f)))
        = inr DateString.isoString)
  /\ forall f, format hostUTC x (PatternParam f) σ
               = (Ok (DateString.isoString 1735084800000), σ).
Proof.
  cbv zeta.
  assert (Ht : timeValue [Some 1735084800000%Z] 0 = Some 1735084800000%Z)
    by reflexivity.
  assert (Hl : _locale {| _date := 0; _dateFormat := Some "DD/MM/YYYY";
                          _locale := Some "it-IT" |} = Some "it-IT")
    by reflexivity.
  assert (Hf : forall f,
             dateTimeFormat hostUTC "it-IT"
               (intlOptions "it-IT"
                  (resolvedPattern
                     {| _date := 0; _dateFormat := Some "DD/MM/YYYY";
                        _locale := Some "it-IT" |} (PatternParam f)))
             = inr DateString.isoString)
    by (intros f; reflexivity).
  split; [exact Ht|]. split; [exact Hl|]. split; [exact Hf|].
  intros f.
  exact (proj1 (proj2 (format_locale_mode hostUTC _
                         {| _date := 0; _dateFormat := Some "DD/MM/YYYY";
                            _locale := Some "it-IT" |} _ "i" "t-IT" Ht))
           Hl f DateString.isoString (Hf f)).
Defined.

(** The options handed to [Intl.DateTimeFormat] for the sixteen declared
    patterns: the zone of the locale, a numeric year, month and day numeric
    for the patterns with a slash and two-digit otherwise, and the hour,
    minute and second exactly when the pattern has [HH], [mm], [ss], in
    24-hour form.  Without a pattern: two-digit month and day and all three
    time fields. *)
Theorem intlOptions_of_declared_patterns (loc : string) :
  Forall (fun f =>
            let o := intlOptions loc (Some f) in
            timeZone o = getTimeZoneFromLocale loc
            /\ opt_year o = Some "numeric"
            /\ opt_month o
               = Some (if includes "/" f then "numeric" else "2-digit")
            /\ opt_day o = opt_month o
            /\ opt_hour o = (if includes "HH" f then Some "numeric" else None)
            /\ opt_minute o
               = (if includes "mm" f then Some "numeric" else None)
            /\ opt_second o
               = (if includes "ss" f then Some "numeric" else None)
            /\ opt_hour12 o = (if includes "HH" f then Some false else None))
         DateFormatType
  /\ intlOptions loc None
     = {| timeZone := getTimeZoneFromLocale loc;
          opt_year := Some "numeric"; opt_month := Some "2-digit";
          opt_day := Some "2-digit"; opt_hour := Some "numeric";
          opt_minute := Some "numeric"; opt_second := Some "numeric";
          opt_hour12 := Some false |}.
Proof.
  split; [|reflexivity]. unfold DateFormatType.
  repeat (constructor; [vm_compute; repeat split; reflexivity|]).
  constructor.
Qed.

(** The zone of a locale: every string that is not one of the nine other
    declared locales, [en-US] included, gets America/New_York; among the
    declared locales only [en-US] does. *)
Theorem getTimeZoneFromLocale_default :
  (forall l, l ∉ LocaleType ->
             getTimeZoneFromLocale l = "America/New_York")
  /\ Forall (fun l => getTimeZoneFromLocale l = "America/New_York"
                      <-> l = "en-US") LocaleType.
Proof.
  split.
  - intros l Hl. unfold LocaleType in Hl. unfold getTimeZoneFromLocale.
    repeat match goal with
           | |- context [String.eqb l ?s] =>
               destruct (String.eqb_spec l s) as [->|_];
               [exfalso; apply Hl;
                repeat first [apply list_elem_of_here
                             |apply list_elem_of_further]|]
           end.
    reflexivity.
  - unfold LocaleType.
    repeat (constructor;
            [split; [try reflexivity; intros H; discriminate H
                    |try reflexivity; intros H; discriminate H]|]).
    constructor.
Qed.

Lemma getTimeZoneFromLocale_default_witness :
  ("nl-NL" ∉ LocaleType)
  /\ getTimeZoneFromLocale "nl-NL" = "America/New_York".
Proof.
  assert (Hl : "nl-NL" ∉ LocaleType).
  { unfold LocaleType. intros Hin.
    repeat (apply elem_of_cons in Hin as [Hin|Hin]; [discriminate Hin|]).
    inversion Hin. }
  split; [exact Hl|]. exact (proj1 getTimeZoneFromLocale_default _ Hl).
Defined.

End Formatting.

End More.
